(** * CDES-FS core models: dosage calculation and terpene pairing

    A shallow embedding of [cdes_fs/models.py] and the properties of its
    derived calculations.

    The records are Python dataclasses; their potency and concentration
    fields are [decimal.Decimal] values and the calculations use the
    operators [*], [+], [/] and [>] of that type under the ambient
    arithmetic context.  [PyDecimal] embeds the part of the [decimal]
    module those operators run through, following Lib/_pydecimal.py
    function by function, for the default context (28 significant
    digits, ROUND_HALF_EVEN, Emin = -999999, Emax = 999999,
    DivisionByZero, InvalidOperation and Overflow trapped).

    The arithmetic comes in two layers.  [PyDecimal] has the operators
    with the rounding step of Decimal._fix alone, as if the exponent
    were unbounded.  [DefaultContext] has the same operators with the
    whole of Decimal._fix: Overflow above Emax, subnormal rounding and
    underflow to zero below Emin, clamping of the exponent of a zero;
    and the methods of the records on top of them.  Within the limits
    the two layers agree ([fix_in_range], [run_in_range_returns]).

    Scope of the embedding: numbers are the finite decimals (sign,
    coefficient, exponent); NaN and the infinities are not
    represented. *)

From Stdlib Require Import ZArith NArith QArith Qpower Qabs Lia Bool List String.
From stdpp Require Import base option list strings gmap.

Local Open Scope Z_scope.

(** ** Exceptions and the error monad *)

Inductive PyException : Type :=
| DivisionByZero      (* decimal.DivisionByZero *)
| InvalidOperation    (* decimal.InvalidOperation, here: 0 / 0 *)
| Overflow            (* decimal.Overflow: a result above Emax *)
| ValueError.         (* raised by Enum lookup of an unknown value *)

Inductive result (A : Type) : Type :=
| Ok (a : A)
| Raise (e : PyException).

Arguments Ok {A} a.
Arguments Raise {A} e.

Definition rbind {A B : Type} (m : result A) (k : A -> result B) : result B :=
  match m with
  | Ok a => k a
  | Raise e => Raise e
  end.

Notation "'let*' x ':=' m 'in' k" := (rbind m (fun x => k))
  (at level 10, x name, m at level 100, k at level 200).

(** ** decimal.Decimal *)

Module PyDecimal.

(** [_sign] is [true] for a negative number, [_int] is the coefficient
    (a digit string in Python, its number here) and [_exp] the exponent:
    the number is (-1)^_sign * _int * 10^_exp. *)
Record Decimal : Type := mkDecimal
  { _sign : bool;
    _int : N;
    _exp : Z }.

(** getcontext().prec of the default context. *)
Definition prec : Z := 28.

(** 10 ** k for k >= 0. *)
Definition pow10 (k : Z) : N := (10 ^ Z.to_N k)%N.

(** len(str(n)): the number of decimal digits of [n]; [str(0)] is "0". *)
Fixpoint ndigits_aux (fuel : nat) (n : N) : Z :=
  match fuel with
  | O => 1
  | S f => if (n <? 10)%N then 1 else 1 + ndigits_aux f (n / 10)%N
  end.

Definition ndigits (n : N) : Z := ndigits_aux (N.size_nat n) n.

(** Decimal(n) for an int [n]. *)
Definition of_int (n : Z) : Decimal :=
  mkDecimal (n <? 0) (Z.abs_N n) 0.

(** A Decimal is true when it is not zero. *)
Definition __bool__ (d : Decimal) : bool := negb (_int d =? 0)%N.

(** adjusted(): the exponent of the most significant digit. *)
Definition adjusted (d : Decimal) : Z := _exp d + ndigits (_int d) - 1.

(** (-1) ** sign *)
Definition minus_one_pow (s : bool) : Z := if s then -1 else 1.

(** _int + '0' * k, where a negative [k] appends nothing. *)
Definition pad (c : N) (k : Z) : N := (c * pow10 k)%N.

(** _cmp: -1, 0 or 1.  The two padded strings have the same length when
    the adjusted exponents agree, so comparing them as strings is
    comparing them as numbers. *)
Definition _cmp (self other : Decimal) : Z :=
  if negb (__bool__ self) then
    if negb (__bool__ other) then 0
    else - minus_one_pow (_sign other)
  else if negb (__bool__ other) then minus_one_pow (_sign self)
  else if negb (_sign other) && _sign self then -1
  else if negb (_sign self) && _sign other then 1
  else
    let self_adjusted := adjusted self in
    let other_adjusted := adjusted other in
    if self_adjusted =? other_adjusted then
      let self_padded := pad (_int self) (_exp self - _exp other) in
      let other_padded := pad (_int other) (_exp other - _exp self) in
      if (self_padded =? other_padded)%N then 0
      else if (self_padded <? other_padded)%N then - minus_one_pow (_sign self)
      else minus_one_pow (_sign self)
    else if self_adjusted >? other_adjusted then minus_one_pow (_sign self)
    else - minus_one_pow (_sign self).

(** The comparison operators ==, > and < on finite numbers. *)
Definition __eq__ (self other : Decimal) : bool := _cmp self other =? 0.
Definition __gt__ (self other : Decimal) : bool := _cmp self other >? 0.
Definition __lt__ (self other : Decimal) : bool := _cmp self other <? 0.

(** The digit of weight 10^k of [c]. *)
Definition digit_at (c : N) (k : Z) : N := ((c / pow10 k) mod 10)%N.

(** _all_zeros(self._int, digits) and _exact_half(self._int, digits),
    where [k = len(self._int) - digits] digits are cut off. *)
Definition _all_zeros (c : N) (k : Z) : bool := (c mod pow10 k =? 0)%N.
Definition _exact_half (c : N) (k : Z) : bool :=
  (c mod pow10 k =? 5 * pow10 (k - 1))%N.

(** _round_half_up and _round_half_even: 1 when the kept digits are to be
    incremented, 0 when only zeros are cut, -1 otherwise. *)
Definition _round_half_up (c : N) (digits : Z) : Z :=
  let k := ndigits c - digits in
  if (5 <=? digit_at c (k - 1))%N then 1
  else if _all_zeros c k then 0
  else -1.

Definition _round_half_even (c : N) (digits : Z) : Z :=
  let k := ndigits c - digits in
  if _exact_half c k && ((digits =? 0) || N.even (digit_at c k)) then -1
  else _round_half_up c digits.

(** The rounding step of _fix: round to [prec] significant digits; a
    zero keeps its exponent.  The checks of the exponent against the
    limits of the context are in [DefaultContext._fix] below. *)
Definition _fix (self : Decimal) : Decimal :=
  if negb (__bool__ self) then self
  else
    let exp_min := ndigits (_int self) + _exp self - prec in
    if _exp self <? exp_min then
      let digits := ndigits (_int self) + _exp self - exp_min in
      let changed := _round_half_even (_int self) digits in
      let coeff := (_int self / pow10 (ndigits (_int self) - digits))%N in
      if changed >? 0 then
        let coeff := (coeff + 1)%N in
        if ndigits coeff >? prec then
          mkDecimal (_sign self) (coeff / 10)%N (exp_min + 1)
        else mkDecimal (_sign self) coeff exp_min
      else mkDecimal (_sign self) coeff exp_min
    else self.

(** _rescale to an exponent [exp <= self._exp]: pad with zeros. *)
Definition _rescale (self : Decimal) (exp : Z) : Decimal :=
  if negb (__bool__ self) then mkDecimal (_sign self) 0 exp
  else mkDecimal (_sign self) (pad (_int self) (_exp self - exp)) exp.

(** _normalize: bring both operands to the same exponent; an operand too
    small to influence the rounded sum is replaced by 1 at an exponent
    just below the other's last kept digit. *)
Definition _normalize (op1 op2 : Decimal) : Decimal * Decimal :=
  let swap := _exp op1 <? _exp op2 in
  let tmp := if swap then op2 else op1 in
  let other := if swap then op1 else op2 in
  let tmp_len := ndigits (_int tmp) in
  let other_len := ndigits (_int other) in
  let exp := _exp tmp + Z.min (-1) (tmp_len - prec - 2) in
  let other :=
    if other_len + _exp other - 1 <? exp
    then mkDecimal (_sign other) 1 exp else other in
  let tmp :=
    mkDecimal (_sign tmp) (pad (_int tmp) (_exp tmp - _exp other)) (_exp other) in
  if swap then (other, tmp) else (tmp, other).

(** self + other (rounding is not ROUND_FLOOR, so negativezero = 0). *)
Definition __add__ (self other : Decimal) : Decimal :=
  let exp := Z.min (_exp self) (_exp other) in
  if negb (__bool__ self) && negb (__bool__ other) then
    _fix (mkDecimal (_sign self && _sign other) 0 exp)
  else if negb (__bool__ self) then
    _fix (_rescale other (Z.max exp (_exp other - prec - 1)))
  else if negb (__bool__ other) then
    _fix (_rescale self (Z.max exp (_exp self - prec - 1)))
  else
    let '(op1, op2) := _normalize self other in
    if negb (Bool.eqb (_sign op1) (_sign op2)) then
      if (_int op1 =? _int op2)%N then _fix (mkDecimal false 0 exp)
      else
        let '(op1, op2) :=
          if (_int op1 <? _int op2)%N then (op2, op1) else (op1, op2) in
        _fix (mkDecimal (_sign op1) (_int op1 - _int op2)%N (_exp op1))
    else
      _fix (mkDecimal (_sign op1) (_int op1 + _int op2)%N (_exp op1)).

(** self * other.  The special cases of the source (a zero operand, a
    coefficient 1) build the same triple as the general case. *)
Definition __mul__ (self other : Decimal) : Decimal :=
  let resultsign := xorb (_sign self) (_sign other) in
  let resultexp := _exp self + _exp other in
  _fix (mkDecimal resultsign (_int self * _int other)%N resultexp).

(** The loop of __truediv__ that removes trailing zeros of an exact
    quotient while exp < ideal_exp; [fuel] is ideal_exp - exp. *)
Fixpoint strip_zeros (fuel : nat) (coeff : N) (exp : Z) : N * Z :=
  match fuel with
  | O => (coeff, exp)
  | S f =>
      if (coeff mod 10 =? 0)%N then strip_zeros f (coeff / 10)%N (exp + 1)
      else (coeff, exp)
  end.

(** self / other *)
Definition __truediv__ (self other : Decimal) : result Decimal :=
  let sign := xorb (_sign self) (_sign other) in
  if negb (__bool__ other) then
    if negb (__bool__ self) then Raise InvalidOperation
    else Raise DivisionByZero
  else if negb (__bool__ self) then
    Ok (_fix (mkDecimal sign 0 (_exp self - _exp other)))
  else
    let shift := ndigits (_int other) - ndigits (_int self) + prec + 1 in
    let exp := _exp self - _exp other - shift in
    let '(coeff, remainder) :=
      if 0 <=? shift
      then N.div_eucl (_int self * pow10 shift)%N (_int other)
      else N.div_eucl (_int self) (_int other * pow10 (- shift))%N in
    if negb (remainder =? 0)%N then
      let coeff := if (coeff mod 5 =? 0)%N then (coeff + 1)%N else coeff in
      Ok (_fix (mkDecimal sign coeff exp))
    else
      let ideal_exp := _exp self - _exp other in
      let '(coeff, exp) := strip_zeros (Z.to_nat (ideal_exp - exp)) coeff exp in
      Ok (_fix (mkDecimal sign coeff exp)).

(** The number a Decimal stands for, as a fraction (what
    fractions.Fraction(d) returns), and the same number counted in units
    of 10^e0, an integer whenever [e0 <= _exp d]. *)
Definition to_Q (d : Decimal) : Q :=
  (inject_Z (minus_one_pow (_sign d) * Z.of_N (_int d)) * (10 # 1) ^ _exp d)%Q.

Definition scaled (e0 : Z) (d : Decimal) : Z :=
  minus_one_pow (_sign d) * Z.of_N (_int d) * 10 ^ (_exp d - e0).

End PyDecimal.

Abbreviation Decimal := PyDecimal.Decimal.

(** Decimal literals of the source. *)
Definition Decimal_0_00 : Decimal := PyDecimal.mkDecimal false 0 (-2). (* Decimal("0.00") *)
Definition Decimal_0 : Decimal := PyDecimal.mkDecimal false 0 0.       (* Decimal("0") *)
Definition Decimal_0_5 : Decimal := PyDecimal.mkDecimal false 5 (-1).  (* Decimal("0.5") *)
Definition Decimal_0_3 : Decimal := PyDecimal.mkDecimal false 3 (-1).  (* Decimal("0.3") *)
Definition Decimal_0_2 : Decimal := PyDecimal.mkDecimal false 2 (-1).  (* Decimal("0.2") *)
Definition Decimal_10 : Decimal := PyDecimal.mkDecimal false 10 0.     (* Decimal("10") *)

(** Decimal(n) for a non-negative int [n]. *)
Definition Decimal_of_N (n : N) : Decimal := PyDecimal.mkDecimal false n 0.

(** ** Enumerated vocabularies

    Each vocabulary is a [class X(str, Enum)]: a closed list of members,
    each with its string value.  Calling the class on a string looks the
    member up by value and raises ValueError when there is none. *)

Class PyEnum (E : Type) : Type :=
  { members : list E;
    value : E -> string }.

Definition by_value {E : Type} `{PyEnum E} (s : string) : result E :=
  match List.find (fun e => String.eqb (value e) s) members with
  | Some e => Ok e
  | None => Raise ValueError
  end.

Module IngredientType.
Inductive t : Type :=
| FLOWER
| CONCENTRATE
| DISTILLATE
| ISOLATE
| TINCTURE
| BUTTER
| OIL
| RSO
| KIEF
| HASH
| ROSIN
| SAUCE.

#[global] Instance enum : PyEnum t :=
  { members :=
      [FLOWER; CONCENTRATE; DISTILLATE; ISOLATE; TINCTURE;
       BUTTER; OIL; RSO; KIEF; HASH; ROSIN; SAUCE];
    value e :=
      match e with
      | FLOWER => "flower"
      | CONCENTRATE => "concentrate"
      | DISTILLATE => "distillate"
      | ISOLATE => "isolate"
      | TINCTURE => "tincture"
      | BUTTER => "butter"
      | OIL => "oil"
      | RSO => "rso"
      | KIEF => "kief"
      | HASH => "hash"
      | ROSIN => "rosin"
      | SAUCE => "sauce"
      end }.
End IngredientType.

Module IngredientForm.
Inductive t : Type :=
| SOLID
| LIQUID
| POWDER
| PASTE
| CRYSTAL.

#[global] Instance enum : PyEnum t :=
  { members :=
      [SOLID; LIQUID; POWDER; PASTE; CRYSTAL];
    value e :=
      match e with
      | SOLID => "solid"
      | LIQUID => "liquid"
      | POWDER => "powder"
      | PASTE => "paste"
      | CRYSTAL => "crystal"
      end }.
End IngredientForm.

Module DosageUnit.
Inductive t : Type :=
| MG_THC
| MG_CBD
| MG_TOTAL
| GRAMS
| ML.

#[global] Instance enum : PyEnum t :=
  { members :=
      [MG_THC; MG_CBD; MG_TOTAL; GRAMS; ML];
    value e :=
      match e with
      | MG_THC => "mg_thc"
      | MG_CBD => "mg_cbd"
      | MG_TOTAL => "mg_total"
      | GRAMS => "grams"
      | ML => "ml"
      end }.
End DosageUnit.

Module RecipeCategory.
Inductive t : Type :=
| APPETIZER
| MAIN_COURSE
| DESSERT
| BEVERAGE
| SNACK
| SAUCE
| BAKED_GOOD
| CONFECTION
| SAVORY.

#[global] Instance enum : PyEnum t :=
  { members :=
      [APPETIZER; MAIN_COURSE; DESSERT; BEVERAGE; SNACK;
       SAUCE; BAKED_GOOD; CONFECTION; SAVORY];
    value e :=
      match e with
      | APPETIZER => "appetizer"
      | MAIN_COURSE => "main_course"
      | DESSERT => "dessert"
      | BEVERAGE => "beverage"
      | SNACK => "snack"
      | SAUCE => "sauce"
      | BAKED_GOOD => "baked_good"
      | CONFECTION => "confection"
      | SAVORY => "savory"
      end }.
End RecipeCategory.

Module DietaryRestriction.
Inductive t : Type :=
| VEGAN
| VEGETARIAN
| GLUTEN_FREE
| DAIRY_FREE
| NUT_FREE
| SOY_FREE
| KETO
| PALEO
| LOW_SUGAR
| ORGANIC.

#[global] Instance enum : PyEnum t :=
  { members :=
      [VEGAN; VEGETARIAN; GLUTEN_FREE; DAIRY_FREE; NUT_FREE;
       SOY_FREE; KETO; PALEO; LOW_SUGAR; ORGANIC];
    value e :=
      match e with
      | VEGAN => "vegan"
      | VEGETARIAN => "vegetarian"
      | GLUTEN_FREE => "gluten_free"
      | DAIRY_FREE => "dairy_free"
      | NUT_FREE => "nut_free"
      | SOY_FREE => "soy_free"
      | KETO => "keto"
      | PALEO => "paleo"
      | LOW_SUGAR => "low_sugar"
      | ORGANIC => "organic"
      end }.
End DietaryRestriction.

Module AllergenType.
Inductive t : Type :=
| MILK
| EGGS
| FISH
| SHELLFISH
| TREE_NUTS
| PEANUTS
| WHEAT
| SOY
| SESAME.

#[global] Instance enum : PyEnum t :=
  { members :=
      [MILK; EGGS; FISH; SHELLFISH; TREE_NUTS; PEANUTS;
       WHEAT; SOY; SESAME];
    value e :=
      match e with
      | MILK => "milk"
      | EGGS => "eggs"
      | FISH => "fish"
      | SHELLFISH => "shellfish"
      | TREE_NUTS => "tree_nuts"
      | PEANUTS => "peanuts"
      | WHEAT => "wheat"
      | SOY => "soy"
      | SESAME => "sesame"
      end }.
End AllergenType.

Module ComplianceStatus.
Inductive t : Type :=
| COMPLIANT
| PENDING_REVIEW
| NON_COMPLIANT
| EXPIRED.

#[global] Instance enum : PyEnum t :=
  { members :=
      [COMPLIANT; PENDING_REVIEW; NON_COMPLIANT; EXPIRED];
    value e :=
      match e with
      | COMPLIANT => "compliant"
      | PENDING_REVIEW => "pending_review"
      | NON_COMPLIANT => "non_compliant"
      | EXPIRED => "expired"
      end }.
End ComplianceStatus.

(** A dataclass does not check its field annotations: the generated
    [__init__] binds every field to the object it was passed.  A field
    annotated with an Enum class [E] therefore holds a member of [E] or
    some other object; a plain [str] stands for the latter.  The same
    goes for the elements of a field annotated list[E]. *)
Inductive EnumField (E : Type) : Type :=
| Member (e : E)
| Foreign (raw : string).

Arguments Member {E} e.
Arguments Foreign {E} raw.

(** The object is a member of the vocabulary, or a string equal to the
    value of one (a [str, Enum] member compares equal to its value). *)
Definition in_vocabulary {E : Type} `{PyEnum E} (x : EnumField E) : bool :=
  match x with
  | Member _ => true
  | Foreign raw => existsb (fun e => String.eqb (value e) raw) members
  end.

(** Identifiers and dates. *)
Definition UUID : Type := N.

Record date : Type := mkDate
  { year : Z; month : Z; day : Z }.

Record datetime : Type := mkDatetime
  { on : date; hour : Z; minute : Z; second : Z; microsecond : Z }.

(** ** Lab reference data *)

Module CannabisCOAReference.
Record t : Type := mk
  { coa_id : string;
    batch_number : string;
    strain_name : string;
    lab_name : option string;
    test_date : option date;
    coa_url : option string;
    thc_percentage : Decimal;
    cbd_percentage : Decimal;
    total_cannabinoids : Decimal;
    passed_microbial : bool;
    passed_pesticides : bool;
    passed_heavy_metals : bool;
    passed_residual_solvents : bool;
    harvest_date : option date;
    expiration_date : option date }.
End CannabisCOAReference.

Module TerpeneProfile.
Record t : Type := mk
  { coa_reference : CannabisCOAReference.t;
    myrcene : Decimal;
    limonene : Decimal;
    caryophyllene : Decimal;
    pinene : Decimal;
    linalool : Decimal;
    humulene : Decimal;
    terpinolene : Decimal;
    ocimene : Decimal;
    primary_flavors : list string;
    aroma_notes : list string;
    pairs_well_with : list string;
    cuisine_types : list string }.

(** list.extend on the local list [pairings]. *)
Definition extend (pairings items : list string) : list string :=
  pairings ++ items.

Definition suggest_pairings (self : t) : list string :=
  let pairings := [] in
  let pairings :=
    if PyDecimal.__gt__ (limonene self) Decimal_0_5
    then extend pairings ["citrus desserts"; "seafood"; "light salads"]
    else pairings in
  let pairings :=
    if PyDecimal.__gt__ (myrcene self) Decimal_0_5
    then extend pairings ["mangoes"; "tropical fruits"; "herbal dishes"]
    else pairings in
  let pairings :=
    if PyDecimal.__gt__ (caryophyllene self) Decimal_0_3
    then extend pairings ["black pepper"; "spicy foods"; "dark chocolate"]
    else pairings in
  let pairings :=
    if PyDecimal.__gt__ (pinene self) Decimal_0_3
    then extend pairings ["rosemary"; "pine nuts"; "Mediterranean"]
    else pairings in
  let pairings :=
    if PyDecimal.__gt__ (linalool self) Decimal_0_2
    then extend pairings ["lavender"; "honey"; "floral desserts"]
    else pairings in
  pairings.
End TerpeneProfile.

(** ** Ingredients *)

Module CannabisIngredient.
Record t : Type := mk
  { id : UUID;
    name : string;
    ingredient_type : EnumField IngredientType.t;
    form : EnumField IngredientForm.t;
    coa_reference : option CannabisCOAReference.t;
    terpene_profile : option TerpeneProfile.t;
    thc_mg_per_gram : Decimal;
    cbd_mg_per_gram : Decimal;
    is_decarboxylated : bool;
    decarb_temp_f : option Z;
    decarb_time_minutes : option Z;
    storage_temp_min_f : Z;
    storage_temp_max_f : Z;
    shelf_life_days : Z;
    light_sensitive : bool;
    supplier_id : option string;
    supplier_name : option string;
    lot_number : option string;
    received_date : option date }.

(** The generated __init__: every field is bound to its argument, and
    nothing is checked.  [id] comes from the default factory uuid4. *)
Definition __init__
    (id : UUID) (name : string)
    (ingredient_type : EnumField IngredientType.t)
    (form : EnumField IngredientForm.t)
    (coa_reference : option CannabisCOAReference.t)
    (terpene_profile : option TerpeneProfile.t)
    (thc_mg_per_gram cbd_mg_per_gram : Decimal)
    (is_decarboxylated : bool)
    (decarb_temp_f decarb_time_minutes : option Z)
    (storage_temp_min_f storage_temp_max_f shelf_life_days : Z)
    (light_sensitive : bool)
    (supplier_id supplier_name lot_number : option string)
    (received_date : option date) : result t :=
  Ok (mk id name ingredient_type form coa_reference terpene_profile
        thc_mg_per_gram cbd_mg_per_gram is_decarboxylated decarb_temp_f
        decarb_time_minutes storage_temp_min_f storage_temp_max_f
        shelf_life_days light_sensitive supplier_id supplier_name lot_number
        received_date).

Definition calculate_thc_dose (self : t) (grams : Decimal) : Decimal :=
  PyDecimal.__mul__ (thc_mg_per_gram self) grams.

Definition calculate_cbd_dose (self : t) (grams : Decimal) : Decimal :=
  PyDecimal.__mul__ (cbd_mg_per_gram self) grams.
End CannabisIngredient.

Module Ingredient.
Record t : Type := mk
  { id : UUID;
    name : string;
    category : string;
    unit : string;
    allergens : list (EnumField AllergenType.t);
    dietary_info : list (EnumField DietaryRestriction.t);
    supplier_id : option string }.
End Ingredient.

(** ** Recipes *)

Module RecipeStep.
Record t : Type := mk
  { step_number : Z;
    instruction : string;
    duration_minutes : option Z;
    temperature_f : option Z;
    tips : option string;
    max_temp_warning : bool;
    decarb_step : bool }.
End RecipeStep.

Module NutritionInfo.
Record t : Type := mk
  { calories : Z;
    fat_grams : Decimal;
    carbs_grams : Decimal;
    protein_grams : Decimal;
    fiber_grams : Decimal;
    sugar_grams : Decimal;
    sodium_mg : Z }.
End NutritionInfo.

Module DosageInfo.
Record t : Type := mk
  { thc_mg_per_serving : Decimal;
    cbd_mg_per_serving : Decimal;
    total_thc_mg : Decimal;
    total_cbd_mg : Decimal;
    servings : Z;
    onset_time_minutes : Z;
    duration_hours : Z;
    recommended_for : string;
    high_dose_warning : bool }.

(** DosageInfo(): all fields at their defaults. *)
Definition default : t :=
  mk Decimal_0_00 Decimal_0_00 Decimal_0_00 Decimal_0_00 1 60 6 "" false.

(** The dict literal evaluates the value of "thc_mg", then that of
    "cbd_mg"; [x if self.servings else y] tests the int for truth. *)
Definition calculate_per_serving (self : t) : result (gmap string Decimal) :=
  let* thc_mg :=
    (if negb (servings self =? 0)
     then PyDecimal.__truediv__ (total_thc_mg self) (PyDecimal.of_int (servings self))
     else Ok Decimal_0) in
  let* cbd_mg :=
    (if negb (servings self =? 0)
     then PyDecimal.__truediv__ (total_cbd_mg self) (PyDecimal.of_int (servings self))
     else Ok Decimal_0) in
  Ok (<["cbd_mg" := cbd_mg]> (<["thc_mg" := thc_mg]> ∅)).
End DosageInfo.

Module Recipe.
Record t : Type := mk
  { id : UUID;
    name : string;
    description : option string;
    category : EnumField RecipeCategory.t;
    cannabis_ingredients : list (CannabisIngredient.t * Decimal);
    ingredients : list (Ingredient.t * string);
    steps : list RecipeStep.t;
    prep_time_minutes : Z;
    cook_time_minutes : Z;
    total_time_minutes : Z;
    servings : Z;
    dosage_info : DosageInfo.t;
    dietary_labels : list (EnumField DietaryRestriction.t);
    allergens : list (EnumField AllergenType.t);
    nutrition : option NutritionInfo.t;
    difficulty : string;
    chef_notes : option string;
    terpene_pairing_notes : option string;
    author : option string;
    created_at : datetime;
    updated_at : datetime }.

(** The generated __init__; [id], [created_at] and [updated_at] come from
    the default factories uuid4 and datetime.utcnow. *)
Definition __init__
    (id : UUID) (name : string) (description : option string)
    (category : EnumField RecipeCategory.t)
    (cannabis_ingredients : list (CannabisIngredient.t * Decimal))
    (ingredients : list (Ingredient.t * string))
    (steps : list RecipeStep.t)
    (prep_time_minutes cook_time_minutes total_time_minutes servings : Z)
    (dosage_info : DosageInfo.t)
    (dietary_labels : list (EnumField DietaryRestriction.t))
    (allergens : list (EnumField AllergenType.t))
    (nutrition : option NutritionInfo.t)
    (difficulty : string)
    (chef_notes terpene_pairing_notes author : option string)
    (created_at updated_at : datetime) : result t :=
  Ok (mk id name description category cannabis_ingredients ingredients steps
        prep_time_minutes cook_time_minutes total_time_minutes servings
        dosage_info dietary_labels allergens nutrition difficulty chef_notes
        terpene_pairing_notes author created_at updated_at).

(** The body of the for loop: one (ingredient, amount) pair updates the
    two running totals. *)
Definition accumulate (totals : Decimal * Decimal)
    (item : CannabisIngredient.t * Decimal) : Decimal * Decimal :=
  let '(total_thc, total_cbd) := totals in
  let '(ingredient, amount) := item in
  let total_thc :=
    PyDecimal.__add__ total_thc (CannabisIngredient.calculate_thc_dose ingredient amount) in
  let total_cbd :=
    PyDecimal.__add__ total_cbd (CannabisIngredient.calculate_cbd_dose ingredient amount) in
  (total_thc, total_cbd).

(** The totals after the loop. *)
Definition totals (self : t) : Decimal * Decimal :=
  fold_left accumulate (cannabis_ingredients self) (Decimal_0_00, Decimal_0_00).

(** The keyword arguments of DosageInfo(...) are evaluated in the order
    they are written; the remaining fields take their defaults. *)
Definition calculate_total_dosage (self : t) : result DosageInfo.t :=
  let '(total_thc, total_cbd) := totals self in
  let* thc_mg_per_serving :=
    (if negb (servings self =? 0)
     then PyDecimal.__truediv__ total_thc (PyDecimal.of_int (servings self))
     else Ok Decimal_0) in
  let* cbd_mg_per_serving :=
    (if negb (servings self =? 0)
     then PyDecimal.__truediv__ total_cbd (PyDecimal.of_int (servings self))
     else Ok Decimal_0) in
  let* high_dose_warning :=
    (if negb (servings self =? 0)
     then
       let* q := PyDecimal.__truediv__ total_thc (PyDecimal.of_int (servings self)) in
       Ok (PyDecimal.__gt__ q Decimal_10)
     else Ok false) in
  Ok (DosageInfo.mk thc_mg_per_serving cbd_mg_per_serving total_thc total_cbd
        (servings self) 60 6 "" high_dose_warning).
End Recipe.

(** ** Menus *)

Module MenuItem.
Record t : Type := mk
  { id : UUID;
    recipe_id : UUID;
    name : string;
    description : option string;
    price : Decimal;
    thc_mg : Decimal;
    cbd_mg : Decimal;
    dosage_display : string;
    is_available : bool;
    available_from : option datetime;
    available_until : option datetime;
    quantity_available : option Z;
    image_url : option string;
    dietary_labels : list (EnumField DietaryRestriction.t);
    featured : bool }.
End MenuItem.

Module Menu.
Record t : Type := mk
  { id : UUID;
    name : string;
    description : option string;
    items : list MenuItem.t;
    venue_name : option string;
    venue_license : option string;
    menu_type : string;
    disclaimers : list string;
    age_requirement : Z;
    is_active : bool;
    valid_from : option datetime;
    valid_until : option datetime;
    created_at : datetime }.
End Menu.

(** ** Compliance *)

Module FoodSafetyRecord.
Record t : Type := mk
  { id : UUID;
    venue_id : string;
    inspection_date : date;
    inspector_name : option string;
    score : option Z;
    status : EnumField ComplianceStatus.t;
    cannabis_license_verified : bool;
    dosage_labeling_compliant : bool;
    coa_records_available : bool;
    staff_training_current : bool;
    notes : option string;
    next_inspection_date : option date;
    violations : list string;
    corrective_actions : list string }.

(** The generated __init__; [id] and [inspection_date] come from the
    default factories uuid4 and date.today. *)
Definition __init__
    (id : UUID) (venue_id : string) (inspection_date : date)
    (inspector_name : option string) (score : option Z)
    (status : EnumField ComplianceStatus.t)
    (cannabis_license_verified dosage_labeling_compliant
       coa_records_available staff_training_current : bool)
    (notes : option string) (next_inspection_date : option date)
    (violations corrective_actions : list string) : result t :=
  Ok (mk id venue_id inspection_date inspector_name score status
        cannabis_license_verified dosage_labeling_compliant
        coa_records_available staff_training_current notes
        next_inspection_date violations corrective_actions).
End FoodSafetyRecord.

Module LotTracking.
Record t : Type := mk
  { id : UUID;
    cannabis_ingredient_id : UUID;
    lot_number : string;
    coa_reference : option CannabisCOAReference.t;
    received_date : date;
    received_quantity : Decimal;
    current_quantity : Decimal;
    unit : string;
    recipes_used_in : list UUID;
    total_used : Decimal;
    is_active : bool;
    quarantined : bool;
    quarantine_reason : option string;
    expiration_date : option date;
    disposed_date : option date;
    disposal_reason : option string }.
End LotTracking.

(** ** The operators under the exponent limits of the context

    [PyDecimal._fix] above is the rounding step of Decimal._fix.  The
    method also checks the exponent against the limits of the context:
    a result above Emax raises Overflow (trapped by the default
    context), a result below Emin is rounded as a subnormal number at
    exponent Etiny, possibly to zero, and a zero has its exponent
    clamped; Underflow, Subnormal, Inexact, Rounded and Clamped are not
    trapped.  [DefaultContext] gives the whole method, the operators
    built on it and the methods of the records that use them. *)

Module DefaultContext.
Import PyDecimal.

(** getcontext().Emax and Emin, and the methods Etiny() and Etop(). *)
Definition Emax : Z := 999999.
Definition Emin : Z := -999999.
Definition Etiny : Z := Emin - prec + 1.
Definition Etop : Z := Emax - prec + 1.

(** Decimal._fix, with clamp = 0. *)
Definition _fix (self : Decimal) : result Decimal :=
  if negb (__bool__ self) then
    let new_exp := Z.min (Z.max (_exp self) Etiny) Emax in
    if negb (new_exp =? _exp self) then Ok (mkDecimal (_sign self) 0 new_exp)
    else Ok self
  else
    let exp_min := ndigits (_int self) + _exp self - prec in
    if exp_min >? Etop then Raise Overflow
    else
      let self_is_subnormal := exp_min <? Etiny in
      let exp_min := if self_is_subnormal then Etiny else exp_min in
      if _exp self <? exp_min then
        let digits := ndigits (_int self) + _exp self - exp_min in
        let '(rounded, digits) :=
          if digits <? 0 then (mkDecimal (_sign self) 1 (exp_min - 1), 0)
          else (self, digits) in
        let changed := _round_half_even (_int rounded) digits in
        let coeff := (_int rounded / pow10 (ndigits (_int rounded) - digits))%N in
        let '(coeff, exp_min) :=
          if changed >? 0 then
            let coeff := (coeff + 1)%N in
            if ndigits coeff >? prec then ((coeff / 10)%N, exp_min + 1)
            else (coeff, exp_min)
          else (coeff, exp_min) in
        if exp_min >? Etop then Raise Overflow
        else Ok (mkDecimal (_sign self) coeff exp_min)
      else Ok self.

(** self + other *)
Definition __add__ (self other : Decimal) : result Decimal :=
  let exp := Z.min (_exp self) (_exp other) in
  if negb (__bool__ self) && negb (__bool__ other) then
    _fix (mkDecimal (_sign self && _sign other) 0 exp)
  else if negb (__bool__ self) then
    _fix (_rescale other (Z.max exp (_exp other - prec - 1)))
  else if negb (__bool__ other) then
    _fix (_rescale self (Z.max exp (_exp self - prec - 1)))
  else
    let '(op1, op2) := _normalize self other in
    if negb (Bool.eqb (_sign op1) (_sign op2)) then
      if (_int op1 =? _int op2)%N then _fix (mkDecimal false 0 exp)
      else
        let '(op1, op2) :=
          if (_int op1 <? _int op2)%N then (op2, op1) else (op1, op2) in
        _fix (mkDecimal (_sign op1) (_int op1 - _int op2)%N (_exp op1))
    else
      _fix (mkDecimal (_sign op1) (_int op1 + _int op2)%N (_exp op1)).

(** self * other *)
Definition __mul__ (self other : Decimal) : result Decimal :=
  let resultsign := xorb (_sign self) (_sign other) in
  let resultexp := _exp self + _exp other in
  _fix (mkDecimal resultsign (_int self * _int other)%N resultexp).

(** self / other *)
Definition __truediv__ (self other : Decimal) : result Decimal :=
  let sign := xorb (_sign self) (_sign other) in
  if negb (__bool__ other) then
    if negb (__bool__ self) then Raise InvalidOperation
    else Raise DivisionByZero
  else if negb (__bool__ self) then
    _fix (mkDecimal sign 0 (_exp self - _exp other))
  else
    let shift := ndigits (_int other) - ndigits (_int self) + prec + 1 in
    let exp := _exp self - _exp other - shift in
    let '(coeff, remainder) :=
      if 0 <=? shift
      then N.div_eucl (_int self * pow10 shift)%N (_int other)
      else N.div_eucl (_int self) (_int other * pow10 (- shift))%N in
    if negb (remainder =? 0)%N then
      let coeff := if (coeff mod 5 =? 0)%N then (coeff + 1)%N else coeff in
      _fix (mkDecimal sign coeff exp)
    else
      let ideal_exp := _exp self - _exp other in
      let '(coeff, exp) := strip_zeros (Z.to_nat (ideal_exp - exp)) coeff exp in
      _fix (mkDecimal sign coeff exp).

(** CannabisIngredient.calculate_thc_dose and calculate_cbd_dose *)
Definition calculate_thc_dose (self : CannabisIngredient.t) (grams : Decimal)
  : result Decimal :=
  __mul__ (CannabisIngredient.thc_mg_per_gram self) grams.

Definition calculate_cbd_dose (self : CannabisIngredient.t) (grams : Decimal)
  : result Decimal :=
  __mul__ (CannabisIngredient.cbd_mg_per_gram self) grams.

(** DosageInfo.calculate_per_serving *)
Definition calculate_per_serving (self : DosageInfo.t)
  : result (gmap string Decimal) :=
  let* thc_mg :=
    (if negb (DosageInfo.servings self =? 0)
     then __truediv__ (DosageInfo.total_thc_mg self) (of_int (DosageInfo.servings self))
     else Ok Decimal_0) in
  let* cbd_mg :=
    (if negb (DosageInfo.servings self =? 0)
     then __truediv__ (DosageInfo.total_cbd_mg self) (of_int (DosageInfo.servings self))
     else Ok Decimal_0) in
  Ok (<["cbd_mg" := cbd_mg]> (<["thc_mg" := thc_mg]> ∅)).

(** Recipe.calculate_total_dosage: the body of the loop, the loop, and
    the method. *)
Definition accumulate (totals : Decimal * Decimal)
    (item : CannabisIngredient.t * Decimal) : result (Decimal * Decimal) :=
  let* thc := calculate_thc_dose (fst item) (snd item) in
  let* total_thc := __add__ (fst totals) thc in
  let* cbd := calculate_cbd_dose (fst item) (snd item) in
  let* total_cbd := __add__ (snd totals) cbd in
  Ok (total_thc, total_cbd).

Fixpoint loop (items : list (CannabisIngredient.t * Decimal))
    (totals : Decimal * Decimal) : result (Decimal * Decimal) :=
  match items with
  | [] => Ok totals
  | item :: items =>
      let* totals := accumulate totals item in
      loop items totals
  end.

Definition totals (self : Recipe.t) : result (Decimal * Decimal) :=
  loop (Recipe.cannabis_ingredients self) (Decimal_0_00, Decimal_0_00).

Definition calculate_total_dosage (self : Recipe.t) : result DosageInfo.t :=
  let* totals := totals self in
  let total_thc := fst totals in
  let total_cbd := snd totals in
  let* thc_mg_per_serving :=
    (if negb (Recipe.servings self =? 0)
     then __truediv__ total_thc (of_int (Recipe.servings self))
     else Ok Decimal_0) in
  let* cbd_mg_per_serving :=
    (if negb (Recipe.servings self =? 0)
     then __truediv__ total_cbd (of_int (Recipe.servings self))
     else Ok Decimal_0) in
  let* high_dose_warning :=
    (if negb (Recipe.servings self =? 0)
     then
       let* q := __truediv__ total_thc (of_int (Recipe.servings self)) in
       Ok (__gt__ q Decimal_10)
     else Ok false) in
  Ok (DosageInfo.mk thc_mg_per_serving cbd_mg_per_serving total_thc total_cbd
        (Recipe.servings self) 60 6 "" high_dose_warning).

(** A result within the limits: a zero whose exponent needs no
    clamping, or a number whose leading digit has an exponent above Emin
    and at most Emax.  The predicates below apply it to the results of
    the rounding step alone, so that a number which the context would
    round to zero is not within the limits. *)
Definition in_range (d : Decimal) : bool :=
  if (_int d =? 0)%N then (Etiny <=? _exp d) && (_exp d <=? Emax)
  else (Emin <? adjusted d) && (adjusted d <=? Emax).

(** The summation loop within the limits: each dose and each running
    total, as the rounding step alone gives them, is [in_range]. *)
Fixpoint loop_in_range (items : list (CannabisIngredient.t * Decimal))
    (totals : Decimal * Decimal) : bool :=
  match items with
  | [] => true
  | item :: items =>
      let thc := CannabisIngredient.calculate_thc_dose (fst item) (snd item) in
      let cbd := CannabisIngredient.calculate_cbd_dose (fst item) (snd item) in
      in_range thc && in_range (PyDecimal.__add__ (fst totals) thc)
      && in_range cbd && in_range (PyDecimal.__add__ (snd totals) cbd)
      && loop_in_range items (Recipe.accumulate totals item)
  end.

(** The quotient total / servings within the limits (nothing is divided
    when servings is 0). *)
Definition quotient_in_range (total : Decimal) (servings : Z) : bool :=
  (servings =? 0)
  || match PyDecimal.__truediv__ total (of_int servings) with
     | Ok q => in_range q
     | Raise _ => false
     end.

(** A run of calculate_total_dosage within the limits: the loop and the
    two quotients. *)
Definition run_in_range (self : Recipe.t) : bool :=
  loop_in_range (Recipe.cannabis_ingredients self) (Decimal_0_00, Decimal_0_00)
  && quotient_in_range (fst (Recipe.totals self)) (Recipe.servings self)
  && quotient_in_range (snd (Recipe.totals self)) (Recipe.servings self).

End DefaultContext.

(** ** The pairing table of the specification

    Section 4.1 of the specification gives the pairing rules as a table:
    a terpene, a threshold it must exceed, and the suggestions appended.
    [suggest_pairings_spec] reads the table row by row. *)

Definition pairing_rules :
    list ((TerpeneProfile.t -> Decimal) * Decimal * list string) :=
  [ (TerpeneProfile.limonene, Decimal_0_5,
     ["citrus desserts"; "seafood"; "light salads"]);
    (TerpeneProfile.myrcene, Decimal_0_5,
     ["mangoes"; "tropical fruits"; "herbal dishes"]);
    (TerpeneProfile.caryophyllene, Decimal_0_3,
     ["black pepper"; "spicy foods"; "dark chocolate"]);
    (TerpeneProfile.pinene, Decimal_0_3,
     ["rosemary"; "pine nuts"; "Mediterranean"]);
    (TerpeneProfile.linalool, Decimal_0_2,
     ["lavender"; "honey"; "floral desserts"]) ].

Definition fires (self : TerpeneProfile.t)
    (rule : (TerpeneProfile.t -> Decimal) * Decimal * list string) : bool :=
  let '(terpene, threshold, _) := rule in
  PyDecimal.__gt__ (terpene self) threshold.

Definition suggest_pairings_spec (self : TerpeneProfile.t) : list string :=
  flat_map (fun rule => if fires self rule then snd rule else []) pairing_rules.

(** ** Sample records *)

Definition sample_coa : CannabisCOAReference.t :=
  CannabisCOAReference.mk "COA-0001" "B-17" "Lemon Haze" None None None
    Decimal_0_00 Decimal_0_00 Decimal_0_00 true true true true None None.

Definition other_coa : CannabisCOAReference.t :=
  CannabisCOAReference.mk "COA-0002" "B-18" "Granddaddy Purple" (Some "Acme Labs")
    None None (PyDecimal.mkDecimal false 215 (-1)) Decimal_0_00
    (PyDecimal.mkDecimal false 240 (-1)) true true false true None None.

(** TerpeneProfile(coa_reference=sample_coa, limonene=Decimal("0.6")) *)
Definition limonene_profile : TerpeneProfile.t :=
  TerpeneProfile.mk sample_coa Decimal_0_00 (PyDecimal.mkDecimal false 6 (-1))
    Decimal_0_00 Decimal_0_00 Decimal_0_00 Decimal_0_00 Decimal_0_00
    Decimal_0_00 [] [] [] [].

(** The same five concentrations, written differently, with another
    certificate, other minor terpenes and stored lists. *)
Definition limonene_profile' : TerpeneProfile.t :=
  TerpeneProfile.mk other_coa Decimal_0 (PyDecimal.mkDecimal false 600 (-3))
    Decimal_0 Decimal_0 Decimal_0 (PyDecimal.mkDecimal false 9 (-1))
    (PyDecimal.mkDecimal false 4 (-1)) (PyDecimal.mkDecimal false 7 (-1))
    ["citrus"] ["pine"] ["chocolate"] ["Italian"].

(** TerpeneProfile(coa_reference=sample_coa, myrcene=Decimal("0.5")) *)
Definition myrcene_profile : TerpeneProfile.t :=
  TerpeneProfile.mk sample_coa Decimal_0_5 Decimal_0_00
    Decimal_0_00 Decimal_0_00 Decimal_0_00 Decimal_0_00 Decimal_0_00
    Decimal_0_00 [] [] [] [].

(** CannabisIngredient(thc_mg_per_gram=thc, cbd_mg_per_gram=cbd) *)
Definition ingredient_with (thc cbd : Decimal) : CannabisIngredient.t :=
  CannabisIngredient.mk 1%N "" (Member IngredientType.DISTILLATE)
    (Member IngredientForm.LIQUID) None None thc cbd true None None 60 70 365
    true None None None None.

Definition epoch : datetime := mkDatetime (mkDate 1970 1 1) 0 0 0 0.

(** Recipe(cannabis_ingredients=items, servings=n) *)
Definition recipe_with (items : list (CannabisIngredient.t * Decimal))
    (n : Z) : Recipe.t :=
  Recipe.mk 2%N "" None (Member RecipeCategory.DESSERT) items [] [] 0 0 0 n
    DosageInfo.default [] [] None "medium" None None None epoch epoch.

(** The scenario of the specification: A at 10 mg/g used at 2 g, B at
    5 mg/g used at 1 g. *)
Definition ingredient_A : CannabisIngredient.t :=
  ingredient_with (Decimal_of_N 10) Decimal_0_00.
Definition ingredient_B : CannabisIngredient.t :=
  ingredient_with (Decimal_of_N 5) Decimal_0_00.
Definition scenario_items : list (CannabisIngredient.t * Decimal) :=
  [(ingredient_A, Decimal_of_N 2); (ingredient_B, Decimal_of_N 1)].


(** A negative potency and a negative number of servings: neither is
    rejected by the dataclasses. *)
Definition recipe_negative : Recipe.t :=
  recipe_with
    [(ingredient_with (PyDecimal.mkDecimal true 20 0) Decimal_0_00, Decimal_of_N 1)]
    (-1).



(** ** The two running totals of calculate_total_dosage, one at a time

    Each total is the left-to-right sum of potency * amount over the
    pairs of [cannabis_ingredients], started at Decimal("0.00"). *)

Definition thc_terms (items : list (CannabisIngredient.t * Decimal))
  : list (Decimal * Decimal) :=
  map (fun item => (CannabisIngredient.thc_mg_per_gram (fst item), snd item)) items.

Definition cbd_terms (items : list (CannabisIngredient.t * Decimal))
  : list (Decimal * Decimal) :=
  map (fun item => (CannabisIngredient.cbd_mg_per_gram (fst item), snd item)) items.

Definition sum_products (terms : list (Decimal * Decimal)) (start : Decimal)
  : Decimal :=
  fold_left (fun total term =>
               PyDecimal.__add__ total (PyDecimal.__mul__ (fst term) (snd term)))
    terms start.

(** total / self.servings if self.servings else Decimal("0"): the
    per-serving value both methods compute from a total. *)
Definition per_serving (total : Decimal) (servings : Z) : result Decimal :=
  if negb (servings =? 0)
  then PyDecimal.__truediv__ total (PyDecimal.of_int servings)
  else Ok Decimal_0.

(** A vocabulary whose members are all listed, with pairwise distinct
    values, so that calling the class on a string returns a member
    exactly when the string is that member's value. *)
Definition faithful (E : Type) `{PyEnum E} : Prop :=
  NoDup (map value (members : list E)) /\
  (forall e : E, In e members) /\
  (forall (s : string) (e : E), by_value s = Ok e <-> value e = s).

(** ** Exact sums, for comparison with the rounded totals *)

(** Decimal(z).scaleb(e): the number z * 10^e with exponent [e]. *)
Definition units (e z : Z) : Decimal :=
  PyDecimal.mkDecimal (z <? 0) (Z.abs_N z) e.

(** The exact product potency * amount, before any rounding. *)
Definition product (term : Decimal * Decimal) : Decimal :=
  PyDecimal.mkDecimal
    (xorb (PyDecimal._sign (fst term)) (PyDecimal._sign (snd term)))
    (PyDecimal._int (fst term) * PyDecimal._int (snd term))
    (PyDecimal._exp (fst term) + PyDecimal._exp (snd term)).

Definition Zsum (l : list Z) : Z := fold_right Z.add 0 l.

(** The exact sum of the products and the sum of their magnitudes, as
    fractions. *)
Definition exact_sum (terms : list (Decimal * Decimal)) : Q :=
  fold_right (fun term acc =>
                (PyDecimal.to_Q (fst term) * PyDecimal.to_Q (snd term) + acc)%Q)
    0%Q terms.

Definition magnitude (terms : list (Decimal * Decimal)) : Q :=
  fold_right (fun term acc =>
                (Qabs (PyDecimal.to_Q (fst term) * PyDecimal.to_Q (snd term)) + acc)%Q)
    0%Q terms.

(** Every product is a whole number of units 10^e0. *)
Definition on_grid (e0 : Z) (terms : list (Decimal * Decimal)) : Prop :=
  Forall (fun term => e0 <= PyDecimal._exp (fst term) + PyDecimal._exp (snd term))
    terms.

(** ** Further samples *)

(** The scenario's ingredients with other CBD potencies, names and
    storage data; the THC potencies and the amounts are the same. *)
Definition relabelled_A : CannabisIngredient.t * Decimal :=
  (CannabisIngredient.mk 3%N "butter" (Member IngredientType.BUTTER)
     (Member IngredientForm.SOLID) None None (Decimal_of_N 10)
     (PyDecimal.mkDecimal false 125 (-2)) false (Some 240) (Some 40) 35 40
     90 false None None (Some "L-1") None, Decimal_of_N 2).
Definition relabelled_B : CannabisIngredient.t * Decimal :=
  (ingredient_with (Decimal_of_N 5) (Decimal_of_N 3), Decimal_of_N 1).

Definition recipe_scenario_relabelled : Recipe.t :=
  Recipe.mk 7%N "brownies" (Some "relabelled") (Foreign "pizza")
    [relabelled_A; relabelled_B]
    [] [] 15 30 45 3 DosageInfo.default [] [] None "easy" None None None
    epoch epoch.


(** 1E+28 mg/g used at 1 g, and 5 mg/g used at 1 g. *)
Definition huge_item : CannabisIngredient.t * Decimal :=
  (ingredient_with (PyDecimal.mkDecimal false 1 28) Decimal_0_00, Decimal_of_N 1).
Definition five_item : CannabisIngredient.t * Decimal :=
  (ingredient_with (Decimal_of_N 5) Decimal_0_00, Decimal_of_N 1).


(** TerpeneProfile with every concentration at Decimal("0.6") *)
Definition full_profile : TerpeneProfile.t :=
  let c := PyDecimal.mkDecimal false 6 (-1) in
  TerpeneProfile.mk sample_coa c c c c c c c c [] [] [] [].

(** One ingredient at 1E+999999 mg/g used at 10 g, nothing served: the
    dose is above Emax. *)
Definition recipe_overflow : Recipe.t :=
  recipe_with
    [(ingredient_with (PyDecimal.mkDecimal false 1 999999) Decimal_0_00,
      Decimal_of_N 10)]
    0.

(** DosageInfo(total_thc_mg=Decimal("1E+2000000"), servings=1) *)
Definition dosage_overflow : DosageInfo.t :=
  DosageInfo.mk Decimal_0_00 Decimal_0_00 (PyDecimal.mkDecimal false 1 2000000)
    Decimal_0_00 1 60 6 "" false.

(** * Properties of the Decimal arithmetic *)

Module PyDecimalFacts.
Import PyDecimal.

(** [lia] and [nia] also see through [/] and [mod]. *)
Ltac Zify.zify_post_hook ::= Z.to_euclidean_division_equations.

(** A power of ten with a non-negative exponent is positive. *)
Ltac pow_pos := apply Z.pow_pos_nonneg; lia.

Lemma prec_pos : 0 < prec.
Proof. reflexivity. Qed.

Lemma pow10_Z k : 0 <= k -> Z.of_N (pow10 k) = 10 ^ k.
Proof.
  intros Hk. unfold pow10. rewrite N2Z.inj_pow, Z2N.id by lia. reflexivity.
Qed.

Lemma pow10_nonpos k : k <= 0 -> pow10 k = 1%N.
Proof.
  intros Hk. unfold pow10. replace (Z.to_N k) with 0%N by lia. reflexivity.
Qed.

Lemma pow10_pos k : (0 < pow10 k)%N.
Proof.
  unfold pow10. apply N.neq_0_lt_0, N.pow_nonzero. discriminate.
Qed.

Lemma Zpow10_pos k : 0 < 10 ^ k \/ k < 0.
Proof. destruct (Z_lt_le_dec k 0); [right|left]; lia. Qed.

Lemma Zpow10_succ k : 0 <= k -> 10 ^ (k + 1) = 10 * 10 ^ k.
Proof. intros. rewrite Z.pow_add_r by lia. lia. Qed.

Lemma size_nat_gt (p : positive) : Z.pos p < 2 ^ Z.of_nat (Pos.size_nat p).
Proof.
  induction p as [p IH|p IH|]; cbn [Pos.size_nat];
    rewrite ?Nat2Z.inj_succ, ?Z.pow_succ_r by lia; lia.
Qed.

Lemma ndigits_aux_spec (f : nat) : forall n : N,
  Z.of_N n < 2 ^ Z.of_nat f -> n <> 0%N ->
  1 <= ndigits_aux f n /\
  10 ^ (ndigits_aux f n - 1) <= Z.of_N n < 10 ^ ndigits_aux f n.
Proof.
  induction f as [|f IH]; intros n Hlt Hn.
  - cbn in Hlt. lia.
  - cbn [ndigits_aux]. destruct (N.ltb_spec n 10) as [Hs|Hs].
    + cbn. lia.
    + assert (Hq : (n / 10 <> 0)%N) by (zify; lia).
      assert (Hb : Z.of_N (n / 10) < 2 ^ Z.of_nat f).
      { rewrite Nat2Z.inj_succ, Z.pow_succ_r in Hlt by lia. zify. lia. }
      destruct (IH _ Hb Hq) as [H1 [H2 H3]].
      set (d := ndigits_aux f (n / 10)%N) in *.
      replace (1 + d - 1) with ((d - 1) + 1) by lia.
      replace (1 + d) with (d + 1) by lia.
      rewrite !Zpow10_succ by lia.
      split; [lia|]. zify. lia.
Qed.

Lemma ndigits_0 : ndigits 0%N = 1.
Proof. reflexivity. Qed.

Lemma ndigits_spec (n : N) : n <> 0%N ->
  10 ^ (ndigits n - 1) <= Z.of_N n < 10 ^ ndigits n.
Proof.
  intros Hn. unfold ndigits. apply ndigits_aux_spec; [|exact Hn].
  destruct n as [|p]; [congruence|]. apply size_nat_gt.
Qed.

Lemma ndigits_pos (n : N) : 1 <= ndigits n.
Proof.
  destruct (N.eq_dec n 0%N) as [->|Hn]; [rewrite ndigits_0; lia|].
  unfold ndigits. apply ndigits_aux_spec; [|exact Hn].
  destruct n as [|p]; [congruence|]. apply size_nat_gt.
Qed.

Lemma ndigits_le (n : N) (d : Z) : 1 <= d -> Z.of_N n < 10 ^ d -> ndigits n <= d.
Proof.
  intros Hd Hlt. destruct (N.eq_dec n 0%N) as [->|Hn]; [rewrite ndigits_0; lia|].
  destruct (ndigits_spec n Hn) as [Hlo _].
  destruct (Z_le_gt_dec (ndigits n) d) as [|Hgt]; [assumption|exfalso].
  assert (10 ^ d <= 10 ^ (ndigits n - 1)) by (apply Z.pow_le_mono_r; lia).
  lia.
Qed.

Lemma ndigits_ge (n : N) (d : Z) : 10 ^ (d - 1) <= Z.of_N n -> 1 <= d -> d <= ndigits n.
Proof.
  intros Hlo Hd.
  assert (Hn : n <> 0%N).
  { intros ->. assert (0 < 10 ^ (d - 1)) by pow_pos. lia. }
  destruct (ndigits_spec n Hn) as [_ Hhi].
  destruct (Z_le_gt_dec d (ndigits n)) as [|Hgt]; [assumption|exfalso].
  assert (10 ^ ndigits n <= 10 ^ (d - 1)) by (apply Z.pow_le_mono_r; lia).
  lia.
Qed.


(** *** Rounding *)

Lemma pow10_succ k : 0 <= k -> pow10 (k + 1) = (10 * pow10 k)%N.
Proof.
  intros Hk. apply N2Z.inj. rewrite N2Z.inj_mul, !pow10_Z by lia.
  rewrite Zpow10_succ by lia. reflexivity.
Qed.

Lemma digit_at_half (c : N) (k : Z) : 1 <= k ->
  (5 <=? digit_at c (k - 1))%N = (pow10 k <=? 2 * (c mod pow10 k))%N.
Proof.
  intros Hk. unfold digit_at.
  replace k with ((k - 1) + 1) at 2 3 by lia. rewrite pow10_succ by lia.
  pose proof (pow10_pos (k - 1)) as HA. set (A := pow10 (k - 1)) in *.
  rewrite (N.mul_comm 10 A), N.Div0.mod_mul_r.
  pose proof (N.mod_upper_bound c A ltac:(lia)) as Hv.
  set (v := (c mod A)%N) in *. set (w := ((c / A) mod 10)%N).
  destruct (N.leb_spec 5 w), (N.leb_spec (A * 10) (2 * (v + A * w)));
    try reflexivity; exfalso; nia.
Qed.

Lemma even_digit_at (c : N) (k : Z) :
  N.even (digit_at c k) = N.even (c / pow10 k).
Proof.
  unfold digit_at. set (q := (c / pow10 k)%N).
  rewrite (N.div_mod q 10) at 2 by discriminate.
  replace (10 * (q / 10))%N with (2 * (5 * (q / 10)))%N by lia.
  rewrite N.add_comm, N.even_add_mul_2. reflexivity.
Qed.

(** Whether _round_half_even asks for an increment, in terms of the
    quotient and remainder of the coefficient by 10^k. *)
Lemma round_half_even_incr (c : N) (digits : Z) :
  1 <= digits -> digits < ndigits c ->
  let k := ndigits c - digits in
  let P := pow10 k in
  (_round_half_even c digits >? 0) =
  ((P <? 2 * (c mod P)) || ((P =? 2 * (c mod P)) && N.odd (c / P)))%N.
Proof.
  intros Hd Hl k P. unfold _round_half_even, _round_half_up. fold k.
  rewrite digit_at_half by (unfold k; lia). fold P.
  rewrite even_digit_at. fold P. unfold _exact_half, _all_zeros. fold P.
  assert (HP : P = (10 * pow10 (k - 1))%N).
  { unfold P. replace k with ((k - 1) + 1) at 1 by lia.
    apply pow10_succ. unfold k. lia. }
  replace (digits =? 0) with false by (symmetry; apply Z.eqb_neq; lia).
  rewrite orb_false_l, <- N.negb_odd.
  set (A := pow10 (k - 1)) in *. set (r := (c mod P)%N).
  destruct (N.eqb_spec r (5 * A)) as [E|E];
    destruct (N.odd (c / P)); cbn [negb andb];
    destruct (N.leb_spec P (2 * r)); destruct (N.ltb_spec P (2 * r));
    destruct (N.eqb_spec P (2 * r)); try destruct (N.eqb_spec r 0);
    cbn; try reflexivity; exfalso; lia.
Qed.

Lemma fix_small (d : Decimal) : ndigits (_int d) <= prec -> _fix d = d.
Proof.
  intros H. unfold _fix. destruct (__bool__ d); cbn [negb]; [|reflexivity].
  destruct (Z.ltb_spec (_exp d) (ndigits (_int d) + _exp d - prec)); [lia|reflexivity].
Qed.

Lemma fix_zero (d : Decimal) : _int d = 0%N -> _fix d = d.
Proof. intros H. apply fix_small. rewrite H, ndigits_0. pose proof prec_pos. lia. Qed.

(** The shape of _fix on a coefficient with more than [prec] digits:
    the quotient by 10^k, incremented or not according to the remainder,
    with the carry into a further digit handled by dropping a zero. *)
Lemma fix_round (d : Decimal) :
  prec < ndigits (_int d) ->
  let k := ndigits (_int d) - prec in
  let q := Z.of_N (_int d) / 10 ^ k in
  let r := Z.of_N (_int d) mod 10 ^ k in
  exists q' : Z,
    (q' = q /\ 2 * r <= 10 ^ k \/ q' = q + 1 /\ 10 ^ k <= 2 * r) /\
    10 ^ (prec - 1) <= q' /\
    (_fix d = mkDecimal (_sign d) (Z.to_N q') (_exp d + k) /\ q' < 10 ^ prec
     \/ _fix d = mkDecimal (_sign d) (Z.to_N (q' / 10)) (_exp d + k + 1)
        /\ q' = 10 ^ prec).
Proof.
  intros Hl k q r. pose proof prec_pos as Hp.
  assert (Hc : _int d <> 0%N).
  { intros E. rewrite E, ndigits_0 in Hl. lia. }
  destruct (ndigits_spec _ Hc) as [Hlo Hhi].
  assert (Hk : 1 <= k) by (unfold k; lia).
  assert (HP : Z.of_N (pow10 k) = 10 ^ k) by (apply pow10_Z; lia).
  assert (HPpos : 0 < 10 ^ k) by pow_pos.
  assert (Hq : 10 ^ (prec - 1) <= q < 10 ^ prec).
  { unfold q. replace (ndigits (_int d) - 1) with ((prec - 1) + k) in Hlo by (unfold k; lia).
    replace (ndigits (_int d)) with (prec + k) in Hhi by (unfold k; lia).
    rewrite Z.pow_add_r in Hlo, Hhi by lia.
    split.
    - apply Z.div_le_lower_bound; lia.
    - apply Z.div_lt_upper_bound; lia. }
  unfold _fix. unfold __bool__. rewrite (proj2 (N.eqb_neq _ _) Hc). cbn [negb].
  destruct (Z.ltb_spec (_exp d) (ndigits (_int d) + _exp d - prec)) as [_|]; [|lia].
  replace (ndigits (_int d) + _exp d - (ndigits (_int d) + _exp d - prec)) with prec by lia.
  rewrite round_half_even_incr by lia. fold k.
  replace (ndigits (_int d) + _exp d - prec) with (_exp d + k) by (unfold k; lia).
  set (P := pow10 k) in *.
  assert (Eq : Z.of_N (_int d / P) = q) by (unfold q; rewrite N2Z.inj_div, HP; reflexivity).
  assert (Er : Z.of_N (_int d mod P) = r) by (unfold r; rewrite N2Z.inj_mod, HP; reflexivity).
  assert (Hr : 0 <= r < 10 ^ k) by (unfold r; apply Z.mod_pos_bound; lia).
  destruct ((P <? 2 * (_int d mod P))%N || ((P =? 2 * (_int d mod P))%N && N.odd (_int d / P))) eqn:Hch.
  - assert (Hge : 10 ^ k <= 2 * r).
    { apply orb_true_iff in Hch. destruct Hch as [H|H].
      - apply N.ltb_lt in H. lia.
      - apply andb_true_iff in H. destruct H as [H _]. apply N.eqb_eq in H. lia. }
    exists (q + 1). split; [right; split; [reflexivity|assumption]|].
    split; [lia|].
    assert (Eq1 : (_int d / P + 1)%N = Z.to_N (q + 1)) by lia.
    rewrite Eq1.
    destruct (Z.gtb_spec (ndigits (Z.to_N (q + 1))) prec) as [Hg|Hg].
    + right. split.
      * f_equal.
        apply N2Z.inj. rewrite N2Z.inj_div, !Z2N.id by (try apply Z.div_pos; lia). reflexivity.
      * assert (~ q + 1 < 10 ^ prec); [|lia].
        intros Hlt. assert (ndigits (Z.to_N (q + 1)) <= prec); [|lia].
        apply ndigits_le; [lia|]. rewrite Z2N.id by lia. assumption.
    + left. split; [reflexivity|].
      destruct (Z_lt_le_dec (q + 1) (10 ^ prec)) as [|Hbig]; [assumption|exfalso].
      assert (prec + 1 <= ndigits (Z.to_N (q + 1))); [|lia].
      apply ndigits_ge; [|lia]. rewrite Z2N.id by lia.
      replace (prec + 1 - 1) with prec by lia. assumption.
  - assert (Hle : 2 * r <= 10 ^ k).
    { apply orb_false_iff in Hch. destruct Hch as [H _].
      apply N.ltb_ge in H. lia. }
    exists q. split; [left; split; [reflexivity|assumption]|].
    split; [lia|]. left. split; [|lia].
    f_equal. lia.
Qed.

(** *** Values *)

Lemma minus_one_pow_cases s : minus_one_pow s = 1 \/ minus_one_pow s = -1.
Proof. destruct s; cbn; lia. Qed.

Lemma scaled_mk e0 s c e :
  scaled e0 (mkDecimal s c e) = minus_one_pow s * Z.of_N c * 10 ^ (e - e0).
Proof. reflexivity. Qed.

(** Changing the unit multiplies by a power of ten. *)
Lemma scaled_shift (e0 e1 : Z) (d : Decimal) :
  e0 <= e1 -> e1 <= _exp d -> scaled e0 d = scaled e1 d * 10 ^ (e1 - e0).
Proof.
  intros H0 H1. unfold scaled.
  replace (_exp d - e0) with ((_exp d - e1) + (e1 - e0)) by lia.
  rewrite Z.pow_add_r by lia. ring.
Qed.

Lemma magnitude_bounds (e0 : Z) (d : Decimal) :
  _int d <> 0%N -> e0 <= _exp d ->
  10 ^ (adjusted d - e0) <= Z.of_N (_int d) * 10 ^ (_exp d - e0)
  < 10 ^ (adjusted d + 1 - e0).
Proof.
  intros Hc He. destruct (ndigits_spec _ Hc) as [Hlo Hhi].
  pose proof (ndigits_pos (_int d)) as Hl. unfold adjusted.
  replace (_exp d + ndigits (_int d) - 1 - e0)
    with ((ndigits (_int d) - 1) + (_exp d - e0)) by lia.
  replace (_exp d + ndigits (_int d) - 1 + 1 - e0)
    with (ndigits (_int d) + (_exp d - e0)) by lia.
  rewrite !Z.pow_add_r by lia.
  assert (0 < 10 ^ (_exp d - e0)) by pow_pos.
  split; nia.
Qed.

(** The padded coefficients compare as the two magnitudes do. *)
Lemma pad_compare (e0 : Z) (a b : Decimal) :
  e0 <= _exp a -> e0 <= _exp b ->
  (pad (_int a) (_exp a - _exp b) ?= pad (_int b) (_exp b - _exp a))%N =
  (Z.of_N (_int a) * 10 ^ (_exp a - e0) ?= Z.of_N (_int b) * 10 ^ (_exp b - e0)).
Proof.
  intros Ha Hb. unfold pad. rewrite <- N2Z.inj_compare, !N2Z.inj_mul.
  destruct (Z_le_gt_dec (_exp b) (_exp a)) as [Hab|Hab].
  - rewrite (pow10_Z (_exp a - _exp b)) by lia.
    rewrite (pow10_nonpos (_exp b - _exp a)) by lia.
    replace (_exp a - e0) with ((_exp a - _exp b) + (_exp b - e0)) by lia.
    rewrite Z.pow_add_r, Z.mul_assoc by lia.
    change (Z.of_N 1) with 1. rewrite Z.mul_1_r.
    apply Zmult_compare_compat_r.
    apply Z.lt_gt, Z.pow_pos_nonneg; lia.
  - rewrite (pow10_Z (_exp b - _exp a)) by lia.
    rewrite (pow10_nonpos (_exp a - _exp b)) by lia.
    replace (_exp b - e0) with ((_exp b - _exp a) + (_exp a - e0)) by lia.
    rewrite Z.pow_add_r, Z.mul_assoc by lia.
    change (Z.of_N 1) with 1. rewrite Z.mul_1_r.
    apply Zmult_compare_compat_r.
    apply Z.lt_gt, Z.pow_pos_nonneg; lia.
Qed.

(** For two nonzero numbers of the same sign, the comparison of the
    magnitudes by adjusted exponent and then by padded coefficient. *)
Lemma cmp_magnitude (e0 m : Z) (a b : Decimal) :
  _int a <> 0%N -> _int b <> 0%N -> e0 <= _exp a -> e0 <= _exp b ->
  (if adjusted a =? adjusted b then
     if (pad (_int a) (_exp a - _exp b) =? pad (_int b) (_exp b - _exp a))%N then 0
     else if (pad (_int a) (_exp a - _exp b) <? pad (_int b) (_exp b - _exp a))%N
          then - m else m
   else if adjusted a >? adjusted b then m else - m)
  = m * Z.sgn (Z.of_N (_int a) * 10 ^ (_exp a - e0)
               - Z.of_N (_int b) * 10 ^ (_exp b - e0)).
Proof.
  intros Na Nb Ha Hb.
  pose proof (magnitude_bounds e0 a Na Ha) as [La Ua].
  pose proof (magnitude_bounds e0 b Nb Hb) as [Lb Ub].
  pose proof (pad_compare e0 a b Ha Hb) as Hpad.
  set (X := Z.of_N (_int a) * 10 ^ (_exp a - e0)) in *.
  set (Y := Z.of_N (_int b) * 10 ^ (_exp b - e0)) in *.
  destruct (Z.eqb_spec (adjusted a) (adjusted b)) as [Eadj|Nadj].
  - rewrite N.eqb_compare, N.ltb_compare, Hpad.
    destruct (Z.compare_spec X Y) as [E|L|G].
    + rewrite E, Z.sub_diag. cbn. lia.
    + rewrite (proj2 (Z.sgn_neg_iff (X - Y))) by lia. lia.
    + rewrite (proj2 (Z.sgn_pos_iff (X - Y))) by lia. lia.
  - destruct (Z.gtb_spec (adjusted a) (adjusted b)) as [Hgt|Hle].
    + assert (10 ^ (adjusted b + 1 - e0) <= 10 ^ (adjusted a - e0)).
      { apply Z.pow_le_mono_r; [lia|]. lia. }
      rewrite (proj2 (Z.sgn_pos_iff (X - Y))) by lia. lia.
    + assert (10 ^ (adjusted a + 1 - e0) <= 10 ^ (adjusted b - e0)).
      { apply Z.pow_le_mono_r; [lia|]. lia. }
      rewrite (proj2 (Z.sgn_neg_iff (X - Y))) by lia. lia.
Qed.

(** _cmp is the sign of the difference of the two numbers. *)
Lemma cmp_scaled (e0 : Z) (a b : Decimal) :
  e0 <= _exp a -> e0 <= _exp b ->
  _cmp a b = Z.sgn (scaled e0 a - scaled e0 b).
Proof.
  intros Ha Hb. unfold _cmp, __bool__.
  assert (HPa : 0 < 10 ^ (_exp a - e0)) by pow_pos.
  assert (HPb : 0 < 10 ^ (_exp b - e0)) by pow_pos.
  destruct (N.eqb_spec (_int a) 0) as [Ea|Na]; cbn [negb];
    destruct (N.eqb_spec (_int b) 0) as [Eb|Nb]; cbn [negb].
  - unfold scaled. rewrite Ea, Eb. cbn. rewrite !Z.mul_0_r. reflexivity.
  - unfold scaled. rewrite Ea.
    destruct (_sign b); cbn [minus_one_pow]; symmetry;
      [apply Z.sgn_pos_iff|apply Z.sgn_neg_iff]; nia.
  - unfold scaled. rewrite Eb.
    destruct (_sign a); cbn [minus_one_pow]; symmetry;
      [apply Z.sgn_neg_iff|apply Z.sgn_pos_iff]; nia.
  - unfold scaled. rewrite <- !Z.mul_assoc.
    assert (HX : 0 < Z.of_N (_int a) * 10 ^ (_exp a - e0)) by nia.
    assert (HY : 0 < Z.of_N (_int b) * 10 ^ (_exp b - e0)) by nia.
    destruct (_sign a) eqn:Sa, (_sign b) eqn:Sb; cbn [negb andb minus_one_pow].
    + rewrite (cmp_magnitude e0 (-1)) by assumption.
      rewrite <- Z.mul_sub_distr_l, Z.sgn_mul. reflexivity.
    + symmetry. apply Z.sgn_neg_iff. lia.
    + symmetry. apply Z.sgn_pos_iff. lia.
    + rewrite (cmp_magnitude e0 1) by assumption.
      rewrite <- Z.mul_sub_distr_l, Z.sgn_mul. reflexivity.
Qed.

Lemma ten_nonzero : ~ (10 # 1 == 0)%Q.
Proof. discriminate. Qed.

Lemma pow10_Q_pos (e : Z) : (0 < (10 # 1) ^ e)%Q.
Proof. apply Qpower_0_lt. reflexivity. Qed.

Lemma to_Q_scaled (e0 : Z) (d : Decimal) :
  e0 <= _exp d ->
  (to_Q d == inject_Z (scaled e0 d) * (10 # 1) ^ e0)%Q.
Proof.
  intros He. unfold to_Q, scaled.
  pose proof (Zpower_Qpower 10 (_exp d - e0) ltac:(lia)) as HP.
  change (inject_Z 10) with (10 # 1) in HP.
  rewrite (inject_Z_mult _ (10 ^ (_exp d - e0))), HP, <- Qmult_assoc.
  rewrite <- Qpower_plus by apply ten_nonzero.
  replace (_exp d - e0 + e0) with (_exp d) by lia. reflexivity.
Qed.

Lemma Qeq_scaled (e0 : Z) (a b : Decimal) :
  e0 <= _exp a -> e0 <= _exp b ->
  (to_Q a == to_Q b)%Q <-> scaled e0 a = scaled e0 b.
Proof.
  intros Ha Hb. rewrite (to_Q_scaled e0 a Ha), (to_Q_scaled e0 b Hb). split.
  - intros H. apply Qmult_inj_r in H.
    + apply inject_Z_injective. exact H.
    + intros E. pose proof (pow10_Q_pos e0) as P. rewrite E in P.
      apply (Qlt_irrefl 0), P.
  - intros ->. reflexivity.
Qed.

Lemma Qlt_scaled (e0 : Z) (a b : Decimal) :
  e0 <= _exp a -> e0 <= _exp b ->
  (to_Q a < to_Q b)%Q <-> scaled e0 a < scaled e0 b.
Proof.
  intros Ha Hb. rewrite (to_Q_scaled e0 a Ha), (to_Q_scaled e0 b Hb).
  rewrite Qmult_lt_r by apply pow10_Q_pos. rewrite <- Zlt_Qlt. reflexivity.
Qed.

(** Python's comparison operators decide the order of the values. *)
Lemma eq_to_Q (a b : Decimal) : __eq__ a b = true <-> (to_Q a == to_Q b)%Q.
Proof.
  set (e0 := Z.min (_exp a) (_exp b)).
  rewrite (Qeq_scaled e0) by (unfold e0; lia).
  unfold __eq__. rewrite (cmp_scaled e0) by (unfold e0; lia).
  rewrite Z.eqb_eq, Z.sgn_null_iff. lia.
Qed.

Lemma gt_to_Q (a b : Decimal) : __gt__ a b = true <-> (to_Q b < to_Q a)%Q.
Proof.
  set (e0 := Z.min (_exp a) (_exp b)).
  rewrite (Qlt_scaled e0) by (unfold e0; lia).
  unfold __gt__. rewrite (cmp_scaled e0) by (unfold e0; lia).
  rewrite Z.gtb_ltb, Z.ltb_lt. lia.
Qed.

Lemma lt_to_Q (a b : Decimal) : __lt__ a b = true <-> (to_Q a < to_Q b)%Q.
Proof.
  set (e0 := Z.min (_exp a) (_exp b)).
  rewrite (Qlt_scaled e0) by (unfold e0; lia).
  unfold __lt__. rewrite (cmp_scaled e0) by (unfold e0; lia).
  rewrite Z.ltb_lt. lia.
Qed.

(** Numerically equal operands compare alike. *)
Lemma gt_proper (a a' b b' : Decimal) :
  __eq__ a a' = true -> __eq__ b b' = true -> __gt__ a b = __gt__ a' b'.
Proof.
  intros Ha Hb. apply eq_to_Q in Ha, Hb.
  apply eq_true_iff_eq. rewrite !gt_to_Q, Ha, Hb. reflexivity.
Qed.

(** *** What _fix returns *)

Lemma fix_sign (d : Decimal) : _sign (_fix d) = _sign d.
Proof.
  destruct (Z_le_gt_dec (ndigits (_int d)) prec) as [H|H].
  - rewrite fix_small by assumption. reflexivity.
  - destruct (fix_round d ltac:(lia)) as (q' & _ & _ & [[-> _]|[-> _]]); reflexivity.
Qed.

Lemma fix_digits (d : Decimal) : ndigits (_int (_fix d)) <= prec.
Proof.
  pose proof prec_pos as Hp.
  destruct (Z_le_gt_dec (ndigits (_int d)) prec) as [H|H].
  - rewrite fix_small by assumption. assumption.
  - destruct (fix_round d ltac:(lia)) as (q' & _ & Hlo & [[-> Hhi]|[-> Hhi]]);
      cbn [_int].
    + assert (0 < 10 ^ (prec - 1)) by pow_pos.
      apply ndigits_le; [lia|]. rewrite Z2N.id by lia. assumption.
    + assert (E : q' / 10 = 10 ^ (prec - 1)).
      { rewrite Hhi. replace prec with ((prec - 1) + 1) at 1 by lia.
        rewrite Zpow10_succ by lia. rewrite Z.mul_comm, Z.div_mul by lia.
        reflexivity. }
      rewrite E. assert (0 < 10 ^ (prec - 1)) by pow_pos.
      apply ndigits_le; [lia|]. rewrite Z2N.id by lia.
      apply Z.pow_lt_mono_r; lia.
Qed.

Lemma fix_exp (d : Decimal) : _exp d <= _exp (_fix d).
Proof.
  destruct (Z_le_gt_dec (ndigits (_int d)) prec) as [H|H].
  - rewrite fix_small by assumption. lia.
  - destruct (fix_round d ltac:(lia)) as (q' & _ & _ & [[-> _]|[-> _]]);
      cbn [_exp]; lia.
Qed.

Lemma fix_nonzero (d : Decimal) : _int d <> 0%N -> _int (_fix d) <> 0%N.
Proof.
  intros Hc. pose proof prec_pos as Hp.
  destruct (Z_le_gt_dec (ndigits (_int d)) prec) as [H|H].
  - rewrite fix_small by assumption. assumption.
  - assert (0 < 10 ^ (prec - 1)) by pow_pos.
    destruct (fix_round d ltac:(lia)) as (q' & _ & Hlo & [[-> Hhi]|[-> Hhi]]);
      cbn [_int].
    + lia.
    + assert (E : q' / 10 = 10 ^ (prec - 1)).
      { rewrite Hhi. replace prec with ((prec - 1) + 1) at 1 by lia.
        rewrite Zpow10_succ by lia. rewrite Z.mul_comm, Z.div_mul by lia.
        reflexivity. }
      rewrite E. lia.
Qed.

(** The value of the rounded number, counted in units of the original
    last digit: the coefficient is replaced by q' * 10^k. *)
Lemma fix_round_scaled (d : Decimal) :
  prec < ndigits (_int d) ->
  let k := ndigits (_int d) - prec in
  let q := Z.of_N (_int d) / 10 ^ k in
  let r := Z.of_N (_int d) mod 10 ^ k in
  exists q' : Z,
    (q' = q /\ 2 * r <= 10 ^ k \/ q' = q + 1 /\ 10 ^ k <= 2 * r) /\
    scaled (_exp d) (_fix d) = minus_one_pow (_sign d) * (q' * 10 ^ k) /\
    _exp d + k <= _exp (_fix d).
Proof.
  intros Hl k q r. pose proof prec_pos as Hp.
  assert (0 < 10 ^ (prec - 1)) by pow_pos.
  destruct (fix_round d Hl) as (q' & Hq' & Hlo & Hfix). fold k q r in Hq', Hfix.
  exists q'. split; [exact Hq'|].
  destruct Hfix as [[-> Hhi]|[-> Hhi]]; rewrite scaled_mk; cbn [_exp].
  - rewrite Z2N.id by lia. replace (_exp d + k - _exp d) with k by lia.
    split; [ring|lia].
  - assert (E : q' = q' / 10 * 10).
    { rewrite Hhi at 1 2. replace prec with ((prec - 1) + 1) at 1 2 by lia.
      rewrite Zpow10_succ by lia.
      rewrite (Z.mul_comm 10), Z.div_mul by lia. reflexivity. }
    rewrite Z2N.id by (apply Z.div_pos; lia).
    replace (_exp d + k + 1 - _exp d) with (k + 1) by lia.
    rewrite Zpow10_succ by (unfold k; lia).
    split; [|lia]. rewrite E at 2. ring.
Qed.


(** A number that some Decimal of at most [prec] digits also stands for
    is returned unchanged in value. *)
Lemma fix_exact (d x : Decimal) :
  ndigits (_int x) <= prec -> (to_Q x == to_Q d)%Q ->
  (to_Q (_fix d) == to_Q d)%Q.
Proof.
  intros Hx Hxd. pose proof prec_pos as Hp.
  destruct (Z_le_gt_dec (ndigits (_int d)) prec) as [H|H].
  - rewrite fix_small by assumption. reflexivity.
  - pose proof (fix_exp d) as Hexp.
    apply (Qeq_scaled (_exp d)); [assumption|lia|].
    destruct (fix_round_scaled d ltac:(lia)) as (q' & Hq' & -> & He).
    set (k := ndigits (_int d) - prec) in *.
    assert (Hk : 1 <= k) by (unfold k; lia).
    assert (HP : 0 < 10 ^ k) by pow_pos.
    assert (Hc : _int d <> 0%N).
    { intros E. rewrite E, ndigits_0 in H. lia. }
    destruct (ndigits_spec _ Hc) as [Hlo Hhi].
    (* the coefficient of d is a multiple of 10^k *)
    assert (Hr : Z.of_N (_int d) mod 10 ^ k = 0).
    { apply (Qeq_scaled (Z.min (_exp x) (_exp d))) in Hxd; [|lia|lia].
      unfold scaled in Hxd.
      assert (Hmag : Z.of_N (_int x) * 10 ^ (_exp x - Z.min (_exp x) (_exp d))
                     = Z.of_N (_int d) * 10 ^ (_exp d - Z.min (_exp x) (_exp d))).
      { destruct (minus_one_pow_cases (_sign x)) as [Ex|Ex];
          destruct (minus_one_pow_cases (_sign d)) as [Ed|Ed];
          rewrite Ex, Ed in Hxd;
          assert (0 < 10 ^ (_exp x - Z.min (_exp x) (_exp d)))
            by pow_pos;
          assert (0 < 10 ^ (_exp d - Z.min (_exp x) (_exp d)))
            by pow_pos;
          nia. }
      assert (Hxhi : Z.of_N (_int x) < 10 ^ prec).
      { destruct (N.eq_dec (_int x) 0%N) as [E|E].
        - rewrite E. apply Z.pow_pos_nonneg; lia.
        - destruct (ndigits_spec _ E) as [_ Hu].
          assert (10 ^ ndigits (_int x) <= 10 ^ prec)
            by (apply Z.pow_le_mono_r; lia). lia. }
      assert (Hdlo : 10 ^ (prec + (k - 1)) <= Z.of_N (_int d)).
      { replace (prec + (k - 1)) with (ndigits (_int d) - 1) by (unfold k; lia).
        exact Hlo. }
      rewrite Z.pow_add_r in Hdlo by lia.
      assert (HP1 : 0 < 10 ^ (k - 1)) by pow_pos.
      destruct (Z_le_gt_dec (_exp d) (_exp x)) as [Hle|Hgt].
      - rewrite Z.min_r in Hmag by lia.
        rewrite Z.sub_diag, Z.pow_0_r, Z.mul_1_r in Hmag.
        destruct (Z_le_gt_dec k (_exp x - _exp d)) as [Hkk|Hkk].
        + rewrite <- Hmag.
          replace (_exp x - _exp d) with ((_exp x - _exp d - k) + k) by lia.
          rewrite Z.pow_add_r, Z.mul_assoc by lia.
          apply Z.mod_mul. lia.
        + exfalso.
          assert (10 ^ (_exp x - _exp d) <= 10 ^ (k - 1))
            by (apply Z.pow_le_mono_r; lia).
          assert (0 < 10 ^ (_exp x - _exp d)) by pow_pos.
          nia.
      - exfalso. rewrite Z.min_l in Hmag by lia.
        rewrite Z.sub_diag, Z.pow_0_r, Z.mul_1_r in Hmag.
        assert (0 < 10 ^ (_exp d - _exp x)) by pow_pos.
        nia. }
    unfold scaled. rewrite Z.sub_diag, Z.pow_0_r, Z.mul_1_r.
    pose proof (Z.div_mod (Z.of_N (_int d)) (10 ^ k) ltac:(lia)) as Hdm.
    rewrite Hr in Hq', Hdm.
    destruct Hq' as [[-> _]|[_ Hb]]; [|lia].
    f_equal. lia.
Qed.


(** *** Multiplication *)

Lemma minus_one_pow_xorb (s t : bool) :
  minus_one_pow (xorb s t) = minus_one_pow s * minus_one_pow t.
Proof. destruct s, t; reflexivity. Qed.

(** The triple __mul__ builds before rounding is the exact product. *)
Lemma to_Q_product (a b : Decimal) :
  (to_Q (mkDecimal (xorb (_sign a) (_sign b)) (_int a * _int b) (_exp a + _exp b))
   == to_Q a * to_Q b)%Q.
Proof.
  unfold to_Q. cbn [_sign _int _exp].
  rewrite minus_one_pow_xorb, N2Z.inj_mul.
  rewrite Qpower_plus by apply ten_nonzero.
  replace (minus_one_pow (_sign a) * minus_one_pow (_sign b)
           * (Z.of_N (_int a) * Z.of_N (_int b)))
    with ((minus_one_pow (_sign a) * Z.of_N (_int a))
          * (minus_one_pow (_sign b) * Z.of_N (_int b))) by ring.
  rewrite inject_Z_mult. ring.
Qed.






Lemma to_Q_zero (d : Decimal) : _int d = 0%N <-> (to_Q d == 0)%Q.
Proof.
  unfold to_Q. split.
  - intros ->. rewrite Z.mul_0_r. apply Qmult_0_l.
  - intros H. apply Qmult_integral in H. destruct H as [H|H].
    + change 0%Q with (inject_Z 0) in H.
      apply (proj1 (inject_Z_injective _ _)) in H.
      destruct (minus_one_pow_cases (_sign d)) as [E|E]; rewrite E in H; lia.
    + exfalso. pose proof (pow10_Q_pos (_exp d)) as P. rewrite H in P.
      apply (Qlt_irrefl 0), P.
Qed.


(** *** Division *)

Lemma div_eucl_div_mod (n m : N) : N.div_eucl n m = ((n / m)%N, (n mod m)%N).
Proof. unfold N.div, N.modulo. destruct (N.div_eucl n m). reflexivity. Qed.

(** The two branches on the sign of [shift] scale the dividend or the
    divisor; since [pow10] of a negative number is 1 they are one
    formula. *)
Lemma div_operands (ca cb : N) (shift : Z) :
  (if 0 <=? shift
   then N.div_eucl (ca * pow10 shift) cb
   else N.div_eucl ca (cb * pow10 (- shift))) =
  (((ca * pow10 shift) / (cb * pow10 (- shift)))%N,
   ((ca * pow10 shift) mod (cb * pow10 (- shift)))%N).
Proof.
  rewrite <- div_eucl_div_mod. destruct (Z.leb_spec 0 shift).
  - rewrite (pow10_nonpos (- shift)) by lia. rewrite N.mul_1_r. reflexivity.
  - rewrite (pow10_nonpos shift) by lia. rewrite N.mul_1_r. reflexivity.
Qed.

Lemma strip_zeros_spec (fuel : nat) : forall (c : N) (e : Z),
  let '(c', e') := strip_zeros fuel c e in
  e <= e' /\ Z.of_N c = Z.of_N c' * 10 ^ (e' - e) /\ (c <> 0%N -> c' <> 0%N).
Proof.
  induction fuel as [|f IH]; intros c e; cbn [strip_zeros].
  - rewrite Z.sub_diag. cbn. split; [lia|]. split; [lia|auto].
  - destruct (N.eqb_spec (c mod 10) 0) as [Hm|Hm].
    + specialize (IH (c / 10)%N (e + 1)).
      destruct (strip_zeros f (c / 10) (e + 1)) as [c' e'].
      destruct IH as (He & Hv & Hnz). split; [lia|]. split.
      * replace (e' - e) with ((e' - (e + 1)) + 1) by lia.
        rewrite Zpow10_succ by lia.
        pose proof (N.div_mod c 10 ltac:(discriminate)) as Hdm.
        rewrite Hm in Hdm. lia.
      * intros Hc. apply Hnz.
        pose proof (N.div_mod c 10 ltac:(discriminate)) as Hdm. lia.
    + rewrite Z.sub_diag. cbn. split; [lia|]. split; [lia|auto].
Qed.

(** Division by a nonzero Decimal returns; by zero it raises. *)
Lemma truediv_total (a b : Decimal) :
  _int b <> 0%N -> exists q, __truediv__ a b = Ok q.
Proof.
  intros Hb. unfold __truediv__, __bool__.
  rewrite (proj2 (N.eqb_neq _ _) Hb). cbn [negb].
  destruct (negb (_int a =? 0)%N); cbn [negb]; [|eauto].
  rewrite div_operands.
  destruct (negb (_ =? 0)%N); [eauto|].
  destruct (strip_zeros _ _ _). eauto.
Qed.

Lemma truediv_by_zero (a b : Decimal) :
  _int b = 0%N ->
  __truediv__ a b = Raise (if (_int a =? 0)%N then InvalidOperation else DivisionByZero).
Proof.
  intros Hb. unfold __truediv__, __bool__. rewrite Hb. cbn.
  destruct (_int a =? 0)%N; reflexivity.
Qed.

Lemma truediv_zero (a b : Decimal) :
  _int a = 0%N -> _int b <> 0%N ->
  __truediv__ a b = Ok (mkDecimal (xorb (_sign a) (_sign b)) 0 (_exp a - _exp b)).
Proof.
  intros Ha Hb. unfold __truediv__, __bool__.
  rewrite (proj2 (N.eqb_neq _ _) Hb), Ha, N.eqb_refl. cbn [negb].
  rewrite fix_zero by reflexivity. reflexivity.
Qed.

Lemma truediv_sign (a b q : Decimal) :
  __truediv__ a b = Ok q -> _sign q = xorb (_sign a) (_sign b).
Proof.
  unfold __truediv__.
  destruct (negb (__bool__ b)); [destruct (negb (__bool__ a)); discriminate|].
  destruct (negb (__bool__ a)).
  - intros [= <-]. rewrite fix_sign. reflexivity.
  - rewrite div_operands. destruct (negb (_ =? 0)%N).
    + intros [= <-]. rewrite fix_sign. reflexivity.
    + destruct (strip_zeros _ _ _). intros [= <-]. rewrite fix_sign. reflexivity.
Qed.


(** __truediv__ on nonzero operands, with the scaled dividend [n] and
    divisor [dd] named. *)
Lemma truediv_nonzero (a b : Decimal) :
  _int a <> 0%N -> _int b <> 0%N ->
  let shift := ndigits (_int b) - ndigits (_int a) + prec + 1 in
  let exp := _exp a - _exp b - shift in
  let sign := xorb (_sign a) (_sign b) in
  let n := (_int a * pow10 shift)%N in
  let dd := (_int b * pow10 (- shift))%N in
  __truediv__ a b =
  Ok (_fix
        (if negb (n mod dd =? 0)%N
         then mkDecimal sign
                (if ((n / dd) mod 5 =? 0)%N then (n / dd + 1)%N else (n / dd)%N) exp
         else let '(coeff, exp) := strip_zeros (Z.to_nat shift) (n / dd)%N exp in
              mkDecimal sign coeff exp)).
Proof.
  intros Ha Hb shift exp sign n dd. unfold __truediv__, __bool__.
  rewrite (proj2 (N.eqb_neq _ _) Ha), (proj2 (N.eqb_neq _ _) Hb). cbn [negb].
  fold shift. fold exp. rewrite div_operands. fold n dd.
  replace (_exp a - _exp b - exp) with shift by (unfold exp; lia).
  destruct (negb (n mod dd =? 0)%N); [reflexivity|].
  destruct (strip_zeros _ _ _). reflexivity.
Qed.

Lemma pow10_ratio (k : Z) :
  (inject_Z (Z.of_N (pow10 k)) == (10 # 1) ^ k * inject_Z (Z.of_N (pow10 (- k))))%Q.
Proof.
  destruct (Z_le_gt_dec 0 k) as [H|H].
  - rewrite (pow10_nonpos (- k)) by lia. rewrite pow10_Z by lia.
    pose proof (Zpower_Qpower 10 k H) as HP.
    change (inject_Z 10) with (10 # 1) in HP. rewrite HP.
    change (inject_Z (Z.of_N 1)) with 1%Q. ring.
  - rewrite (pow10_nonpos k) by lia. rewrite pow10_Z by lia.
    pose proof (Zpower_Qpower 10 (- k) ltac:(lia)) as HP.
    change (inject_Z 10) with (10 # 1) in HP. rewrite HP.
    rewrite <- Qpower_plus by apply ten_nonzero.
    replace (k + - k) with 0 by lia. reflexivity.
Qed.

(** The scaled dividend over the scaled divisor, at exponent [exp], is
    the quotient of the two numbers. *)
Lemma div_value (a b : Decimal) (shift : Z) :
  let exp := _exp a - _exp b - shift in
  let n := (_int a * pow10 shift)%N in
  let dd := (_int b * pow10 (- shift))%N in
  (to_Q (mkDecimal (xorb (_sign a) (_sign b)) n exp) * to_Q b
   == to_Q a * inject_Z (Z.of_N dd))%Q.
Proof.
  intros exp n dd. unfold to_Q. cbn [_sign _int _exp]. unfold n, dd.
  rewrite minus_one_pow_xorb, !N2Z.inj_mul, !inject_Z_mult.
  rewrite (pow10_ratio shift).
  replace (_exp a) with (shift + exp + _exp b) by (unfold exp; lia).
  rewrite !Qpower_plus by apply ten_nonzero.
  assert (Hs : (inject_Z (minus_one_pow (_sign b)) * inject_Z (minus_one_pow (_sign b)) == 1)%Q).
  { rewrite <- inject_Z_mult. destruct (_sign b); reflexivity. }
  set (mb := inject_Z (minus_one_pow (_sign b))) in *.
  transitivity (inject_Z (minus_one_pow (_sign a)) * (mb * mb)
                * inject_Z (Z.of_N (_int a)) * ((10 # 1) ^ shift)
                * inject_Z (Z.of_N (pow10 (- shift))) * (10 # 1) ^ exp
                * inject_Z (Z.of_N (_int b)) * (10 # 1) ^ _exp b)%Q; [ring|].
  rewrite Hs. ring.
Qed.

(** The scaled dividend exceeds 10^prec times the scaled divisor: the
    integer quotient has more than [prec] digits. *)
Lemma div_quotient_large (a b : Decimal) :
  _int a <> 0%N -> _int b <> 0%N ->
  let shift := ndigits (_int b) - ndigits (_int a) + prec + 1 in
  10 ^ prec * Z.of_N (_int b * pow10 (- shift))
  < Z.of_N (_int a * pow10 shift).
Proof.
  intros Ha Hb shift. pose proof prec_pos as Hp.
  destruct (ndigits_spec _ Ha) as [La Ua]. destruct (ndigits_spec _ Hb) as [Lb Ub].
  pose proof (ndigits_pos (_int a)). pose proof (ndigits_pos (_int b)).
  rewrite !N2Z.inj_mul.
  assert (HPp : 0 < 10 ^ prec) by pow_pos.
  destruct (Z_le_gt_dec 0 shift) as [Hs|Hs].
  - rewrite (pow10_nonpos (- shift)) by lia. rewrite pow10_Z by lia.
    change (Z.of_N 1) with 1. rewrite Z.mul_1_r.
    assert (E : 10 ^ prec * 10 ^ ndigits (_int b)
                = 10 ^ (ndigits (_int a) - 1) * 10 ^ shift).
    { rewrite <- !Z.pow_add_r by lia. f_equal. unfold shift. lia. }
    assert (0 < 10 ^ shift) by pow_pos.
    nia.
  - rewrite (pow10_nonpos shift) by lia. rewrite pow10_Z by lia.
    change (Z.of_N 1) with 1. rewrite Z.mul_1_r.
    assert (E : 10 ^ prec * (10 ^ ndigits (_int b) * 10 ^ (- shift))
                = 10 ^ (ndigits (_int a) - 1)).
    { rewrite <- !Z.pow_add_r by lia. f_equal. unfold shift. lia. }
    assert (0 < 10 ^ (- shift)) by pow_pos.
    nia.
Qed.

Lemma to_Q_mul_coeff (s : bool) (c k : N) (e : Z) :
  (to_Q (mkDecimal s (c * k) e) == to_Q (mkDecimal s c e) * inject_Z (Z.of_N k))%Q.
Proof.
  unfold to_Q. cbn [_sign _int _exp].
  rewrite N2Z.inj_mul, Z.mul_assoc, inject_Z_mult. ring.
Qed.

Lemma to_Q_of_N (k : N) : (to_Q (mkDecimal false k 0) == inject_Z (Z.of_N k))%Q.
Proof.
  unfold to_Q. cbn [_sign _int _exp minus_one_pow]. rewrite Z.mul_1_l.
  change ((10 # 1) ^ 0)%Q with 1%Q. ring.
Qed.

Lemma inject_N_nonzero (k : N) : k <> 0%N -> ~ (inject_Z (Z.of_N k) == 0)%Q.
Proof.
  intros Hk E. change 0%Q with (inject_Z 0) in E.
  apply (proj1 (inject_Z_injective _ _)) in E. lia.
Qed.

Lemma to_Q_nonzero (d : Decimal) : _int d <> 0%N -> ~ (to_Q d == 0)%Q.
Proof. intros H E. apply H, to_Q_zero, E. Qed.

Lemma to_Q_strip (s : bool) (fuel : nat) (c : N) (e : Z) :
  let '(c', e') := strip_zeros fuel c e in
  (to_Q (mkDecimal s c' e') == to_Q (mkDecimal s c e))%Q.
Proof.
  pose proof (strip_zeros_spec fuel c e) as H.
  destruct (strip_zeros fuel c e) as [c' e']. destruct H as (He & Hv & _).
  apply (Qeq_scaled e); cbn [_exp]; [lia|lia|].
  rewrite !scaled_mk, Z.sub_diag, Z.pow_0_r, Hv. ring.
Qed.

(** When the divisor divides the scaled dividend, the quotient built by
    __truediv__ before rounding is the exact quotient. *)
Lemma div_value_exact (a b : Decimal) (shift : Z) :
  _int b <> 0%N ->
  let exp := _exp a - _exp b - shift in
  let n := (_int a * pow10 shift)%N in
  let dd := (_int b * pow10 (- shift))%N in
  (n mod dd = 0)%N ->
  (to_Q (mkDecimal (xorb (_sign a) (_sign b)) (n / dd) exp) * to_Q b == to_Q a)%Q.
Proof.
  intros Hb exp n dd Hrem.
  assert (Hdd : dd <> 0%N).
  { unfold dd. pose proof (pow10_pos (- shift)). lia. }
  pose proof (div_value a b shift) as Hd. cbv zeta in Hd. fold exp n dd in Hd.
  assert (En : n = (n / dd * dd)%N).
  { pose proof (N.div_mod n dd Hdd) as Hdm. rewrite Hrem in Hdm. lia. }
  rewrite En, to_Q_mul_coeff in Hd.
  apply (Qmult_inj_r _ _ (inject_Z (Z.of_N dd))); [apply inject_N_nonzero, Hdd|].
  rewrite <- Hd. ring.
Qed.

(** A quotient that a Decimal of at most [prec] digits stands for is
    returned exactly. *)
Lemma truediv_exact (a b x : Decimal) :
  _int b <> 0%N -> ndigits (_int x) <= prec ->
  (to_Q a == to_Q x * to_Q b)%Q ->
  exists q, __truediv__ a b = Ok q /\ (to_Q q == to_Q x)%Q.
Proof.
  intros Hb Hx Hv. pose proof prec_pos as Hp.
  pose proof (to_Q_nonzero b Hb) as HbQ.
  destruct (N.eq_dec (_int a) 0%N) as [Ha|Ha].
  - rewrite truediv_zero by assumption. eexists. split; [reflexivity|].
    apply to_Q_zero in Ha. rewrite Ha in Hv. symmetry in Hv.
    apply Qmult_integral in Hv. destruct Hv as [Hv|Hv]; [|contradiction].
    rewrite Hv. apply to_Q_zero. reflexivity.
  - rewrite truediv_nonzero by assumption.
    set (shift := ndigits (_int b) - ndigits (_int a) + prec + 1).
    set (exp := _exp a - _exp b - shift).
    set (sign := xorb (_sign a) (_sign b)).
    set (n := (_int a * pow10 shift)%N). set (dd := (_int b * pow10 (- shift))%N).
    pose proof (div_quotient_large a b Ha Hb) as Hlarge. cbv zeta in Hlarge.
    fold shift in Hlarge. fold n dd in Hlarge.
    assert (Hdd : dd <> 0%N).
    { unfold dd. pose proof (pow10_pos (- shift)). lia. }
    (* the scaled dividend is x times the scaled divisor *)
    assert (Hn : (to_Q (mkDecimal sign n exp)
                  == to_Q (mkDecimal (xorb (_sign x) false) (_int x * dd) (_exp x + 0)))%Q).
    { apply (Qmult_inj_r _ _ (to_Q b) HbQ).
      pose proof (div_value a b shift) as Hd. cbv zeta in Hd.
      fold exp n dd sign in Hd. rewrite Hd, Hv.
      rewrite (to_Q_product x (mkDecimal false dd 0)), to_Q_of_N. ring. }
    assert (Hxhi : Z.of_N (_int x) < 10 ^ prec).
    { destruct (N.eq_dec (_int x) 0%N) as [E|E].
      - rewrite E. apply Z.pow_pos_nonneg; lia.
      - destruct (ndigits_spec _ E) as [_ Hu].
        assert (10 ^ ndigits (_int x) <= 10 ^ prec)
          by (apply Z.pow_le_mono_r; lia). lia. }
    assert (Hrem : (n mod dd = 0)%N).
    { apply (Qeq_scaled (Z.min exp (_exp x + 0))) in Hn; cbn [_exp]; [|lia|lia].
      rewrite !scaled_mk in Hn.
      set (e0 := Z.min exp (_exp x + 0)) in *.
      assert (0 < 10 ^ (exp - e0)) by (apply Z.pow_pos_nonneg; unfold e0; lia).
      assert (0 < 10 ^ (_exp x + 0 - e0)) by (apply Z.pow_pos_nonneg; unfold e0; lia).
      assert (Hmag : Z.of_N n * 10 ^ (exp - e0)
                     = Z.of_N (_int x * dd) * 10 ^ (_exp x + 0 - e0)).
      { destruct (minus_one_pow_cases sign) as [E1|E1];
          destruct (minus_one_pow_cases (xorb (_sign x) false)) as [E2|E2];
          rewrite E1, E2 in Hn; nia. }
      rewrite N2Z.inj_mul in Hmag.
      destruct (Z_le_gt_dec exp (_exp x + 0)) as [Hle|Hgt].
      - unfold e0 in Hmag. rewrite Z.min_l in Hmag by lia.
        rewrite Z.sub_diag, Z.pow_0_r, Z.mul_1_r in Hmag.
        apply N2Z.inj. rewrite N2Z.inj_mod, Hmag.
        replace (Z.of_N (_int x) * Z.of_N dd * 10 ^ (_exp x + 0 - exp))
          with (Z.of_N (_int x) * 10 ^ (_exp x + 0 - exp) * Z.of_N dd) by ring.
        apply Z.mod_mul. lia.
      - exfalso. unfold e0 in Hmag. rewrite Z.min_r in Hmag by lia.
        rewrite Z.sub_diag, Z.pow_0_r, Z.mul_1_r in Hmag.
        assert (0 < 10 ^ (exp - (_exp x + 0))) by pow_pos.
        assert (Z.of_N n <= Z.of_N n * 10 ^ (exp - (_exp x + 0))) by nia.
        assert (Z.of_N (_int x) * Z.of_N dd <= 10 ^ prec * Z.of_N dd)
          by (apply Z.mul_le_mono_nonneg_r; lia).
        lia. }
    rewrite Hrem. cbn [N.eqb negb].
    pose proof (to_Q_strip sign (Z.to_nat shift) (n / dd)%N exp) as Hstrip.
    destruct (strip_zeros (Z.to_nat shift) (n / dd)%N exp) as [c' e'].
    eexists. split; [reflexivity|].
    assert (Hpre : (to_Q (mkDecimal sign c' e') == to_Q x)%Q).
    { rewrite Hstrip. apply (Qmult_inj_r _ _ (to_Q b) HbQ).
      rewrite <- Hv. apply div_value_exact; assumption. }
    rewrite <- Hpre. apply (fix_exact _ x Hx). symmetry. exact Hpre.
Qed.


Lemma Qabs_inject_Z (z : Z) : Qabs (inject_Z z) = inject_Z (Z.abs z).
Proof. reflexivity. Qed.


(** The integer quotient of the scaled operands has more than [prec]
    digits. *)
Lemma div_quotient_digits (a b : Decimal) :
  _int a <> 0%N -> _int b <> 0%N ->
  let shift := ndigits (_int b) - ndigits (_int a) + prec + 1 in
  let n := (_int a * pow10 shift)%N in
  let dd := (_int b * pow10 (- shift))%N in
  10 ^ prec <= Z.of_N (n / dd).
Proof.
  intros Ha Hb shift n dd.
  pose proof (div_quotient_large a b Ha Hb) as Hlarge. cbv zeta in Hlarge.
  fold shift in Hlarge. fold n dd in Hlarge.
  assert (Hdd : 0 < Z.of_N dd).
  { unfold dd. pose proof (pow10_pos (- shift)). lia. }
  rewrite N2Z.inj_div. apply Z.div_le_lower_bound; lia.
Qed.

Lemma truediv_nonzero_result (a b q : Decimal) :
  __truediv__ a b = Ok q -> _int a <> 0%N -> _int q <> 0%N.
Proof.
  intros Hq Ha. pose proof prec_pos as Hp.
  destruct (N.eq_dec (_int b) 0%N) as [Hb|Hb].
  { rewrite truediv_by_zero in Hq by assumption. discriminate. }
  rewrite truediv_nonzero in Hq by assumption.
  pose proof (div_quotient_digits a b Ha Hb) as Hbig. cbv zeta in Hbig.
  set (shift := ndigits (_int b) - ndigits (_int a) + prec + 1) in *.
  set (n := (_int a * pow10 shift)%N) in *.
  set (dd := (_int b * pow10 (- shift))%N) in *.
  assert (0 < 10 ^ prec) by pow_pos.
  injection Hq as <-. apply fix_nonzero.
  destruct (negb (n mod dd =? 0)%N).
  - cbn [_int]. destruct ((n / dd) mod 5 =? 0)%N; lia.
  - pose proof (strip_zeros_spec (Z.to_nat shift) (n / dd)%N
                  (_exp a - _exp b - shift)) as Hs.
    destruct (strip_zeros _ _ _) as [c' e']. cbn [_int].
    destruct Hs as (_ & _ & Hnz). apply Hnz. lia.
Qed.

End PyDecimalFacts.

Module PyDecimalMore.
Import PyDecimal PyDecimalFacts.

(** *** Addition, conversion from int, comparison with zero *)

Lemma add_digits (a b : Decimal) : ndigits (_int (__add__ a b)) <= prec.
Proof.
  unfold __add__.
  repeat match goal with
         | |- context [if ?c then _ else _] => destruct c
         | |- context [let '(_, _) := ?p in _] => destruct p
         end; apply fix_digits.
Qed.

Lemma of_int_nonzero (n : Z) : n <> 0 -> _int (of_int n) <> 0%N.
Proof. intros H. cbn [of_int _int]. lia. Qed.

Lemma to_Q_of_int (n : Z) : (to_Q (of_int n) == inject_Z n)%Q.
Proof.
  unfold to_Q, of_int. cbn [_sign _int _exp].
  change ((10 # 1) ^ 0)%Q with 1%Q. rewrite Qmult_1_r.
  apply inject_Z_injective.
  destruct (Z.ltb_spec n 0); cbn [minus_one_pow]; lia.
Qed.

Lemma cmp_zero_r (d z : Decimal) :
  _int z = 0%N ->
  _cmp d z = if (_int d =? 0)%N then 0 else minus_one_pow (_sign d).
Proof.
  intros Hz. unfold _cmp, __bool__. rewrite Hz.
  destruct (_int d =? 0)%N; reflexivity.
Qed.

Lemma eq_zero (d z : Decimal) : _int z = 0%N -> __eq__ d z = (_int d =? 0)%N.
Proof.
  intros Hz. unfold __eq__. rewrite cmp_zero_r by assumption.
  destruct (_int d =? 0)%N; [reflexivity|]. destruct (_sign d); reflexivity.
Qed.

Lemma gt_zero (d z : Decimal) :
  _int z = 0%N -> __gt__ d z = negb (_int d =? 0)%N && negb (_sign d).
Proof.
  intros Hz. unfold __gt__. rewrite cmp_zero_r by assumption.
  destruct (_int d =? 0)%N; [reflexivity|]. destruct (_sign d); reflexivity.
Qed.

Lemma lt_zero (d z : Decimal) :
  _int z = 0%N -> __lt__ d z = negb (_int d =? 0)%N && _sign d.
Proof.
  intros Hz. unfold __lt__. rewrite cmp_zero_r by assumption.
  destruct (_int d =? 0)%N; [reflexivity|]. destruct (_sign d); reflexivity.
Qed.

Lemma eq_reflexive (a : Decimal) : __eq__ a a = true.
Proof. apply eq_to_Q. reflexivity. Qed.

(** Equal numbers are not greater than one another: thresholds are
    exclusive. *)
Lemma eq_not_gt (a b : Decimal) : __eq__ a b = true -> __gt__ a b = false.
Proof.
  unfold __eq__, __gt__. intros H. apply Z.eqb_eq in H. rewrite H. reflexivity.
Qed.

(** A quotient by a negative int has the sign opposite to the dividend's
    and is zero exactly when the dividend is. *)
Lemma truediv_negative (a q : Decimal) (n : Z) :
  n < 0 -> __truediv__ a (of_int n) = Ok q ->
  __lt__ q Decimal_0 = __gt__ a Decimal_0 /\ __gt__ q Decimal_0 = __lt__ a Decimal_0
  /\ __eq__ q Decimal_0 = __eq__ a Decimal_0.
Proof.
  intros Hn Hq.
  rewrite (lt_zero q), (gt_zero a), (gt_zero q), (lt_zero a),
    (eq_zero q), (eq_zero a) by reflexivity.
  pose proof (truediv_sign _ _ _ Hq) as Hs. cbn [of_int _sign] in Hs.
  rewrite (proj2 (Z.ltb_lt n 0) Hn) in Hs. rewrite Hs.
  destruct (N.eqb_spec (_int a) 0) as [Ha|Ha].
  - rewrite truediv_zero in Hq by (try apply of_int_nonzero; lia || assumption).
    injection Hq as <-. cbn. auto.
  - pose proof (truediv_nonzero_result _ _ _ Hq Ha) as Hnz.
    rewrite (proj2 (N.eqb_neq _ _) Hnz). destruct (_sign a); cbn; auto.
Qed.

End PyDecimalMore.

(** * Properties of the models *)

Section Enumerations.
Context {E : Type} `{PyEnum E}.

(** Looking a string up fails exactly when no member has that value. *)
Lemma by_value_raises (s : string) :
  by_value s = Raise ValueError <-> in_vocabulary (Foreign s : EnumField E) = false.
Proof.
  unfold by_value, in_vocabulary.
  induction members as [|e l IH]; cbn [List.find existsb].
  - split; reflexivity.
  - destruct (String.eqb (value e) s); cbn [orb].
    + split; discriminate.
    + exact IH.
Qed.

Lemma by_value_found (s : string) (e : E) :
  by_value s = Ok e -> value e = s /\ In e members.
Proof.
  unfold by_value.
  destruct (List.find _ members) as [e'|] eqn:Hf; [|discriminate].
  intros [= <-]. apply List.find_some in Hf. destruct Hf as [Hin Heq].
  apply String.eqb_eq in Heq. auto.
Qed.
End Enumerations.

Section Dosage.
Import PyDecimal PyDecimalFacts PyDecimalMore.

Lemma fold_accumulate_digits (items : list (CannabisIngredient.t * Decimal)) :
  forall acc : Decimal * Decimal,
    ndigits (_int (fst acc)) <= prec -> ndigits (_int (snd acc)) <= prec ->
    ndigits (_int (fst (fold_left Recipe.accumulate items acc))) <= prec /\
    ndigits (_int (snd (fold_left Recipe.accumulate items acc))) <= prec.
Proof.
  induction items as [|[ingredient amount] items IH]; intros [t c] Ht Hc;
    cbn [fold_left].
  - auto.
  - apply IH; cbn [Recipe.accumulate fst snd]; apply add_digits.
Qed.

(** The running totals never carry more than [prec] digits. *)
Lemma totals_digits (r : Recipe.t) :
  ndigits (_int (fst (Recipe.totals r))) <= prec /\
  ndigits (_int (snd (Recipe.totals r))) <= prec.
Proof.
  apply fold_accumulate_digits; cbn; pose proof prec_pos; unfold prec; lia.
Qed.

(** calculate_total_dosage along its two paths. *)
Lemma calculate_total_dosage_zero (r : Recipe.t) :
  Recipe.servings r = 0 ->
  Recipe.calculate_total_dosage r =
  Ok (DosageInfo.mk Decimal_0 Decimal_0 (fst (Recipe.totals r))
        (snd (Recipe.totals r)) 0 60 6 "" false).
Proof.
  intros Hs. unfold Recipe.calculate_total_dosage.
  destruct (Recipe.totals r) as [tt tc]. rewrite Hs. reflexivity.
Qed.

Lemma calculate_total_dosage_nonzero (r : Recipe.t) :
  Recipe.servings r <> 0 ->
  exists qt qc : Decimal,
    __truediv__ (fst (Recipe.totals r)) (of_int (Recipe.servings r)) = Ok qt /\
    __truediv__ (snd (Recipe.totals r)) (of_int (Recipe.servings r)) = Ok qc /\
    Recipe.calculate_total_dosage r =
    Ok (DosageInfo.mk qt qc (fst (Recipe.totals r)) (snd (Recipe.totals r))
          (Recipe.servings r) 60 6 "" (__gt__ qt Decimal_10)).
Proof.
  intros Hs. unfold Recipe.calculate_total_dosage.
  destruct (Recipe.totals r) as [tt tc]. cbn [fst snd].
  destruct (truediv_total tt (of_int (Recipe.servings r))
              (of_int_nonzero _ Hs)) as [qt Hqt].
  destruct (truediv_total tc (of_int (Recipe.servings r))
              (of_int_nonzero _ Hs)) as [qc Hqc].
  exists qt, qc. split; [exact Hqt|]. split; [exact Hqc|].
  rewrite (proj2 (Z.eqb_neq _ _) Hs). cbn [negb].
  rewrite Hqt, Hqc. reflexivity.
Qed.

(** It returns for every recipe. *)
Lemma calculate_total_dosage_total (r : Recipe.t) :
  exists d, Recipe.calculate_total_dosage r = Ok d.
Proof.
  destruct (Z.eq_dec (Recipe.servings r) 0) as [Hs|Hs].
  - rewrite calculate_total_dosage_zero by assumption. eauto.
  - destruct (calculate_total_dosage_nonzero r Hs) as (qt & qc & _ & _ & ->).
    eauto.
Qed.
End Dosage.

(** * The exponent limits *)

Module DefaultContextFacts.
Import PyDecimal PyDecimalFacts PyDecimalMore.

(** *** Within the limits _fix is its rounding step *)

(** The [prec] leading digits of a longer coefficient. *)
Lemma leading_digits (c : N) :
  prec < ndigits c ->
  10 ^ (prec - 1) <= Z.of_N (c / pow10 (ndigits c - prec)) < 10 ^ prec.
Proof.
  intros Hlong. pose proof prec_pos as Hp.
  assert (Hc : c <> 0%N).
  { intros ->. rewrite ndigits_0 in Hlong. unfold prec in Hlong. lia. }
  destruct (ndigits_spec c Hc) as [Hlo Hhi].
  rewrite N2Z.inj_div, pow10_Z by lia.
  set (k := ndigits c - prec) in *.
  assert (Hk : 0 < 10 ^ k) by (apply Z.pow_pos_nonneg; lia).
  replace (ndigits c - 1) with (prec - 1 + k) in Hlo by lia.
  replace (ndigits c) with (prec + k) in Hhi by lia.
  rewrite Z.pow_add_r in Hlo, Hhi by lia. split.
  - apply Z.div_le_lower_bound; lia.
  - apply Z.div_lt_upper_bound; lia.
Qed.

Lemma ndigits_exact (c : N) (d : Z) :
  1 <= d -> 10 ^ (d - 1) <= Z.of_N c < 10 ^ d -> ndigits c = d.
Proof.
  intros Hd [Hlo Hhi]. apply Z.le_antisymm.
  - apply ndigits_le; assumption.
  - apply ndigits_ge; assumption.
Qed.

(** _fix on a number that is neither subnormal nor above Emax before
    rounding. *)
Lemma fix_normal (t : Decimal) :
  _int t <> 0%N ->
  DefaultContext.Etiny <= ndigits (_int t) + _exp t - prec <= DefaultContext.Etop ->
  DefaultContext._fix t =
  if _exp t <? ndigits (_int t) + _exp t - prec then
    let changed := _round_half_even (_int t) prec in
    let coeff := (_int t / pow10 (ndigits (_int t) - prec))%N in
    let '(coeff, exp_min) :=
      if changed >? 0 then
        if ndigits (coeff + 1)%N >? prec
        then (((coeff + 1) / 10)%N, ndigits (_int t) + _exp t - prec + 1)
        else ((coeff + 1)%N, ndigits (_int t) + _exp t - prec)
      else (coeff, ndigits (_int t) + _exp t - prec) in
    if exp_min >? DefaultContext.Etop then Raise Overflow
    else Ok (mkDecimal (_sign t) coeff exp_min)
  else Ok t.
Proof.
  intros Hnz [Hlo Hhi]. pose proof prec_pos as Hp.
  unfold DefaultContext._fix, __bool__.
  rewrite (proj2 (N.eqb_neq _ _) Hnz). cbn [negb]. cbv zeta.
  assert (H1 : (ndigits (_int t) + _exp t - prec >? DefaultContext.Etop) = false)
    by (rewrite Z.gtb_ltb; apply Z.ltb_ge; lia).
  assert (H2 : (ndigits (_int t) + _exp t - prec <? DefaultContext.Etiny) = false)
    by (apply Z.ltb_ge; lia).
  rewrite H1, H2.
  destruct (Z.ltb_spec (_exp t) (ndigits (_int t) + _exp t - prec)) as [Hr|Hk];
    [|reflexivity].
  replace (ndigits (_int t) + _exp t - (ndigits (_int t) + _exp t - prec))
    with prec by lia.
  destruct (Z.ltb_spec prec 0) as [Hneg|_]; [lia|].
  destruct (_round_half_even (_int t) prec >? 0); [|reflexivity].
  destruct (ndigits (_int t / pow10 (ndigits (_int t) - prec) + 1)%N >? prec);
    reflexivity.
Qed.

(** What [in_range] says about a number of [prec] digits. *)
Lemma in_range_full (s : bool) (c : N) (e : Z) :
  ndigits c = prec -> c <> 0%N ->
  DefaultContext.in_range (mkDecimal s c e) = true ->
  DefaultContext.Etiny < e <= DefaultContext.Etop.
Proof.
  intros Hd Hnz Hr. unfold DefaultContext.in_range, adjusted in Hr.
  cbn [_int _exp] in Hr. rewrite (proj2 (N.eqb_neq _ _) Hnz), Hd in Hr.
  apply andb_true_iff in Hr as [H1 H2].
  apply Z.ltb_lt in H1. apply Z.leb_le in H2.
  unfold DefaultContext.Etop, DefaultContext.Etiny,
    DefaultContext.Emax, DefaultContext.Emin in *. lia.
Qed.

Lemma not_above (e : Z) : e <= DefaultContext.Etop -> (e >? DefaultContext.Etop) = false.
Proof. intros H. rewrite Z.gtb_ltb. apply Z.ltb_ge. exact H. Qed.

(** Within the limits the method returns what its rounding step gives. *)
Lemma fix_in_range (t : Decimal) :
  DefaultContext.in_range (PyDecimal._fix t) = true ->
  DefaultContext._fix t = Ok (PyDecimal._fix t).
Proof.
  pose proof prec_pos as Hp.
  destruct (N.eq_dec (_int t) 0%N) as [Hz|Hnz].
  - rewrite (fix_zero t Hz). unfold DefaultContext._fix, __bool__.
    unfold DefaultContext.in_range. rewrite Hz. cbn [N.eqb negb].
    intros Hr. apply andb_true_iff in Hr as [H1 H2].
    apply Z.leb_le in H1, H2.
    replace (Z.min (Z.max (_exp t) DefaultContext.Etiny) DefaultContext.Emax)
      with (_exp t) by lia.
    rewrite Z.eqb_refl. reflexivity.
  - destruct (Z_le_gt_dec (ndigits (_int t)) prec) as [Hshort|Hlong].
    + rewrite (fix_small t Hshort). intros Hr.
      unfold DefaultContext.in_range, adjusted in Hr.
      rewrite (proj2 (N.eqb_neq _ _) Hnz) in Hr.
      apply andb_true_iff in Hr as [H1 H2].
      apply Z.ltb_lt in H1. apply Z.leb_le in H2.
      rewrite fix_normal;
        [|exact Hnz
         |unfold DefaultContext.Etop, DefaultContext.Etiny,
            DefaultContext.Emax, DefaultContext.Emin in *; lia].
      destruct (Z.ltb_spec (_exp t) (ndigits (_int t) + _exp t - prec));
        [lia|reflexivity].
    + pose proof (leading_digits (_int t) ltac:(lia)) as Hc.
      unfold PyDecimal._fix, __bool__.
      rewrite (proj2 (N.eqb_neq _ _) Hnz). cbn [negb]. cbv zeta.
      rewrite (proj2 (Z.ltb_lt (_exp t) (ndigits (_int t) + _exp t - prec)))
        by lia.
      replace (ndigits (_int t) + _exp t - (ndigits (_int t) + _exp t - prec))
        with prec by lia.
      set (c := (_int t / pow10 (ndigits (_int t) - prec))%N) in *.
      set (E := ndigits (_int t) + _exp t - prec).
      assert (Hcd : ndigits c = prec) by (apply ndigits_exact; lia).
      assert (Hpow : 0 < 10 ^ (prec - 1)) by (apply Z.pow_pos_nonneg; lia).
      assert (Hpw : 10 ^ prec = 10 * 10 ^ (prec - 1)).
      { replace prec with (1 + (prec - 1)) at 1 by lia.
        rewrite Z.pow_add_r by lia. reflexivity. }
      assert (Hnormal : forall (c' : N) (e' : Z),
                 ndigits c' = prec -> c' <> 0%N -> E <= e' <= E + 1 ->
                 DefaultContext.in_range (mkDecimal (_sign t) c' e') = true ->
                 DefaultContext._fix t =
                 (if _exp t <? E then
                    let changed := _round_half_even (_int t) prec in
                    let '(coeff, exp_min) :=
                      if changed >? 0 then
                        if ndigits (c + 1)%N >? prec
                        then (((c + 1) / 10)%N, E + 1)
                        else ((c + 1)%N, E)
                      else (c, E) in
                    if exp_min >? DefaultContext.Etop then Raise Overflow
                    else Ok (mkDecimal (_sign t) coeff exp_min)
                  else Ok t) /\ e' <= DefaultContext.Etop).
      { intros c' e' Hd' Hnz' He' Hr.
        pose proof (in_range_full _ _ _ Hd' Hnz' Hr) as [Hlo Hhi].
        split; [|exact Hhi].
        rewrite fix_normal; [reflexivity|exact Hnz|].
        fold E. unfold DefaultContext.Etop, DefaultContext.Etiny,
          DefaultContext.Emax, DefaultContext.Emin in *. lia. }
      destruct (_round_half_even (_int t) prec >? 0) eqn:Hch.
      * destruct (Z.gtb_spec (ndigits (c + 1)%N) prec) as [Hcarry|Hnocarry].
        -- assert (Hc1 : Z.of_N (c + 1) = 10 ^ prec).
           { destruct (ndigits_spec (c + 1)%N ltac:(lia)) as [Hlo1 _].
             assert (10 ^ prec <= 10 ^ (ndigits (c + 1)%N - 1))
               by (apply Z.pow_le_mono_r; lia). lia. }
           assert (Hc10 : Z.of_N ((c + 1) / 10) = 10 ^ (prec - 1)).
           { rewrite N2Z.inj_div, Hc1, Hpw. change (Z.of_N 10) with 10.
             rewrite Z.mul_comm, Z.div_mul; lia. }
           intros Hr.
           destruct (Hnormal ((c + 1) / 10)%N (E + 1)) as [-> Hhi];
             [apply ndigits_exact; lia|lia|lia|exact Hr|].
           rewrite (proj2 (Z.ltb_lt (_exp t) E)) by (unfold E; lia).
           cbv zeta. rewrite Hch.
           destruct (Z.gtb_spec (ndigits (c + 1)%N) prec); [|lia].
           rewrite (not_above _ Hhi). reflexivity.
        -- intros Hr.
           assert (Hc1 : ndigits (c + 1)%N = prec).
           { apply Z.le_antisymm; [lia|]. apply ndigits_ge; lia. }
           destruct (Hnormal (c + 1)%N E) as [-> Hhi];
             [exact Hc1|lia|lia|exact Hr|].
           rewrite (proj2 (Z.ltb_lt (_exp t) E)) by (unfold E; lia).
           cbv zeta. rewrite Hch.
           destruct (Z.gtb_spec (ndigits (c + 1)%N) prec); [lia|].
           rewrite (not_above _ Hhi). reflexivity.
      * intros Hr.
        destruct (Hnormal c E) as [-> Hhi]; [exact Hcd|lia|lia|exact Hr|].
        rewrite (proj2 (Z.ltb_lt (_exp t) E)) by (unfold E; lia).
        cbv zeta. rewrite Hch. rewrite (not_above _ Hhi). reflexivity.
Qed.

(** *** The only exception of the arithmetic is Overflow *)

Lemma fix_raises (t : Decimal) (e : PyException) :
  DefaultContext._fix t = Raise e -> e = Overflow.
Proof.
  unfold DefaultContext._fix.
  repeat match goal with
         | |- context [if ?c then _ else _] => destruct c
         | |- context [let '(_, _) := ?p in _] => destruct p
         end; cbv zeta;
    repeat match goal with
           | |- context [if ?c then _ else _] => destruct c
           | |- context [let '(_, _) := ?p in _] => destruct p
           end; congruence.
Qed.

Lemma mul_raises (a b : Decimal) (e : PyException) :
  DefaultContext.__mul__ a b = Raise e -> e = Overflow.
Proof. apply fix_raises. Qed.

Lemma add_raises (a b : Decimal) (e : PyException) :
  DefaultContext.__add__ a b = Raise e -> e = Overflow.
Proof.
  unfold DefaultContext.__add__.
  repeat match goal with
         | |- context [if ?c then _ else _] => destruct c
         | |- context [let '(_, _) := ?p in _] => destruct p
         end; apply fix_raises.
Qed.

Lemma truediv_raises (a b : Decimal) (e : PyException) :
  _int b <> 0%N -> DefaultContext.__truediv__ a b = Raise e -> e = Overflow.
Proof.
  intros Hb. unfold DefaultContext.__truediv__, __bool__.
  rewrite (proj2 (N.eqb_neq _ _) Hb). cbn [negb].
  repeat match goal with
         | |- context [if ?c then _ else _] => destruct c
         | |- context [let '(_, _) := ?p in _] => destruct p
         end; apply fix_raises.
Qed.

(** *** Within the limits the operators are their rounding-only
    versions *)

Lemma mul_in_range (a b : Decimal) :
  DefaultContext.in_range (PyDecimal.__mul__ a b) = true ->
  DefaultContext.__mul__ a b = Ok (PyDecimal.__mul__ a b).
Proof. apply fix_in_range. Qed.

Lemma add_in_range (a b : Decimal) :
  DefaultContext.in_range (PyDecimal.__add__ a b) = true ->
  DefaultContext.__add__ a b = Ok (PyDecimal.__add__ a b).
Proof.
  unfold DefaultContext.__add__, PyDecimal.__add__.
  repeat match goal with
         | |- context [if ?c then _ else _] => destruct c
         | |- context [let '(_, _) := ?p in _] => destruct p
         end; apply fix_in_range.
Qed.

Lemma truediv_in_range (a b q : Decimal) :
  PyDecimal.__truediv__ a b = Ok q -> DefaultContext.in_range q = true ->
  DefaultContext.__truediv__ a b = Ok q.
Proof.
  unfold DefaultContext.__truediv__, PyDecimal.__truediv__.
  repeat match goal with
         | |- context [if ?c then _ else _] => destruct c
         | |- context [let '(_, _) := ?p in _] => destruct p
         end; try discriminate; intros [= <-]; apply fix_in_range.
Qed.


End DefaultContextFacts.

Section DefaultContextRuns.
Import PyDecimal PyDecimalFacts PyDecimalMore DefaultContextFacts.

(** The loop within the limits. *)
Lemma loop_in_range_returns (items : list (CannabisIngredient.t * Decimal)) :
  forall totals : Decimal * Decimal,
    DefaultContext.loop_in_range items totals = true ->
    DefaultContext.loop items totals = Ok (fold_left Recipe.accumulate items totals).
Proof.
  induction items as [|[ingredient amount] items IH]; intros [t c] Hr.
  - reflexivity.
  - cbn [DefaultContext.loop_in_range fst snd] in Hr.
    repeat (apply andb_true_iff in Hr as [Hr ?]).
    cbn [DefaultContext.loop fold_left].
    unfold DefaultContext.accumulate, DefaultContext.calculate_thc_dose,
      DefaultContext.calculate_cbd_dose. cbn [fst snd].
    unfold CannabisIngredient.calculate_thc_dose,
      CannabisIngredient.calculate_cbd_dose in *.
    rewrite mul_in_range by assumption. cbn [rbind].
    rewrite add_in_range by assumption. cbn [rbind].
    rewrite mul_in_range by assumption. cbn [rbind].
    rewrite add_in_range by assumption. cbn [rbind].
    apply IH. assumption.
Qed.

Lemma loop_raises (items : list (CannabisIngredient.t * Decimal)) :
  forall (totals : Decimal * Decimal) (e : PyException),
    DefaultContext.loop items totals = Raise e -> e = Overflow.
Proof.
  induction items as [|item items IH]; intros totals e; cbn [DefaultContext.loop].
  - discriminate.
  - unfold DefaultContext.accumulate, DefaultContext.calculate_thc_dose,
      DefaultContext.calculate_cbd_dose.
    destruct (DefaultContext.__mul__
                (CannabisIngredient.thc_mg_per_gram (fst item)) (snd item))
      as [thc|e1] eqn:H1; cbn [rbind];
      [|intros [= <-]; exact (mul_raises _ _ _ H1)].
    destruct (DefaultContext.__add__ (fst totals) thc) as [tt|e2] eqn:H2;
      cbn [rbind]; [|intros [= <-]; exact (add_raises _ _ _ H2)].
    destruct (DefaultContext.__mul__
                (CannabisIngredient.cbd_mg_per_gram (fst item)) (snd item))
      as [cbd|e3] eqn:H3; cbn [rbind];
      [|intros [= <-]; exact (mul_raises _ _ _ H3)].
    destruct (DefaultContext.__add__ (snd totals) cbd) as [tc|e4] eqn:H4;
      cbn [rbind]; [|intros [= <-]; exact (add_raises _ _ _ H4)].
    apply IH.
Qed.

(** calculate_total_dosage along its paths. *)
Lemma context_dosage_zero (r : Recipe.t) (totals : Decimal * Decimal) :
  Recipe.servings r = 0 -> DefaultContext.totals r = Ok totals ->
  DefaultContext.calculate_total_dosage r =
  Ok (DosageInfo.mk Decimal_0 Decimal_0 (fst totals) (snd totals) 0 60 6 "" false).
Proof.
  intros Hs Ht. unfold DefaultContext.calculate_total_dosage.
  rewrite Ht, Hs. reflexivity.
Qed.

Lemma context_dosage_loop_raises (r : Recipe.t) (e : PyException) :
  DefaultContext.totals r = Raise e ->
  e = Overflow /\ DefaultContext.calculate_total_dosage r = Raise Overflow.
Proof.
  intros Ht. pose proof (loop_raises _ _ _ Ht) as ->. split; [reflexivity|].
  unfold DefaultContext.calculate_total_dosage. rewrite Ht. reflexivity.
Qed.

Lemma context_dosage_nonzero (r : Recipe.t) (totals : Decimal * Decimal) :
  Recipe.servings r <> 0 -> DefaultContext.totals r = Ok totals ->
  DefaultContext.calculate_total_dosage r =
  let* qt := DefaultContext.__truediv__ (fst totals) (of_int (Recipe.servings r)) in
  let* qc := DefaultContext.__truediv__ (snd totals) (of_int (Recipe.servings r)) in
  Ok (DosageInfo.mk qt qc (fst totals) (snd totals) (Recipe.servings r) 60 6 ""
        (__gt__ qt Decimal_10)).
Proof.
  intros Hs Ht. unfold DefaultContext.calculate_total_dosage.
  rewrite Ht. cbn [rbind]. rewrite (proj2 (Z.eqb_neq _ _) Hs). cbn [negb].
  destruct (DefaultContext.__truediv__ (fst totals) _) as [qt|e1]; cbn [rbind];
    [|reflexivity].
  destruct (DefaultContext.__truediv__ (snd totals) _) as [qc|e2]; cbn [rbind];
    reflexivity.
Qed.

(** Whatever it raises is Overflow: the guard leaves no division by
    zero. *)
Lemma context_dosage_raises (r : Recipe.t) (e : PyException) :
  DefaultContext.calculate_total_dosage r = Raise e -> e = Overflow.
Proof.
  destruct (DefaultContext.totals r) as [totals|e0] eqn:Ht.
  - destruct (Z.eq_dec (Recipe.servings r) 0) as [Hs|Hs].
    + rewrite (context_dosage_zero r totals Hs Ht). discriminate.
    + rewrite (context_dosage_nonzero r totals Hs Ht).
      pose proof (of_int_nonzero _ Hs) as Hnz.
      destruct (DefaultContext.__truediv__ (fst totals) _) as [qt|e1] eqn:H1;
        cbn [rbind]; [|intros [= <-]; exact (truediv_raises _ _ _ Hnz H1)].
      destruct (DefaultContext.__truediv__ (snd totals) _) as [qc|e2] eqn:H2;
        cbn [rbind]; [discriminate|intros [= <-]; exact (truediv_raises _ _ _ Hnz H2)].
  - destruct (context_dosage_loop_raises r e0 Ht) as [_ ->]. congruence.
Qed.

(** What a returned DosageInfo holds. *)
Lemma context_dosage_returned (r : Recipe.t) (d : DosageInfo.t) :
  DefaultContext.calculate_total_dosage r = Ok d ->
  DefaultContext.totals r = Ok (DosageInfo.total_thc_mg d, DosageInfo.total_cbd_mg d) /\
  DosageInfo.servings d = Recipe.servings r /\
  (Recipe.servings r = 0 ->
   DosageInfo.thc_mg_per_serving d = Decimal_0 /\
   DosageInfo.cbd_mg_per_serving d = Decimal_0 /\
   DosageInfo.high_dose_warning d = false) /\
  (Recipe.servings r <> 0 ->
   DefaultContext.__truediv__ (DosageInfo.total_thc_mg d) (of_int (Recipe.servings r))
   = Ok (DosageInfo.thc_mg_per_serving d) /\
   DefaultContext.__truediv__ (DosageInfo.total_cbd_mg d) (of_int (Recipe.servings r))
   = Ok (DosageInfo.cbd_mg_per_serving d) /\
   DosageInfo.high_dose_warning d
   = __gt__ (DosageInfo.thc_mg_per_serving d) Decimal_10).
Proof.
  intros Hd.
  destruct (DefaultContext.totals r) as [[tt tc]|e0] eqn:Ht.
  - destruct (Z.eq_dec (Recipe.servings r) 0) as [Hs|Hs].
    + rewrite (context_dosage_zero r _ Hs Ht) in Hd. injection Hd as <-.
      cbn. rewrite Hs. repeat split; auto; contradiction.
    + rewrite (context_dosage_nonzero r _ Hs Ht) in Hd. cbn [fst snd] in Hd.
      destruct (DefaultContext.__truediv__ tt _) as [qt|e1] eqn:H1;
        cbn [rbind] in Hd; [|discriminate].
      destruct (DefaultContext.__truediv__ tc _) as [qc|e2] eqn:H2;
        cbn [rbind] in Hd; [|discriminate].
      injection Hd as <-. cbn. repeat split; auto; contradiction.
  - destruct (context_dosage_loop_raises r e0 Ht) as [_ H]. congruence.
Qed.

(** Within the limits calculate_total_dosage returns what the
    rounding-only arithmetic gives. *)
Lemma run_in_range_returns (r : Recipe.t) :
  DefaultContext.run_in_range r = true ->
  DefaultContext.calculate_total_dosage r = Recipe.calculate_total_dosage r.
Proof.
  unfold DefaultContext.run_in_range. intros Hr.
  apply andb_true_iff in Hr as [Hr Hqc]. apply andb_true_iff in Hr as [Hl Hqt].
  pose proof (loop_in_range_returns _ _ Hl) as Ht.
  fold (Recipe.totals r) in Ht. fold (DefaultContext.totals r) in Ht.
  destruct (Z.eq_dec (Recipe.servings r) 0) as [Hs|Hs].
  - rewrite (context_dosage_zero r _ Hs Ht), calculate_total_dosage_zero
      by assumption. reflexivity.
  - rewrite (context_dosage_nonzero r _ Hs Ht).
    destruct (calculate_total_dosage_nonzero r Hs) as (qt & qc & Hqt' & Hqc' & ->).
    unfold DefaultContext.quotient_in_range in Hqt, Hqc.
    rewrite (proj2 (Z.eqb_neq _ _) Hs) in Hqt, Hqc. cbn [orb] in Hqt, Hqc.
    rewrite Hqt' in Hqt. rewrite Hqc' in Hqc.
    rewrite (truediv_in_range _ _ _ Hqt' Hqt). cbn [rbind].
    rewrite (truediv_in_range _ _ _ Hqc' Hqc). reflexivity.
Qed.

End DefaultContextRuns.

Section DefaultContextValues.
Import PyDecimal PyDecimalFacts PyDecimalMore DefaultContextFacts.





(** calculate_per_serving along its paths. *)
Lemma context_per_serving_zero (self : DosageInfo.t) :
  DosageInfo.servings self = 0 ->
  DefaultContext.calculate_per_serving self
  = Ok (<["cbd_mg" := Decimal_0]> (<["thc_mg" := Decimal_0]> ∅)).
Proof.
  intros Hs. unfold DefaultContext.calculate_per_serving. rewrite Hs. reflexivity.
Qed.

Lemma context_per_serving_nonzero (self : DosageInfo.t) :
  DosageInfo.servings self <> 0 ->
  DefaultContext.calculate_per_serving self =
  let* thc := DefaultContext.__truediv__ (DosageInfo.total_thc_mg self)
                (of_int (DosageInfo.servings self)) in
  let* cbd := DefaultContext.__truediv__ (DosageInfo.total_cbd_mg self)
                (of_int (DosageInfo.servings self)) in
  Ok (<["cbd_mg" := cbd]> (<["thc_mg" := thc]> ∅)).
Proof.
  intros Hs. unfold DefaultContext.calculate_per_serving.
  rewrite (proj2 (Z.eqb_neq _ _) Hs). reflexivity.
Qed.

Lemma dosage_map_dom (x y : Decimal) :
  dom (<["cbd_mg" := y]> (<["thc_mg" := x]> (∅ : gmap string Decimal)))
  = ({[ "thc_mg"; "cbd_mg" ]} : gset string).
Proof. rewrite !dom_insert_L, dom_empty_L. set_solver. Qed.

Lemma dosage_map_thc (x y : Decimal) :
  (<["cbd_mg" := y]> (<["thc_mg" := x]> (∅ : gmap string Decimal)))
    !! "thc_mg" = Some x.
Proof. rewrite lookup_insert_ne by discriminate. apply lookup_insert_eq. Qed.

Lemma dosage_map_cbd (x y : Decimal) :
  (<["cbd_mg" := y]> (<["thc_mg" := x]> (∅ : gmap string Decimal)))
    !! "cbd_mg" = Some y.
Proof. apply lookup_insert_eq. Qed.

End DefaultContextValues.

Section Unbounded.
Import PyDecimal PyDecimalFacts PyDecimalMore.



End Unbounded.

(** * The claims *)

Section Claims.
Import PyDecimal PyDecimalFacts PyDecimalMore DefaultContextFacts.



(** C2 (as amended).  For every recipe with servings == 0,
    calculate_total_dosage either returns a DosageInfo whose
    thc_mg_per_serving and cbd_mg_per_serving are Decimal("0") and whose
    high_dose_warning is False, or raises decimal.Overflow; it raises
    exactly when the summation loop, which runs before the guard, does
    (a dose or a running total above Emax), and no division is
    evaluated.  It returns whenever every dose and running total,
    rounded to 28 significant digits, is within the exponent limits of
    the context ([DefaultContext.loop_in_range]). *)
Theorem zero_servings_fallback (r : Recipe.t) :
  Recipe.servings r = 0 ->
  (DefaultContext.calculate_total_dosage r = Raise Overflow \/
   exists d : DosageInfo.t,
     DefaultContext.calculate_total_dosage r = Ok d /\
     DosageInfo.thc_mg_per_serving d = Decimal_0 /\
     DosageInfo.cbd_mg_per_serving d = Decimal_0 /\
     __eq__ (DosageInfo.thc_mg_per_serving d) Decimal_0 = true /\
     __eq__ (DosageInfo.cbd_mg_per_serving d) Decimal_0 = true /\
     DosageInfo.high_dose_warning d = false) /\
  (DefaultContext.calculate_total_dosage r = Raise Overflow <->
   exists e, DefaultContext.totals r = Raise e) /\
  (DefaultContext.loop_in_range (Recipe.cannabis_ingredients r)
     (Decimal_0_00, Decimal_0_00) = true ->
   exists d : DosageInfo.t,
     DefaultContext.calculate_total_dosage r = Ok d /\
     DosageInfo.thc_mg_per_serving d = Decimal_0 /\
     DosageInfo.cbd_mg_per_serving d = Decimal_0 /\
     __eq__ (DosageInfo.thc_mg_per_serving d) Decimal_0 = true /\
     __eq__ (DosageInfo.cbd_mg_per_serving d) Decimal_0 = true /\
     DosageInfo.high_dose_warning d = false).
Proof.
  intros Hs.
  assert (Hret : forall totals, DefaultContext.totals r = Ok totals ->
            exists d : DosageInfo.t,
              DefaultContext.calculate_total_dosage r = Ok d /\
              DosageInfo.thc_mg_per_serving d = Decimal_0 /\
              DosageInfo.cbd_mg_per_serving d = Decimal_0 /\
              __eq__ (DosageInfo.thc_mg_per_serving d) Decimal_0 = true /\
              __eq__ (DosageInfo.cbd_mg_per_serving d) Decimal_0 = true /\
              DosageInfo.high_dose_warning d = false).
  { intros totals Ht. rewrite (context_dosage_zero r totals Hs Ht).
    eexists. split; [reflexivity|]. cbn. auto 6. }
  split; [|split].
  - destruct (DefaultContext.totals r) as [totals|e] eqn:Ht.
    + right. exact (Hret totals eq_refl).
    + left. exact (proj2 (context_dosage_loop_raises r e Ht)).
  - split.
    + intros Hraise. destruct (DefaultContext.totals r) as [totals|e] eqn:Ht.
      * destruct (Hret totals eq_refl) as (d & Hd & _). congruence.
      * eauto.
    + intros [e Ht]. exact (proj2 (context_dosage_loop_raises r e Ht)).
  - intros Hl. apply (Hret (Recipe.totals r)).
    unfold DefaultContext.totals, Recipe.totals.
    apply loop_in_range_returns. exact Hl.
Qed.

Lemma zero_servings_fallback_witness :
  Recipe.servings (recipe_with scenario_items 0) = 0 /\
  DefaultContext.loop_in_range
    (Recipe.cannabis_ingredients (recipe_with scenario_items 0))
    (Decimal_0_00, Decimal_0_00) = true /\
  exists d : DosageInfo.t,
    DefaultContext.calculate_total_dosage (recipe_with scenario_items 0) = Ok d /\
    DosageInfo.thc_mg_per_serving d = Decimal_0 /\
    DosageInfo.cbd_mg_per_serving d = Decimal_0 /\
    __eq__ (DosageInfo.thc_mg_per_serving d) Decimal_0 = true /\
    __eq__ (DosageInfo.cbd_mg_per_serving d) Decimal_0 = true /\
    DosageInfo.high_dose_warning d = false.
Proof.
  split; [reflexivity|]. split; [vm_compute; reflexivity|].
  apply (zero_servings_fallback (recipe_with scenario_items 0) eq_refl).
  vm_compute. reflexivity.
Defined.

(** C2, the claim as stated fails: the loop runs before the guard, and
    with servings == 0 an ingredient at 1E+999999 mg/g used at 10 g
    makes the call raise decimal.Overflow instead of returning. *)
Lemma zero_servings_overflow :
  Recipe.servings recipe_overflow = 0 /\
  DefaultContext.calculate_total_dosage recipe_overflow = Raise Overflow /\
  ~ (exists d : DosageInfo.t,
        DefaultContext.calculate_total_dosage recipe_overflow = Ok d).
Proof.
  split; [reflexivity|]. split; [vm_compute; reflexivity|].
  intros [d Hd]. vm_compute in Hd. discriminate Hd.
Qed.







(** C5.  suggest_pairings evaluates the five threshold rules of the
    table independently and appends their suggestions in the order of
    the table; a concentration equal to its threshold does not fire the
    rule.  A profile with limonene == 0.6 and the other four
    concentrations == 0 yields exactly citrus desserts, seafood, light
    salads; a profile with myrcene == 0.5 yields none of the myrcene
    suggestions. *)
Theorem suggest_pairings_rules :
  (forall self : TerpeneProfile.t,
      TerpeneProfile.suggest_pairings self = suggest_pairings_spec self) /\
  (forall (self : TerpeneProfile.t) rule,
      In rule pairing_rules ->
      __eq__ (fst (fst rule) self) (snd (fst rule)) = true ->
      fires self rule = false /\
      forall item, In item (snd rule) ->
                   ~ In item (TerpeneProfile.suggest_pairings self)) /\
  (forall self : TerpeneProfile.t,
      __eq__ (TerpeneProfile.limonene self) (mkDecimal false 6 (-1)) = true ->
      __eq__ (TerpeneProfile.myrcene self) Decimal_0 = true ->
      __eq__ (TerpeneProfile.caryophyllene self) Decimal_0 = true ->
      __eq__ (TerpeneProfile.pinene self) Decimal_0 = true ->
      __eq__ (TerpeneProfile.linalool self) Decimal_0 = true ->
      TerpeneProfile.suggest_pairings self
      = ["citrus desserts"; "seafood"; "light salads"]) /\
  (forall self : TerpeneProfile.t,
      __eq__ (TerpeneProfile.myrcene self) Decimal_0_5 = true ->
      forall item, In item ["mangoes"; "tropical fruits"; "herbal dishes"] ->
                   ~ In item (TerpeneProfile.suggest_pairings self)).
Proof.
  assert (Hspec : forall self : TerpeneProfile.t,
    TerpeneProfile.suggest_pairings self = suggest_pairings_spec self).
  { intros self. unfold TerpeneProfile.suggest_pairings, suggest_pairings_spec,
      pairing_rules, fires, TerpeneProfile.extend.
    cbn [flat_map snd].
    destruct (__gt__ (TerpeneProfile.limonene self) Decimal_0_5),
      (__gt__ (TerpeneProfile.myrcene self) Decimal_0_5),
      (__gt__ (TerpeneProfile.caryophyllene self) Decimal_0_3),
      (__gt__ (TerpeneProfile.pinene self) Decimal_0_3),
      (__gt__ (TerpeneProfile.linalool self) Decimal_0_2); reflexivity. }
  assert (Hrule : forall (self : TerpeneProfile.t) rule,
    In rule pairing_rules ->
    __eq__ (fst (fst rule) self) (snd (fst rule)) = true ->
    fires self rule = false /\
    forall item, In item (snd rule) ->
                 ~ In item (TerpeneProfile.suggest_pairings self)).
  { intros self rule Hin Heq.
    assert (Hf : fires self rule = false).
    { destruct rule as [[terpene threshold] items]. apply eq_not_gt, Heq. }
    split; [exact Hf|]. intros item Hitem. rewrite Hspec.
    unfold suggest_pairings_spec.
    unfold pairing_rules in Hin. cbn [In] in Hin.
    unfold pairing_rules. cbn [flat_map].
    repeat (destruct Hin as [<-|Hin]);
      try contradiction; rewrite ?Hf;
      cbn [snd In] in Hitem;
      repeat (destruct Hitem as [<-|Hitem]); try contradiction;
      repeat match goal with
             | |- context [if fires self ?x then _ else _] =>
                 destruct (fires self x)
             end;
      cbn; intros Hbad;
      repeat (destruct Hbad as [Hbad|Hbad]; [discriminate Hbad|]);
      exact Hbad. }
  split; [exact Hspec|]. split; [exact Hrule|]. split.
  - intros self Hl Hm Hc Hp Hn. unfold TerpeneProfile.suggest_pairings.
    rewrite (gt_proper _ (mkDecimal false 6 (-1)) Decimal_0_5 Decimal_0_5 Hl eq_refl).
    rewrite (gt_proper _ Decimal_0 Decimal_0_5 Decimal_0_5 Hm eq_refl).
    rewrite (gt_proper _ Decimal_0 Decimal_0_3 Decimal_0_3 Hc eq_refl).
    rewrite (gt_proper _ Decimal_0 Decimal_0_3 Decimal_0_3 Hp eq_refl).
    rewrite (gt_proper _ Decimal_0 Decimal_0_2 Decimal_0_2 Hn eq_refl).
    reflexivity.
  - intros self Hm.
    apply (Hrule self (TerpeneProfile.myrcene, Decimal_0_5,
                       ["mangoes"; "tropical fruits"; "herbal dishes"])).
    + unfold pairing_rules. cbn. auto.
    + exact Hm.
Qed.

(** C6 (as amended).  For every DosageInfo, calculate_per_serving
    either returns a mapping with exactly the keys thc_mg and cbd_mg or,
    when servings != 0, raises decimal.Overflow from one of its two
    divisions.  The mapping holds Decimal("0") twice when servings == 0
    and otherwise the quotients total_thc_mg / servings and
    total_cbd_mg / servings; it is returned whenever both quotients,
    rounded to 28 significant digits, are within the exponent limits of
    the context ([DefaultContext.quotient_in_range]).  Applied to a DosageInfo
    that calculate_total_dosage returned, it never raises and returns
    exactly that DosageInfo's thc_mg_per_serving and
    cbd_mg_per_serving. *)
Theorem calculate_per_serving_agrees :
  (forall self : DosageInfo.t,
      (DosageInfo.servings self <> 0 /\
       DefaultContext.calculate_per_serving self = Raise Overflow /\
       (DefaultContext.__truediv__ (DosageInfo.total_thc_mg self)
          (of_int (DosageInfo.servings self)) = Raise Overflow \/
        DefaultContext.__truediv__ (DosageInfo.total_cbd_mg self)
          (of_int (DosageInfo.servings self)) = Raise Overflow)) \/
      exists m : gmap string Decimal,
        DefaultContext.calculate_per_serving self = Ok m /\
        dom m = {[ "thc_mg"; "cbd_mg" ]} /\
        (DosageInfo.servings self = 0 ->
         m !! "thc_mg" = Some Decimal_0 /\ m !! "cbd_mg" = Some Decimal_0) /\
        (DosageInfo.servings self <> 0 ->
         exists thc cbd : Decimal,
           DefaultContext.__truediv__ (DosageInfo.total_thc_mg self)
             (of_int (DosageInfo.servings self)) = Ok thc /\
           DefaultContext.__truediv__ (DosageInfo.total_cbd_mg self)
             (of_int (DosageInfo.servings self)) = Ok cbd /\
           m !! "thc_mg" = Some thc /\ m !! "cbd_mg" = Some cbd)) /\
  (forall self : DosageInfo.t,
      DefaultContext.quotient_in_range (DosageInfo.total_thc_mg self)
        (DosageInfo.servings self) = true ->
      DefaultContext.quotient_in_range (DosageInfo.total_cbd_mg self)
        (DosageInfo.servings self) = true ->
      exists m : gmap string Decimal,
        DefaultContext.calculate_per_serving self = Ok m /\
        dom m = {[ "thc_mg"; "cbd_mg" ]}) /\
  (forall (r : Recipe.t) (d : DosageInfo.t),
      DefaultContext.calculate_total_dosage r = Ok d ->
      exists m : gmap string Decimal,
        DefaultContext.calculate_per_serving d = Ok m /\
        dom m = {[ "thc_mg"; "cbd_mg" ]} /\
        m !! "thc_mg" = Some (DosageInfo.thc_mg_per_serving d) /\
        m !! "cbd_mg" = Some (DosageInfo.cbd_mg_per_serving d)) /\
  (forall r : Recipe.t,
      DefaultContext.run_in_range r = true ->
      exists d : DosageInfo.t, DefaultContext.calculate_total_dosage r = Ok d).
Proof.
  split; [|split; [|split]].
  - intros self. destruct (Z.eq_dec (DosageInfo.servings self) 0) as [Hs|Hs].
    + right. rewrite (context_per_serving_zero self Hs).
      eexists. split; [reflexivity|]. split; [apply dosage_map_dom|].
      split; [|intros Hn; contradiction].
      intros _. split; [apply dosage_map_thc|apply dosage_map_cbd].
    + rewrite (context_per_serving_nonzero self Hs).
      pose proof (of_int_nonzero _ Hs) as Hnz.
      destruct (DefaultContext.__truediv__ (DosageInfo.total_thc_mg self) _)
        as [thc|e1] eqn:H1; cbn [rbind].
      * destruct (DefaultContext.__truediv__ (DosageInfo.total_cbd_mg self) _)
          as [cbd|e2] eqn:H2; cbn [rbind].
        -- right. eexists. split; [reflexivity|]. split; [apply dosage_map_dom|].
           split; [intros H0; contradiction|].
           intros _. exists thc, cbd.
           auto using dosage_map_thc, dosage_map_cbd.
        -- left. pose proof (truediv_raises _ _ _ Hnz H2) as ->. auto.
      * left. pose proof (truediv_raises _ _ _ Hnz H1) as ->. auto.
  - intros self Ht Hc.
    destruct (Z.eq_dec (DosageInfo.servings self) 0) as [Hs|Hs].
    + rewrite (context_per_serving_zero self Hs).
      eexists. split; [reflexivity|apply dosage_map_dom].
    + rewrite (context_per_serving_nonzero self Hs).
      unfold DefaultContext.quotient_in_range in Ht, Hc.
      rewrite (proj2 (Z.eqb_neq _ _) Hs) in Ht, Hc. cbn [orb] in Ht, Hc.
      destruct (PyDecimal.__truediv__ (DosageInfo.total_thc_mg self) _)
        as [thc|] eqn:H1; [|discriminate].
      destruct (PyDecimal.__truediv__ (DosageInfo.total_cbd_mg self) _)
        as [cbd|] eqn:H2; [|discriminate].
      rewrite (truediv_in_range _ _ _ H1 Ht). cbn [rbind].
      rewrite (truediv_in_range _ _ _ H2 Hc). cbn [rbind].
      eexists. split; [reflexivity|apply dosage_map_dom].
  - intros r d Hd.
    destruct (context_dosage_returned r d Hd) as (_ & Hsd & H0 & Hn).
    destruct (Z.eq_dec (Recipe.servings r) 0) as [Hs|Hs].
    + destruct (H0 Hs) as (-> & -> & _).
      rewrite (context_per_serving_zero d) by congruence.
      eexists. split; [reflexivity|]. split; [apply dosage_map_dom|].
      split; [apply dosage_map_thc|apply dosage_map_cbd].
    + destruct (Hn Hs) as (Ht & Hc & _).
      rewrite (context_per_serving_nonzero d) by congruence.
      rewrite Hsd, Ht. cbn [rbind]. rewrite Hc. cbn [rbind].
      eexists. split; [reflexivity|]. split; [apply dosage_map_dom|].
      split; [apply dosage_map_thc|apply dosage_map_cbd].
  - intros r Hr. rewrite (run_in_range_returns r Hr).
    apply calculate_total_dosage_total.
Qed.

Lemma calculate_per_serving_agrees_witness :
  DefaultContext.run_in_range (recipe_with scenario_items 3) = true /\
  exists (d : DosageInfo.t) (m : gmap string Decimal),
    DefaultContext.calculate_total_dosage (recipe_with scenario_items 3) = Ok d /\
    DefaultContext.calculate_per_serving d = Ok m /\
    dom m = {[ "thc_mg"; "cbd_mg" ]} /\
    m !! "thc_mg" = Some (DosageInfo.thc_mg_per_serving d) /\
    m !! "cbd_mg" = Some (DosageInfo.cbd_mg_per_serving d).
Proof.
  split; [vm_compute; reflexivity|].
  destruct calculate_per_serving_agrees as (_ & _ & Hagree & Hret).
  destruct (Hret (recipe_with scenario_items 3)) as [d Hd];
    [vm_compute; reflexivity|].
  destruct (Hagree _ d Hd) as (m & Hm). exists d, m. split; [exact Hd|exact Hm].
Defined.

(** C6, the claim as stated fails: for a DosageInfo with total_thc_mg
    1E+2000000 and servings 1 the division raises decimal.Overflow and
    no mapping is returned. *)
Lemma huge_total_overflows :
  DosageInfo.servings dosage_overflow <> 0 /\
  DefaultContext.calculate_per_serving dosage_overflow = Raise Overflow /\
  ~ (exists m : gmap string Decimal,
        DefaultContext.calculate_per_serving dosage_overflow = Ok m).
Proof.
  assert (H : DefaultContext.calculate_per_serving dosage_overflow = Raise Overflow)
    by (vm_compute; reflexivity).
  split; [discriminate|]. split; [exact H|].
  intros [m Hm]. rewrite H in Hm. discriminate Hm.
Qed.



(** C8 (as amended).  Constructing a Recipe, a CannabisIngredient or a
    FoodSafetyRecord checks nothing: for every value of category,
    ingredient_type, form or status, inside or outside the vocabulary,
    construction succeeds and the field holds the value it was given.
    A string outside a vocabulary is rejected only where the enumeration
    class itself is called on it, RecipeCategory(s) or IngredientType(s),
    which raises ValueError exactly for the strings that are no member's
    value and returns the member otherwise. *)
Theorem construction_is_unchecked :
  (forall id name description category cannabis_ingredients ingredients
          steps prep_time_minutes cook_time_minutes total_time_minutes
          servings dosage_info dietary_labels allergens nutrition difficulty
          chef_notes terpene_pairing_notes author created_at updated_at,
      exists r : Recipe.t,
        Recipe.__init__ id name description category cannabis_ingredients
          ingredients steps prep_time_minutes cook_time_minutes
          total_time_minutes servings dosage_info dietary_labels allergens
          nutrition difficulty chef_notes terpene_pairing_notes author
          created_at updated_at = Ok r /\
        Recipe.category r = category) /\
  (forall id name ingredient_type form coa_reference terpene_profile
          thc_mg_per_gram cbd_mg_per_gram is_decarboxylated decarb_temp_f
          decarb_time_minutes storage_temp_min_f storage_temp_max_f
          shelf_life_days light_sensitive supplier_id supplier_name
          lot_number received_date,
      exists i : CannabisIngredient.t,
        CannabisIngredient.__init__ id name ingredient_type form
          coa_reference terpene_profile thc_mg_per_gram cbd_mg_per_gram
          is_decarboxylated decarb_temp_f decarb_time_minutes
          storage_temp_min_f storage_temp_max_f shelf_life_days
          light_sensitive supplier_id supplier_name lot_number
          received_date = Ok i /\
        CannabisIngredient.ingredient_type i = ingredient_type /\
        CannabisIngredient.form i = form) /\
  (forall id venue_id inspection_date inspector_name score status
          cannabis_license_verified dosage_labeling_compliant
          coa_records_available staff_training_current notes
          next_inspection_date violations corrective_actions,
      exists f : FoodSafetyRecord.t,
        FoodSafetyRecord.__init__ id venue_id inspection_date inspector_name
          score status cannabis_license_verified dosage_labeling_compliant
          coa_records_available staff_training_current notes
          next_inspection_date violations corrective_actions = Ok f /\
        FoodSafetyRecord.status f = status) /\
  (forall s : string,
      (by_value s : result RecipeCategory.t) = Raise ValueError <->
      in_vocabulary (Foreign s : EnumField RecipeCategory.t) = false) /\
  (forall s : string,
      (by_value s : result IngredientType.t) = Raise ValueError <->
      in_vocabulary (Foreign s : EnumField IngredientType.t) = false) /\
  (forall c : RecipeCategory.t, by_value (value c) = Ok c) /\
  (forall t : IngredientType.t, by_value (value t) = Ok t).
Proof.
  split; [|split; [|split; [|split; [|split; [|split]]]]].
  - intros. eexists. split; reflexivity.
  - intros. eexists. split; [reflexivity|]. split; reflexivity.
  - intros. eexists. split; reflexivity.
  - intros s. apply by_value_raises.
  - intros s. apply by_value_raises.
  - intros []; reflexivity.
  - intros []; reflexivity.
Qed.

(** C8, the claim as stated fails: a Recipe is constructed with the
    category "pizza", which is in no vocabulary; nothing is raised and
    the field holds the string. *)
Lemma foreign_category_accepted :
  in_vocabulary (Foreign "pizza" : EnumField RecipeCategory.t) = false /\
  exists r : Recipe.t,
    Recipe.__init__ 2%N "" None (Foreign "pizza") [] [] [] 0 0 0 1
      DosageInfo.default [] [] None "medium" None None None epoch epoch
    = Ok r /\
    Recipe.category r = Foreign "pizza".
Proof.
  split; [reflexivity|]. eexists. split; reflexivity.
Qed.

(** C9 (as amended).  The division guard of calculate_total_dosage is
    the test servings != 0.  For every integer servings the function
    raises neither DivisionByZero nor InvalidOperation: the only
    exception it can raise is decimal.Overflow.  Whenever it returns,
    the per-serving fields are Decimal("0") through the guard if
    servings == 0 and the quotients total / servings otherwise.  It
    returns whenever the run stays within the exponent limits of the
    context ([DefaultContext.run_in_range]), and then, for servings < 0, a per-serving value is negative
    exactly when its total is positive, positive when the total is
    negative and zero when the total is zero. *)
Theorem division_guard (r : Recipe.t) :
  (forall e : PyException,
      DefaultContext.calculate_total_dosage r = Raise e -> e = Overflow) /\
  (forall d : DosageInfo.t,
      DefaultContext.calculate_total_dosage r = Ok d ->
      (Recipe.servings r = 0 ->
       DosageInfo.thc_mg_per_serving d = Decimal_0 /\
       DosageInfo.cbd_mg_per_serving d = Decimal_0) /\
      (Recipe.servings r <> 0 ->
       DefaultContext.__truediv__ (DosageInfo.total_thc_mg d)
         (of_int (Recipe.servings r))
       = Ok (DosageInfo.thc_mg_per_serving d) /\
       DefaultContext.__truediv__ (DosageInfo.total_cbd_mg d)
         (of_int (Recipe.servings r))
       = Ok (DosageInfo.cbd_mg_per_serving d))) /\
  (DefaultContext.run_in_range r = true ->
   exists d : DosageInfo.t,
     DefaultContext.calculate_total_dosage r = Ok d /\
     (Recipe.servings r < 0 ->
      __lt__ (DosageInfo.thc_mg_per_serving d) Decimal_0
      = __gt__ (DosageInfo.total_thc_mg d) Decimal_0 /\
      __gt__ (DosageInfo.thc_mg_per_serving d) Decimal_0
      = __lt__ (DosageInfo.total_thc_mg d) Decimal_0 /\
      __eq__ (DosageInfo.thc_mg_per_serving d) Decimal_0
      = __eq__ (DosageInfo.total_thc_mg d) Decimal_0 /\
      __lt__ (DosageInfo.cbd_mg_per_serving d) Decimal_0
      = __gt__ (DosageInfo.total_cbd_mg d) Decimal_0 /\
      __gt__ (DosageInfo.cbd_mg_per_serving d) Decimal_0
      = __lt__ (DosageInfo.total_cbd_mg d) Decimal_0 /\
      __eq__ (DosageInfo.cbd_mg_per_serving d) Decimal_0
      = __eq__ (DosageInfo.total_cbd_mg d) Decimal_0)).
Proof.
  split; [exact (context_dosage_raises r)|]. split.
  - intros d Hd. destruct (context_dosage_returned r d Hd) as (_ & _ & H0 & Hn).
    split.
    + intros Hs. destruct (H0 Hs) as (H1 & H2 & _). auto.
    + intros Hs. destruct (Hn Hs) as (H1 & H2 & _). auto.
  - intros Hr. rewrite (run_in_range_returns r Hr).
    destruct (Z.eq_dec (Recipe.servings r) 0) as [Hs|Hs].
    + rewrite calculate_total_dosage_zero by assumption.
      eexists. split; [reflexivity|]. intros Hneg. lia.
    + destruct (calculate_total_dosage_nonzero r Hs) as (qt & qc & Hqt & Hqc & ->).
      eexists. split; [reflexivity|].
      cbn [DosageInfo.thc_mg_per_serving DosageInfo.cbd_mg_per_serving
             DosageInfo.total_thc_mg DosageInfo.total_cbd_mg].
      intros Hneg.
      destruct (truediv_negative _ _ _ Hneg Hqt) as (H1 & H2 & H3).
      destruct (truediv_negative _ _ _ Hneg Hqc) as (H4 & H5 & H6).
      auto 7.
Qed.

Lemma division_guard_witness :
  DefaultContext.run_in_range recipe_negative = true /\
  Recipe.servings recipe_negative < 0 /\
  exists d : DosageInfo.t,
    DefaultContext.calculate_total_dosage recipe_negative = Ok d /\
    __lt__ (DosageInfo.thc_mg_per_serving d) Decimal_0
    = __gt__ (DosageInfo.total_thc_mg d) Decimal_0 /\
    __gt__ (DosageInfo.thc_mg_per_serving d) Decimal_0
    = __lt__ (DosageInfo.total_thc_mg d) Decimal_0 /\
    __eq__ (DosageInfo.thc_mg_per_serving d) Decimal_0
    = __eq__ (DosageInfo.total_thc_mg d) Decimal_0 /\
    __lt__ (DosageInfo.cbd_mg_per_serving d) Decimal_0
    = __gt__ (DosageInfo.total_cbd_mg d) Decimal_0 /\
    __gt__ (DosageInfo.cbd_mg_per_serving d) Decimal_0
    = __lt__ (DosageInfo.total_cbd_mg d) Decimal_0 /\
    __eq__ (DosageInfo.cbd_mg_per_serving d) Decimal_0
    = __eq__ (DosageInfo.total_cbd_mg d) Decimal_0.
Proof.
  split; [vm_compute; reflexivity|]. split; [reflexivity|].
  destruct (division_guard recipe_negative) as (_ & _ & Hrun).
  destruct Hrun as (d & Hd & Hsigns); [vm_compute; reflexivity|].
  exists d. split; [exact Hd|]. apply Hsigns. reflexivity.
Defined.

(** C9, the claim as stated fails: with servings = -1 a recipe without
    cannabis ingredients gets per-serving values -0.00, which equal the
    fallback Decimal("0") and are not below zero; and a recipe with a
    negative total gets a positive per-serving value. *)
Lemma negative_servings_not_negative :
  (exists d : DosageInfo.t,
      DefaultContext.calculate_total_dosage (recipe_with [] (-1)) = Ok d /\
      Recipe.servings (recipe_with [] (-1)) < 0 /\
      DosageInfo.thc_mg_per_serving d = mkDecimal true 0 (-2) /\
      __lt__ (DosageInfo.thc_mg_per_serving d) Decimal_0 = false /\
      __eq__ (DosageInfo.thc_mg_per_serving d) Decimal_0 = true /\
      __lt__ (DosageInfo.cbd_mg_per_serving d) Decimal_0 = false) /\
  (exists d : DosageInfo.t,
      DefaultContext.calculate_total_dosage recipe_negative = Ok d /\
      Recipe.servings recipe_negative < 0 /\
      __gt__ (DosageInfo.thc_mg_per_serving d) Decimal_0 = true /\
      __lt__ (DosageInfo.thc_mg_per_serving d) Decimal_0 = false).
Proof.
  split; eexists; (split; [vm_compute; reflexivity|]);
    cbn [DosageInfo.thc_mg_per_serving DosageInfo.cbd_mg_per_serving];
    repeat split; reflexivity.
Qed.

(** C10.  suggest_pairings depends only on the limonene, myrcene,
    caryophyllene, pinene and linalool concentrations, and on them only
    as numbers: two profiles that agree (==) on those five fields get
    the same suggestions, whatever their humulene, terpinolene, ocimene,
    coa_reference and stored lists are. *)
Theorem suggest_pairings_five_fields (p p' : TerpeneProfile.t) :
  __eq__ (TerpeneProfile.limonene p) (TerpeneProfile.limonene p') = true ->
  __eq__ (TerpeneProfile.myrcene p) (TerpeneProfile.myrcene p') = true ->
  __eq__ (TerpeneProfile.caryophyllene p) (TerpeneProfile.caryophyllene p') = true ->
  __eq__ (TerpeneProfile.pinene p) (TerpeneProfile.pinene p') = true ->
  __eq__ (TerpeneProfile.linalool p) (TerpeneProfile.linalool p') = true ->
  TerpeneProfile.suggest_pairings p = TerpeneProfile.suggest_pairings p'.
Proof.
  intros Hl Hm Hc Hp Hn. unfold TerpeneProfile.suggest_pairings.
  rewrite (gt_proper _ _ Decimal_0_5 Decimal_0_5 Hl eq_refl).
  rewrite (gt_proper _ _ Decimal_0_5 Decimal_0_5 Hm eq_refl).
  rewrite (gt_proper _ _ Decimal_0_3 Decimal_0_3 Hc eq_refl).
  rewrite (gt_proper _ _ Decimal_0_3 Decimal_0_3 Hp eq_refl).
  rewrite (gt_proper _ _ Decimal_0_2 Decimal_0_2 Hn eq_refl).
  reflexivity.
Qed.

Lemma suggest_pairings_five_fields_witness :
  limonene_profile <> limonene_profile' /\
  TerpeneProfile.suggest_pairings limonene_profile
  = TerpeneProfile.suggest_pairings limonene_profile'.
Proof.
  split; [discriminate|].
  apply (suggest_pairings_five_fields limonene_profile limonene_profile');
    reflexivity.
Defined.

End Claims.

(** * Further properties of the Decimal arithmetic *)

Module PyDecimalSigns.
Import PyDecimal PyDecimalFacts PyDecimalMore.

(** *** Signs and zeros through the operators *)














End PyDecimalSigns.


Module PyDecimalQuotient.
Import PyDecimal PyDecimalFacts PyDecimalMore PyDecimalSigns.

(** *** A rounded quotient carries all [prec] digits *)




End PyDecimalQuotient.

Module PyDecimalExact.
Import PyDecimal PyDecimalFacts PyDecimalMore PyDecimalSigns.

(** *** Sums that fit the precision are exact *)

Lemma units_signed (s : bool) (c : N) (e : Z) :
  c <> 0%N -> units e (minus_one_pow s * Z.of_N c) = mkDecimal s c e.
Proof.
  intros Hc. unfold units. f_equal.
  - destruct s; cbn [minus_one_pow]; lia.
  - apply N2Z.inj. rewrite N2Z.inj_abs_N. destruct s; cbn [minus_one_pow]; lia.
Qed.

Lemma scaled_units (e0 e z : Z) : scaled e0 (units e z) = z * 10 ^ (e - e0).
Proof.
  unfold units. rewrite scaled_mk, N2Z.inj_abs_N. f_equal.
  destruct (Z.ltb_spec z 0); cbn [minus_one_pow]; lia.
Qed.

Lemma scaled_pad (m : Z) (d : Decimal) :
  m <= _exp d ->
  scaled m d = minus_one_pow (_sign d) * Z.of_N (pad (_int d) (_exp d - m)).
Proof.
  intros Hm. unfold scaled, pad. rewrite N2Z.inj_mul, pow10_Z by lia. lia.
Qed.

Lemma pad_nonzero (c : N) (k : Z) : c <> 0%N -> pad c k <> 0%N.
Proof. intros Hc. unfold pad. pose proof (pow10_pos k). lia. Qed.

Lemma abs_signed (s : bool) (z : Z) : 0 <= z -> Z.abs (minus_one_pow s * z) = z.
Proof. intros Hz. destruct s; cbn [minus_one_pow]; lia. Qed.


Lemma small_coefficient (c : N) : Z.of_N c < 10 ^ prec -> ndigits c <= prec.
Proof. intros H. apply ndigits_le; [unfold prec; lia|exact H]. Qed.

(** A magnitude below 10^prec units lies within [prec] digits of the
    unit. *)
Lemma exponent_span (e0 : Z) (c : N) (e : Z) :
  c <> 0%N -> e0 <= e -> Z.of_N c * 10 ^ (e - e0) < 10 ^ prec ->
  e + ndigits c - 1 - e0 < prec.
Proof.
  intros Hc He Hb.
  pose proof (magnitude_bounds e0 (mkDecimal false c e) Hc He) as [Hlo _].
  unfold adjusted in Hlo. cbn [_int _exp] in Hlo.
  pose proof (ndigits_pos c).
  apply (Z.pow_lt_mono_r_iff 10); [lia|unfold prec; lia|lia].
Qed.

Lemma normalize_grid (a b : Decimal) :
  let m := Z.min (_exp a) (_exp b) in
  _int a <> 0%N -> _int b <> 0%N ->
  Z.abs (scaled m a) + Z.abs (scaled m b) < 10 ^ prec ->
  _normalize a b
  = (mkDecimal (_sign a) (pad (_int a) (_exp a - m)) m,
     mkDecimal (_sign b) (pad (_int b) (_exp b - m)) m).
Proof.
  destruct a as [sa ia ea], b as [sb ib eb]. cbv zeta. cbn [_exp _int _sign].
  set (m := Z.min ea eb). intros Ha Hb Hbound. rewrite !scaled_mk, !Z.abs_mul in Hbound.
  assert (Hma : m <= ea) by (unfold m; lia).
  assert (Hmb : m <= eb) by (unfold m; lia).
  assert (HPa : 0 < 10 ^ (ea - m)) by pow_pos.
  assert (HPb : 0 < 10 ^ (eb - m)) by pow_pos.
  assert (Hsa : Z.abs (minus_one_pow sa) = 1) by (destruct sa; reflexivity).
  assert (Hsb : Z.abs (minus_one_pow sb) = 1) by (destruct sb; reflexivity).
  rewrite Hsa, Hsb, !Z.mul_1_l, !Z.abs_eq in Hbound by lia.
  assert (Ba : Z.of_N ia * 10 ^ (ea - m) < 10 ^ prec) by nia.
  assert (Bb : Z.of_N ib * 10 ^ (eb - m) < 10 ^ prec) by nia.
  pose proof (exponent_span m ia ea Ha Hma Ba) as Sa.
  pose proof (exponent_span m ib eb Hb Hmb Bb) as Sb.
  pose proof (ndigits_pos ia). pose proof (ndigits_pos ib).
  unfold _normalize. cbn [_exp _int _sign].
  destruct (Z.ltb_spec ea eb) as [Hlt|Hge].
  - assert (Hm : m = ea) by (unfold m; lia). cbn [_exp _int _sign].
    destruct (Z.ltb_spec (ndigits ia + ea - 1)
                (eb + Z.min (-1) (ndigits ib - prec - 2))) as [Hrep|_];
      [exfalso; lia|].
    cbn [_exp _int _sign]. rewrite Hm, Z.sub_diag.
    unfold pad at 2. change (pow10 0) with 1%N. rewrite N.mul_1_r. reflexivity.
  - assert (Hm : m = eb) by (unfold m; lia). cbn [_exp _int _sign].
    destruct (Z.ltb_spec (ndigits ib + eb - 1)
                (ea + Z.min (-1) (ndigits ia - prec - 2))) as [Hrep|_];
      [exfalso; lia|].
    cbn [_exp _int _sign]. rewrite Hm, Z.sub_diag.
    unfold pad at 3. change (pow10 0) with 1%N. rewrite N.mul_1_r. reflexivity.
Qed.

(** The sum of two numbers whose magnitudes fit the precision together
    is their exact sum, at the smaller of the two exponents. *)
Lemma add_grid (a b : Decimal) :
  let m := Z.min (_exp a) (_exp b) in
  Z.abs (scaled m a) + Z.abs (scaled m b) < 10 ^ prec ->
  (_int a = 0%N -> _sign a = false) ->
  __add__ a b = units m (scaled m a + scaled m b).
Proof.
  intros m Hbound Hcanon.
  assert (Hma : m <= _exp a) by (unfold m; lia).
  assert (Hmb : m <= _exp b) by (unfold m; lia).
  pose proof (normalize_grid a b) as Hnorm. cbv zeta in Hnorm. fold m in Hnorm.
  rewrite (scaled_pad m a Hma), (scaled_pad m b Hmb) in *.
  set (A := pad (_int a) (_exp a - m)) in *.
  set (B := pad (_int b) (_exp b - m)) in *.
  rewrite !abs_signed in Hbound by lia.
  unfold __add__, __bool__. fold m.
  destruct (N.eqb_spec (_int a) 0) as [Za|Za],
      (N.eqb_spec (_int b) 0) as [Zb|Zb]; cbn [negb andb].
  - rewrite fix_zero by reflexivity. rewrite (Hcanon Za). cbn [andb].
    unfold A, B, pad. rewrite Za, Zb, !N.mul_0_l, !Z.mul_0_r. reflexivity.
  - assert (HB : B <> 0%N) by (apply pad_nonzero; exact Zb).
    assert (Hmax : Z.max m (_exp b - prec - 1) = m).
    { pose proof (exponent_span m (_int b) (_exp b) Zb Hmb) as Sb.
      unfold B, pad in Hbound. rewrite N2Z.inj_mul, pow10_Z in Hbound by lia.
      pose proof (ndigits_pos (_int b)). lia. }
    rewrite Hmax. unfold _rescale, __bool__.
    rewrite (proj2 (N.eqb_neq _ _) Zb). cbn [negb]. fold B.
    rewrite fix_small by (cbn [_int]; apply small_coefficient; lia).
    unfold A, pad. rewrite Za, N.mul_0_l, Z.mul_0_r, Z.add_0_l.
    symmetry. apply units_signed. exact HB.
  - assert (HA : A <> 0%N) by (apply pad_nonzero; exact Za).
    assert (Hmax : Z.max m (_exp a - prec - 1) = m).
    { pose proof (exponent_span m (_int a) (_exp a) Za Hma) as Sa.
      unfold A, pad in Hbound. rewrite N2Z.inj_mul, pow10_Z in Hbound by lia.
      pose proof (ndigits_pos (_int a)). lia. }
    rewrite Hmax. unfold _rescale, __bool__.
    rewrite (proj2 (N.eqb_neq _ _) Za). cbn [negb]. fold A.
    rewrite fix_small by (cbn [_int]; apply small_coefficient; lia).
    unfold B, pad. rewrite Zb, N.mul_0_l, Z.mul_0_r, Z.add_0_r.
    symmetry. apply units_signed. exact HA.
  - assert (HA : A <> 0%N) by (apply pad_nonzero; exact Za).
    assert (HB : B <> 0%N) by (apply pad_nonzero; exact Zb).
    rewrite Hnorm by (assumption || (rewrite !abs_signed by lia; lia)).
    cbn [_sign _int _exp].
    destruct (_sign a) eqn:Sa, (_sign b) eqn:Sb; cbn [Bool.eqb negb minus_one_pow].
    + rewrite fix_small by (cbn [_int]; apply small_coefficient; lia).
      replace (-1 * Z.of_N A + -1 * Z.of_N B)
        with (minus_one_pow true * Z.of_N (A + B)) by (cbn [minus_one_pow]; lia).
      symmetry. apply units_signed. lia.
    + destruct (N.eqb_spec A B) as [E|E].
      * rewrite fix_zero by reflexivity. rewrite E.
        replace (-1 * Z.of_N B + 1 * Z.of_N B) with 0 by lia. reflexivity.
      * destruct (N.ltb_spec A B) as [L|L]; cbn [_sign _int _exp].
        -- rewrite fix_small by (cbn [_int]; apply small_coefficient; lia).
           replace (-1 * Z.of_N A + 1 * Z.of_N B)
             with (minus_one_pow false * Z.of_N (B - A))
             by (cbn [minus_one_pow]; lia).
           symmetry. apply units_signed. lia.
        -- rewrite fix_small by (cbn [_int]; apply small_coefficient; lia).
           replace (-1 * Z.of_N A + 1 * Z.of_N B)
             with (minus_one_pow true * Z.of_N (A - B))
             by (cbn [minus_one_pow]; lia).
           symmetry. apply units_signed. lia.
    + destruct (N.eqb_spec A B) as [E|E].
      * rewrite fix_zero by reflexivity. rewrite E.
        replace (1 * Z.of_N B + -1 * Z.of_N B) with 0 by lia. reflexivity.
      * destruct (N.ltb_spec A B) as [L|L]; cbn [_sign _int _exp].
        -- rewrite fix_small by (cbn [_int]; apply small_coefficient; lia).
           replace (1 * Z.of_N A + -1 * Z.of_N B)
             with (minus_one_pow true * Z.of_N (B - A))
             by (cbn [minus_one_pow]; lia).
           symmetry. apply units_signed. lia.
        -- rewrite fix_small by (cbn [_int]; apply small_coefficient; lia).
           replace (1 * Z.of_N A + -1 * Z.of_N B)
             with (minus_one_pow false * Z.of_N (A - B))
             by (cbn [minus_one_pow]; lia).
           symmetry. apply units_signed. lia.
    + rewrite fix_small by (cbn [_int]; apply small_coefficient; lia).
      replace (1 * Z.of_N A + 1 * Z.of_N B)
        with (minus_one_pow false * Z.of_N (A + B)) by (cbn [minus_one_pow]; lia).
      symmetry. apply units_signed. lia.
Qed.

(** A product whose magnitude fits the precision is exact. *)
Lemma mul_grid (e0 : Z) (term : Decimal * Decimal) :
  e0 <= _exp (product term) -> Z.abs (scaled e0 (product term)) < 10 ^ prec ->
  __mul__ (fst term) (snd term) = product term.
Proof.
  intros He Hb. unfold __mul__. fold (product term). apply fix_small.
  apply small_coefficient.
  rewrite scaled_pad in Hb by exact He. rewrite abs_signed in Hb by lia.
  unfold pad in Hb. pose proof (pow10_pos (_exp (product term) - e0)). nia.
Qed.

End PyDecimalExact.


(** * Further properties of the models *)

Section Pairings.
Import PyDecimal PyDecimalFacts PyDecimalMore.

(** The five tests of suggest_pairings, in the order of the source. *)
Lemma suggest_pairings_cases (self : TerpeneProfile.t) :
  TerpeneProfile.suggest_pairings self =
  (if __gt__ (TerpeneProfile.limonene self) Decimal_0_5
   then ["citrus desserts"; "seafood"; "light salads"] else []) ++
  (if __gt__ (TerpeneProfile.myrcene self) Decimal_0_5
   then ["mangoes"; "tropical fruits"; "herbal dishes"] else []) ++
  (if __gt__ (TerpeneProfile.caryophyllene self) Decimal_0_3
   then ["black pepper"; "spicy foods"; "dark chocolate"] else []) ++
  (if __gt__ (TerpeneProfile.pinene self) Decimal_0_3
   then ["rosemary"; "pine nuts"; "Mediterranean"] else []) ++
  (if __gt__ (TerpeneProfile.linalool self) Decimal_0_2
   then ["lavender"; "honey"; "floral desserts"] else []).
Proof.
  unfold TerpeneProfile.suggest_pairings, TerpeneProfile.extend.
  destruct (__gt__ (TerpeneProfile.limonene self) Decimal_0_5),
    (__gt__ (TerpeneProfile.myrcene self) Decimal_0_5),
    (__gt__ (TerpeneProfile.caryophyllene self) Decimal_0_3),
    (__gt__ (TerpeneProfile.pinene self) Decimal_0_3),
    (__gt__ (TerpeneProfile.linalool self) Decimal_0_2); reflexivity.
Qed.

(** Raising one operand of > keeps it true. *)
Lemma gt_mono (a a' t : Decimal) :
  __lt__ a' a = false -> __gt__ a t = true -> __gt__ a' t = true.
Proof.
  intros Hle Hgt. apply gt_to_Q. apply gt_to_Q in Hgt.
  apply Qlt_le_trans with (to_Q a); [exact Hgt|].
  apply Qnot_lt_le. intros Hlt. apply lt_to_Q in Hlt. congruence.
Qed.

(** X1.  Whatever the profile, suggest_pairings returns no suggestion
    twice, returns the suggestions in the order of the fifteen of the
    source with some rules left out, and returns three per rule that
    fires: 0, 3, 6, 9, 12 or 15 strings. *)
Theorem suggest_pairings_shape (self : TerpeneProfile.t) :
  NoDup (TerpeneProfile.suggest_pairings self) /\
  sublist (TerpeneProfile.suggest_pairings self) (flat_map snd pairing_rules) /\
  length (TerpeneProfile.suggest_pairings self)
  = (3 * length (List.filter (fires self) pairing_rules))%nat /\
  (length (TerpeneProfile.suggest_pairings self) <= 15)%nat.
Proof.
  rewrite suggest_pairings_cases.
  unfold pairing_rules, fires. cbn [List.filter flat_map snd app fst].
  destruct (__gt__ (TerpeneProfile.limonene self) Decimal_0_5),
    (__gt__ (TerpeneProfile.myrcene self) Decimal_0_5),
    (__gt__ (TerpeneProfile.caryophyllene self) Decimal_0_3),
    (__gt__ (TerpeneProfile.pinene self) Decimal_0_3),
    (__gt__ (TerpeneProfile.linalool self) Decimal_0_2);
    (split; [compute_done|]);
    (split; [repeat first [apply sublist_nil | apply sublist_skip
                          | apply sublist_cons]|]);
    (split; [vm_compute; reflexivity|]); cbn; lia.
Qed.

(** X2.  A suggestion is returned exactly when the rule it belongs to
    fires: the concentration of its terpene exceeds the threshold.  So
    the result is empty exactly when no concentration exceeds its
    threshold. *)
Theorem suggest_pairings_membership (self : TerpeneProfile.t) :
  (forall rule item,
      In rule pairing_rules -> In item (snd rule) ->
      (In item (TerpeneProfile.suggest_pairings self) <->
       __gt__ (fst (fst rule) self) (snd (fst rule)) = true)) /\
  (TerpeneProfile.suggest_pairings self = [] <->
   forall rule, In rule pairing_rules ->
                __gt__ (fst (fst rule) self) (snd (fst rule)) = false).
Proof.
  rewrite suggest_pairings_cases. split.
  - intros rule item Hrule Hitem.
    unfold pairing_rules in Hrule. cbn [In] in Hrule.
    repeat (destruct Hrule as [<-|Hrule]); try contradiction;
      cbn [fst snd In] in Hitem |- *;
      repeat (destruct Hitem as [<-|Hitem]); try contradiction;
      destruct (__gt__ (TerpeneProfile.limonene self) Decimal_0_5),
        (__gt__ (TerpeneProfile.myrcene self) Decimal_0_5),
        (__gt__ (TerpeneProfile.caryophyllene self) Decimal_0_3),
        (__gt__ (TerpeneProfile.pinene self) Decimal_0_3),
        (__gt__ (TerpeneProfile.linalool self) Decimal_0_2);
      cbn [app In]; split; intros H; try reflexivity; try discriminate H;
      try (repeat (destruct H as [H|H]; [discriminate H|]); contradiction);
      auto 20.
  - split.
    + intros Hnil rule Hrule. unfold pairing_rules in Hrule. cbn [In] in Hrule.
      repeat (destruct Hrule as [<-|Hrule]); try contradiction; cbn [fst snd];
        destruct (__gt__ (TerpeneProfile.limonene self) Decimal_0_5),
          (__gt__ (TerpeneProfile.myrcene self) Decimal_0_5),
          (__gt__ (TerpeneProfile.caryophyllene self) Decimal_0_3),
          (__gt__ (TerpeneProfile.pinene self) Decimal_0_3),
          (__gt__ (TerpeneProfile.linalool self) Decimal_0_2);
        try reflexivity; discriminate Hnil.
    + intros Hnone.
      assert (Hany : forall f t items,
                 In (f, t, items) pairing_rules -> __gt__ (f self) t = false)
        by (intros f t items Hin; exact (Hnone _ Hin)).
      rewrite (Hany _ _ _ (or_introl eq_refl)).
      rewrite (Hany _ _ _ (or_intror (or_introl eq_refl))).
      rewrite (Hany _ _ _ (or_intror (or_intror (or_introl eq_refl)))).
      rewrite (Hany _ _ _
                 (or_intror (or_intror (or_intror (or_introl eq_refl))))).
      rewrite (Hany _ _ _
                 (or_intror (or_intror (or_intror (or_intror
                                                     (or_introl eq_refl)))))).
      reflexivity.
Qed.

(** X3.  Raising concentrations only adds suggestions: when none of the
    five concentrations of [p'] is below that of [p], the suggestions
    for [p] are those for [p'] with some left out. *)
Theorem suggest_pairings_monotone (p p' : TerpeneProfile.t) :
  __lt__ (TerpeneProfile.limonene p') (TerpeneProfile.limonene p) = false ->
  __lt__ (TerpeneProfile.myrcene p') (TerpeneProfile.myrcene p) = false ->
  __lt__ (TerpeneProfile.caryophyllene p') (TerpeneProfile.caryophyllene p) = false ->
  __lt__ (TerpeneProfile.pinene p') (TerpeneProfile.pinene p) = false ->
  __lt__ (TerpeneProfile.linalool p') (TerpeneProfile.linalool p) = false ->
  sublist (TerpeneProfile.suggest_pairings p) (TerpeneProfile.suggest_pairings p').
Proof.
  intros Hl Hm Hc Hp Hn. rewrite !suggest_pairings_cases.
  pose proof (gt_mono _ _ Decimal_0_5 Hl) as Gl.
  pose proof (gt_mono _ _ Decimal_0_5 Hm) as Gm.
  pose proof (gt_mono _ _ Decimal_0_3 Hc) as Gc.
  pose proof (gt_mono _ _ Decimal_0_3 Hp) as Gp.
  pose proof (gt_mono _ _ Decimal_0_2 Hn) as Gn.
  repeat apply sublist_app.
  - destruct (__gt__ (TerpeneProfile.limonene p) Decimal_0_5);
      [rewrite Gl by reflexivity; reflexivity|apply sublist_nil_l].
  - destruct (__gt__ (TerpeneProfile.myrcene p) Decimal_0_5);
      [rewrite Gm by reflexivity; reflexivity|apply sublist_nil_l].
  - destruct (__gt__ (TerpeneProfile.caryophyllene p) Decimal_0_3);
      [rewrite Gc by reflexivity; reflexivity|apply sublist_nil_l].
  - destruct (__gt__ (TerpeneProfile.pinene p) Decimal_0_3);
      [rewrite Gp by reflexivity; reflexivity|apply sublist_nil_l].
  - destruct (__gt__ (TerpeneProfile.linalool p) Decimal_0_2);
      [rewrite Gn by reflexivity; reflexivity|apply sublist_nil_l].
Qed.

Lemma suggest_pairings_monotone_witness :
  sublist (TerpeneProfile.suggest_pairings limonene_profile)
          (TerpeneProfile.suggest_pairings full_profile).
Proof.
  apply (suggest_pairings_monotone limonene_profile full_profile);
    reflexivity.
Defined.

End Pairings.

Section EnumerationsMore.

(** X14.  In each of the seven vocabularies the members have pairwise
    distinct values, so no member is an alias of another, and calling
    the class on a string returns a member exactly when the string is
    that member's value: IngredientType(t.value) is t, and so on. *)
Theorem vocabularies_faithful :
  faithful IngredientType.t /\ faithful IngredientForm.t /\
  faithful DosageUnit.t /\ faithful RecipeCategory.t /\
  faithful DietaryRestriction.t /\ faithful AllergenType.t /\
  faithful ComplianceStatus.t.
Proof.
  repeat split;
    try (apply NoDup_ListNoDup; vm_compute;
         repeat (constructor; [cbn; intuition discriminate|]); constructor);
    try (intros e; destruct e; cbn; tauto);
    try (intros Hs; apply by_value_found in Hs; tauto);
    try (intros <-; match goal with |- by_value (value ?e) = _ => destruct e end;
         reflexivity).
Qed.

End EnumerationsMore.

Section Doses.
Import PyDecimal PyDecimalFacts PyDecimalMore PyDecimalSigns.






End Doses.

Section DosageTotals.
Import PyDecimal PyDecimalFacts PyDecimalMore PyDecimalSigns PyDecimalQuotient.

(** The loop computes the two totals side by side; neither reads the
    other. *)
Lemma fold_accumulate_split (items : list (CannabisIngredient.t * Decimal)) :
  forall t c : Decimal,
    fold_left Recipe.accumulate items (t, c)
    = (sum_products (thc_terms items) t, sum_products (cbd_terms items) c).
Proof.
  induction items as [|[ingredient amount] items IH]; intros t c.
  - reflexivity.
  - cbn [fold_left Recipe.accumulate]. rewrite IH. reflexivity.
Qed.

Lemma totals_split (r : Recipe.t) :
  Recipe.totals r
  = (sum_products (thc_terms (Recipe.cannabis_ingredients r)) Decimal_0_00,
     sum_products (cbd_terms (Recipe.cannabis_ingredients r)) Decimal_0_00).
Proof. apply fold_accumulate_split. Qed.

(** The DosageInfo returned, field by field. *)
Lemma calculate_total_dosage_fields (r : Recipe.t) :
  exists d : DosageInfo.t,
    Recipe.calculate_total_dosage r = Ok d /\
    DosageInfo.total_thc_mg d
    = sum_products (thc_terms (Recipe.cannabis_ingredients r)) Decimal_0_00 /\
    DosageInfo.total_cbd_mg d
    = sum_products (cbd_terms (Recipe.cannabis_ingredients r)) Decimal_0_00 /\
    per_serving (DosageInfo.total_thc_mg d) (Recipe.servings r)
    = Ok (DosageInfo.thc_mg_per_serving d) /\
    per_serving (DosageInfo.total_cbd_mg d) (Recipe.servings r)
    = Ok (DosageInfo.cbd_mg_per_serving d) /\
    DosageInfo.high_dose_warning d
    = negb (Recipe.servings r =? 0)
      && __gt__ (DosageInfo.thc_mg_per_serving d) Decimal_10.
Proof.
  unfold per_serving.
  destruct (Z.eq_dec (Recipe.servings r) 0) as [Hs|Hs].
  - rewrite calculate_total_dosage_zero by assumption.
    eexists. split; [reflexivity|]. cbn [DosageInfo.total_thc_mg
      DosageInfo.total_cbd_mg DosageInfo.thc_mg_per_serving
      DosageInfo.cbd_mg_per_serving DosageInfo.high_dose_warning].
    rewrite totals_split, Hs. cbn. auto 10.
  - destruct (calculate_total_dosage_nonzero r Hs) as (qt & qc & Ht & Hc & ->).
    eexists. split; [reflexivity|]. cbn [DosageInfo.total_thc_mg
      DosageInfo.total_cbd_mg DosageInfo.thc_mg_per_serving
      DosageInfo.cbd_mg_per_serving DosageInfo.high_dose_warning].
    rewrite (proj2 (Z.eqb_neq _ _) Hs). cbn [negb andb].
    rewrite totals_split in *. cbn [fst snd] in *. auto 10.
Qed.











(** With servings a power of ten the rounding-only division is exact. *)
Lemma power_of_ten_servings_unbounded (r : Recipe.t) (k : nat) :
  Recipe.servings r = 10 ^ Z.of_nat k ->
  exists d : DosageInfo.t,
    Recipe.calculate_total_dosage r = Ok d /\
    (to_Q (DosageInfo.thc_mg_per_serving d) * inject_Z (Recipe.servings r)
     == to_Q (DosageInfo.total_thc_mg d))%Q /\
    (to_Q (DosageInfo.cbd_mg_per_serving d) * inject_Z (Recipe.servings r)
     == to_Q (DosageInfo.total_cbd_mg d))%Q /\
    (DosageInfo.high_dose_warning d = true <->
     (inject_Z (10 * Recipe.servings r) < to_Q (DosageInfo.total_thc_mg d))%Q).
Proof.
  intros Hs.
  assert (Hpos : 0 < Recipe.servings r) by (rewrite Hs; pow_pos).
  assert (Hn : Recipe.servings r <> 0) by lia.
  destruct (calculate_total_dosage_fields r) as (d & Hd & Ht & Hc & Hqt & Hqc & Hw).
  exists d. split; [exact Hd|].
  unfold per_serving in Hqt, Hqc.
  rewrite (proj2 (Z.eqb_neq _ _) Hn) in Hqt, Hqc, Hw. cbn [negb andb] in Hqt, Hqc, Hw.
  pose proof (totals_digits r) as [Hdt Hdc]. rewrite totals_split in Hdt, Hdc.
  cbn [fst snd] in Hdt, Hdc. rewrite <- Ht in Hdt. rewrite <- Hc in Hdc.
  assert (Hshift : forall t : Decimal,
             (to_Q t == to_Q (mkDecimal (_sign t) (_int t) (_exp t - Z.of_nat k))
                        * to_Q (of_int (Recipe.servings r)))%Q).
  { intros t. rewrite to_Q_of_int, Hs. unfold to_Q. cbn [_sign _int _exp].
    rewrite <- Qmult_assoc. apply Qmult_comp; [reflexivity|].
    pose proof (Zpower_Qpower 10 (Z.of_nat k) ltac:(lia)) as HP.
    change (inject_Z 10) with (10 # 1) in HP. rewrite HP.
    rewrite <- Qpower_plus by exact ten_nonzero.
    replace (_exp t - Z.of_nat k + Z.of_nat k) with (_exp t) by lia. reflexivity. }
  destruct (truediv_exact (DosageInfo.total_thc_mg d) (of_int (Recipe.servings r))
              (mkDecimal (_sign (DosageInfo.total_thc_mg d))
                 (_int (DosageInfo.total_thc_mg d))
                 (_exp (DosageInfo.total_thc_mg d) - Z.of_nat k))
              (of_int_nonzero _ Hn) Hdt (Hshift _)) as (qt & Hqt' & Hvt).
  destruct (truediv_exact (DosageInfo.total_cbd_mg d) (of_int (Recipe.servings r))
              (mkDecimal (_sign (DosageInfo.total_cbd_mg d))
                 (_int (DosageInfo.total_cbd_mg d))
                 (_exp (DosageInfo.total_cbd_mg d) - Z.of_nat k))
              (of_int_nonzero _ Hn) Hdc (Hshift _)) as (qc & Hqc' & Hvc).
  rewrite Hqt in Hqt'. injection Hqt' as <-.
  rewrite Hqc in Hqc'. injection Hqc' as <-.
  assert (Et : (to_Q (DosageInfo.thc_mg_per_serving d) * inject_Z (Recipe.servings r)
                == to_Q (DosageInfo.total_thc_mg d))%Q).
  { rewrite Hvt, (Hshift (DosageInfo.total_thc_mg d)) at 1.
    rewrite to_Q_of_int. reflexivity. }
  split; [exact Et|]. split.
  - rewrite Hvc, (Hshift (DosageInfo.total_cbd_mg d)) at 1.
    rewrite to_Q_of_int. reflexivity.
  - rewrite Hw, gt_to_Q, <- Et, inject_Z_mult.
    change (to_Q Decimal_10) with (inject_Z 10 * 1)%Q at 1.
    rewrite Qmult_1_r. split; intros H.
    + apply Qmult_lt_compat_r; [|exact H].
      change 0%Q with (inject_Z 0). rewrite <- Zlt_Qlt. exact Hpos.
    + apply Qmult_lt_r in H; [exact H|].
      change 0%Q with (inject_Z 0). rewrite <- Zlt_Qlt. exact Hpos.
Qed.

(** X10.  With servings a power of ten (1, 10, 100, ...) and a run
    within the exponent limits of the context
    ([DefaultContext.run_in_range]), the division is exact:
    each per-serving value times servings equals its total, a
    one-serving recipe has thc_mg_per_serving == total_thc_mg, and the
    warning is raised exactly when total_thc_mg exceeds 10 * servings. *)
Theorem power_of_ten_servings_exact (r : Recipe.t) (k : nat) :
  Recipe.servings r = 10 ^ Z.of_nat k ->
  DefaultContext.run_in_range r = true ->
  exists d : DosageInfo.t,
    DefaultContext.calculate_total_dosage r = Ok d /\
    (to_Q (DosageInfo.thc_mg_per_serving d) * inject_Z (Recipe.servings r)
     == to_Q (DosageInfo.total_thc_mg d))%Q /\
    (to_Q (DosageInfo.cbd_mg_per_serving d) * inject_Z (Recipe.servings r)
     == to_Q (DosageInfo.total_cbd_mg d))%Q /\
    (DosageInfo.high_dose_warning d = true <->
     (inject_Z (10 * Recipe.servings r) < to_Q (DosageInfo.total_thc_mg d))%Q).
Proof.
  intros Hs Hr. rewrite (run_in_range_returns r Hr).
  exact (power_of_ten_servings_unbounded r k Hs).
Qed.

Lemma power_of_ten_servings_exact_witness :
  Recipe.servings (recipe_with scenario_items 10) = 10 ^ Z.of_nat 1 /\
  DefaultContext.run_in_range (recipe_with scenario_items 10) = true /\
  exists d : DosageInfo.t,
    DefaultContext.calculate_total_dosage (recipe_with scenario_items 10) = Ok d /\
    (to_Q (DosageInfo.thc_mg_per_serving d)
     * inject_Z (Recipe.servings (recipe_with scenario_items 10))
     == to_Q (DosageInfo.total_thc_mg d))%Q /\
    (to_Q (DosageInfo.cbd_mg_per_serving d)
     * inject_Z (Recipe.servings (recipe_with scenario_items 10))
     == to_Q (DosageInfo.total_cbd_mg d))%Q /\
    (DosageInfo.high_dose_warning d = true <->
     (inject_Z (10 * Recipe.servings (recipe_with scenario_items 10))
      < to_Q (DosageInfo.total_thc_mg d))%Q).
Proof.
  split; [reflexivity|]. split; [vm_compute; reflexivity|].
  apply (power_of_ten_servings_exact (recipe_with scenario_items 10) 1).
  - reflexivity.
  - vm_compute. reflexivity.
Defined.

End DosageTotals.

Section ExactTotals.
Import PyDecimal PyDecimalFacts PyDecimalMore PyDecimalSigns PyDecimalExact.

Lemma scaled_coarser (e0 m : Z) (d : Decimal) :
  e0 <= m -> m <= _exp d -> Z.abs (scaled m d) <= Z.abs (scaled e0 d).
Proof.
  intros H0 Hm. rewrite (scaled_shift e0 m d H0 Hm), Z.abs_mul.
  assert (0 < 10 ^ (m - e0)) by pow_pos. rewrite (Z.abs_eq (10 ^ (m - e0))) by lia.
  pose proof (Z.abs_nonneg (scaled m d)). nia.
Qed.

(** The loop on a grid: when the start and every product are whole
    numbers of units 10^e0 and their magnitudes sum to less than 10^prec
    units, the result is the exact sum, at the smallest exponent met. *)
Lemma sum_products_grid (e0 : Z) (terms : list (Decimal * Decimal)) :
  forall start : Decimal,
    e0 <= _exp start -> (_int start = 0%N -> _sign start = false) ->
    on_grid e0 terms ->
    Z.abs (scaled e0 start)
    + Zsum (map (fun term => Z.abs (scaled e0 (product term))) terms) < 10 ^ prec ->
    e0 <= _exp (sum_products terms start) /\
    _exp (sum_products terms start)
    = fold_left Z.min (map (fun term => _exp (product term)) terms) (_exp start) /\
    scaled e0 (sum_products terms start)
    = scaled e0 start + Zsum (map (fun term => scaled e0 (product term)) terms) /\
    (_int (sum_products terms start) = 0%N -> _sign (sum_products terms start) = false).
Proof.
  induction terms as [|term terms IH]; intros start He Hcanon Hgrid Hbound.
  - cbn [sum_products fold_left map Zsum fold_right]. split; [exact He|].
    split; [reflexivity|]. split; [lia|exact Hcanon].
  - apply Forall_cons in Hgrid as [Hterm Hgrid].
    cbn [map Zsum fold_right] in Hbound |- *. fold (Zsum) in Hbound |- *.
    change (fold_right Z.add 0) with Zsum in Hbound |- *.
    assert (Hrest : 0 <= Zsum (map (fun term => Z.abs (scaled e0 (product term))) terms)).
    { clear. induction terms as [|t l IHl]; cbn [map Zsum fold_right]; [lia|].
      change (fold_right Z.add 0) with Zsum. pose proof (Z.abs_nonneg (scaled e0 (product t))). lia. }
    change (e0 <= _exp (product term)) in Hterm.
    cbn [sum_products fold_left].
    change (fold_left _ terms ?s) with (sum_products terms s).
    rewrite (mul_grid e0 term Hterm) by lia.
    set (m := Z.min (_exp start) (_exp (product term))).
    assert (Hm0 : e0 <= m) by (unfold m; lia).
    pose proof (scaled_coarser e0 m start Hm0 ltac:(unfold m; lia)) as Hs.
    pose proof (scaled_coarser e0 m (product term) Hm0 ltac:(unfold m; lia)) as Hp.
    rewrite (add_grid start (product term)) by (fold m; lia || exact Hcanon).
    fold m.
    assert (Hval : scaled e0 (units m (scaled m start + scaled m (product term)))
                   = scaled e0 start + scaled e0 (product term)).
    { rewrite scaled_units, (scaled_shift e0 m start), (scaled_shift e0 m (product term))
        by (unfold m; lia). lia. }
    destruct (IH (units m (scaled m start + scaled m (product term))))
      as (H1 & H2 & H3 & H4).
    + exact Hm0.
    + unfold units. cbn [_int _sign]. intros Hz.
      apply Z.ltb_ge. lia.
    + exact Hgrid.
    + rewrite Hval. lia.
    + split; [exact H1|]. split; [exact H2|]. split; [|exact H4].
      rewrite H3, Hval. lia.
Qed.



(** Fractions against units. *)
Lemma product_to_Q (e0 : Z) (term : Decimal * Decimal) :
  e0 <= _exp (product term) ->
  (to_Q (fst term) * to_Q (snd term)
   == inject_Z (scaled e0 (product term)) * (10 # 1) ^ e0)%Q.
Proof.
  intros He. rewrite <- (to_Q_scaled e0 (product term) He).
  symmetry. apply to_Q_product.
Qed.

Lemma exact_sum_units (e0 : Z) (terms : list (Decimal * Decimal)) :
  on_grid e0 terms ->
  (exact_sum terms
   == inject_Z (Zsum (map (fun term => scaled e0 (product term)) terms))
      * (10 # 1) ^ e0)%Q.
Proof.
  induction 1 as [|term terms Hterm _ IH]; cbn [exact_sum map Zsum fold_right].
  - ring.
  - change (fold_right Z.add 0) with Zsum. fold (exact_sum terms).
    rewrite IH, (product_to_Q e0 term Hterm), inject_Z_plus. ring.
Qed.

Lemma magnitude_units (e0 : Z) (terms : list (Decimal * Decimal)) :
  on_grid e0 terms ->
  (magnitude terms
   == inject_Z (Zsum (map (fun term => Z.abs (scaled e0 (product term))) terms))
      * (10 # 1) ^ e0)%Q.
Proof.
  induction 1 as [|term terms Hterm _ IH]; cbn [magnitude map Zsum fold_right].
  - ring.
  - change (fold_right Z.add 0) with Zsum. fold (magnitude terms).
    rewrite IH, (product_to_Q e0 term Hterm), inject_Z_plus.
    rewrite Qabs_Qmult, Qabs_inject_Z.
    rewrite (Qabs_pos ((10 # 1) ^ e0)) by (apply Qlt_le_weak, pow10_Q_pos).
    ring.
Qed.

Lemma magnitude_bound_units (e0 : Z) (terms : list (Decimal * Decimal)) :
  on_grid e0 terms -> (magnitude terms < (10 # 1) ^ (prec + e0))%Q ->
  Zsum (map (fun term => Z.abs (scaled e0 (product term))) terms) < 10 ^ prec.
Proof.
  intros Hgrid Hmag. rewrite (magnitude_units e0 terms Hgrid) in Hmag.
  rewrite Qpower_plus in Hmag by exact ten_nonzero.
  apply Qmult_lt_r in Hmag; [|apply pow10_Q_pos].
  pose proof (Zpower_Qpower 10 prec ltac:(unfold prec; lia)) as HP.
  change (inject_Z 10) with (10 # 1) in HP. rewrite <- HP in Hmag.
  rewrite <- Zlt_Qlt in Hmag. exact Hmag.
Qed.

(** The total of a list of terms in the exact regime. *)
Lemma sum_products_exact (e0 : Z) (terms : list (Decimal * Decimal)) :
  e0 <= -2 -> on_grid e0 terms ->
  (magnitude terms < (10 # 1) ^ (prec + e0))%Q ->
  (to_Q (sum_products terms Decimal_0_00) == exact_sum terms)%Q /\
  e0 <= _exp (sum_products terms Decimal_0_00) <= -2.
Proof.
  intros He Hgrid Hmag.
  pose proof (magnitude_bound_units e0 terms Hgrid Hmag) as Hb.
  destruct (sum_products_grid e0 terms Decimal_0_00) as (H1 & H2 & H3 & H4).
  - exact He.
  - reflexivity.
  - exact Hgrid.
  - unfold Decimal_0_00. rewrite scaled_mk. cbn [minus_one_pow]. lia.
  - split.
    + rewrite (to_Q_scaled e0 _ H1), H3, (exact_sum_units e0 terms Hgrid).
      unfold Decimal_0_00. rewrite scaled_mk. cbn [minus_one_pow Z.of_N].
      reflexivity.
    + split; [exact H1|]. rewrite H2.
      assert (forall (l : list Z) (m : Z), m <= -2 -> fold_left Z.min l m <= -2)
        as Hmin by (induction l as [|x l IHl]; intros m Hm; cbn [fold_left];
                    [exact Hm|apply IHl; lia]).
      apply Hmin. cbn. lia.
Qed.

End ExactTotals.

Section Reordering.
Import PyDecimal PyDecimalFacts PyDecimalMore PyDecimalSigns PyDecimalExact.



(** X11.  Where no rounding can occur the totals are exact: for a run
    within the exponent limits of the context
    ([DefaultContext.run_in_range]), when every product
    potency * amount is a whole number of units 10^e0 (e0 <= -2) and the
    magnitudes of the products sum to less than 10^28 units,
    total_thc_mg equals the exact sum of the products, and keeps at
    least two decimals; likewise total_cbd_mg. *)
Theorem totals_are_exact_sums (r : Recipe.t) (e0 : Z) :
  e0 <= -2 ->
  DefaultContext.run_in_range r = true ->
  exists d : DosageInfo.t,
    DefaultContext.calculate_total_dosage r = Ok d /\
    (on_grid e0 (thc_terms (Recipe.cannabis_ingredients r)) ->
     (magnitude (thc_terms (Recipe.cannabis_ingredients r))
      < (10 # 1) ^ (prec + e0))%Q ->
     (to_Q (DosageInfo.total_thc_mg d)
      == exact_sum (thc_terms (Recipe.cannabis_ingredients r)))%Q /\
     e0 <= _exp (DosageInfo.total_thc_mg d) <= -2) /\
    (on_grid e0 (cbd_terms (Recipe.cannabis_ingredients r)) ->
     (magnitude (cbd_terms (Recipe.cannabis_ingredients r))
      < (10 # 1) ^ (prec + e0))%Q ->
     (to_Q (DosageInfo.total_cbd_mg d)
      == exact_sum (cbd_terms (Recipe.cannabis_ingredients r)))%Q /\
     e0 <= _exp (DosageInfo.total_cbd_mg d) <= -2).
Proof.
  intros He Hr. rewrite (run_in_range_returns r Hr).
  destruct (calculate_total_dosage_fields r) as (d & Hd & Ht & Hc & _).
  exists d. split; [exact Hd|]. rewrite Ht, Hc.
  split; intros Hgrid Hmag; apply (sum_products_exact e0); assumption.
Qed.

Lemma totals_are_exact_sums_witness :
  DefaultContext.run_in_range recipe_scenario_relabelled = true /\
  on_grid (-2) (thc_terms (Recipe.cannabis_ingredients recipe_scenario_relabelled)) /\
  on_grid (-2) (cbd_terms (Recipe.cannabis_ingredients recipe_scenario_relabelled)) /\
  exists d : DosageInfo.t,
    DefaultContext.calculate_total_dosage recipe_scenario_relabelled = Ok d /\
    (to_Q (DosageInfo.total_thc_mg d)
     == exact_sum (thc_terms (Recipe.cannabis_ingredients recipe_scenario_relabelled)))%Q /\
    (to_Q (DosageInfo.total_cbd_mg d)
     == exact_sum (cbd_terms (Recipe.cannabis_ingredients recipe_scenario_relabelled)))%Q.
Proof.
  assert (Gt : on_grid (-2)
                 (thc_terms (Recipe.cannabis_ingredients recipe_scenario_relabelled)))
    by (repeat constructor; cbn; lia).
  assert (Gc : on_grid (-2)
                 (cbd_terms (Recipe.cannabis_ingredients recipe_scenario_relabelled)))
    by (repeat constructor; cbn; lia).
  split; [vm_compute; reflexivity|]. split; [exact Gt|]. split; [exact Gc|].
  destruct (totals_are_exact_sums recipe_scenario_relabelled (-2))
    as (d & Hd & Ht & Hc); [lia|vm_compute; reflexivity|].
  exists d. split; [exact Hd|]. split.
  - apply Ht; [exact Gt|vm_compute; reflexivity].
  - apply Hc; [exact Gc|vm_compute; reflexivity].
Defined.



(** X13.  Beyond the precision the order of the ingredients does
    matter: there are two recipes with the same servings whose
    cannabis_ingredients are the same pairs in another order and whose
    total_thc_mg differ. *)
Theorem order_matters_beyond_precision :
  exists (r r' : Recipe.t) (d d' : DosageInfo.t),
    Permutation (Recipe.cannabis_ingredients r) (Recipe.cannabis_ingredients r') /\
    Recipe.servings r = Recipe.servings r' /\
    Recipe.calculate_total_dosage r = Ok d /\
    Recipe.calculate_total_dosage r' = Ok d' /\
    __eq__ (DosageInfo.total_thc_mg d) (DosageInfo.total_thc_mg d') = false.
Proof.
  exists (recipe_with [huge_item; five_item; five_item] 1),
    (recipe_with [five_item; five_item; huge_item] 1).
  eexists. eexists.
  split; [|split; [reflexivity|split; [vm_compute; reflexivity|
                                       split; [vm_compute; reflexivity|]]]].
  - cbn [recipe_with Recipe.cannabis_ingredients].
    apply Permutation_sym.
    apply (Permutation_app_comm [five_item; five_item] [huge_item]).
  - vm_compute. reflexivity.
Qed.

End Reordering.

Section WithinLimits.
Import PyDecimal PyDecimalFacts PyDecimalMore DefaultContextFacts.

(** X15.  Within the exponent limits of the context the checks of
    Decimal._fix change nothing: a dose, the mapping of
    calculate_per_serving and the DosageInfo of calculate_total_dosage
    are what rounding to 28 digits alone gives, whenever every Decimal
    that rounding alone produces is a zero with exponent between Etiny
    and Emax or has its leading digit at an exponent above Emin and at
    most Emax. *)
Theorem within_limits_rounding_alone :
  (forall (self : CannabisIngredient.t) (grams : Decimal),
      (DefaultContext.in_range
         (CannabisIngredient.calculate_thc_dose self grams) = true ->
       DefaultContext.calculate_thc_dose self grams
       = Ok (CannabisIngredient.calculate_thc_dose self grams)) /\
      (DefaultContext.in_range
         (CannabisIngredient.calculate_cbd_dose self grams) = true ->
       DefaultContext.calculate_cbd_dose self grams
       = Ok (CannabisIngredient.calculate_cbd_dose self grams))) /\
  (forall self : DosageInfo.t,
      DefaultContext.quotient_in_range (DosageInfo.total_thc_mg self)
        (DosageInfo.servings self) = true ->
      DefaultContext.quotient_in_range (DosageInfo.total_cbd_mg self)
        (DosageInfo.servings self) = true ->
      DefaultContext.calculate_per_serving self
      = DosageInfo.calculate_per_serving self) /\
  (forall r : Recipe.t,
      DefaultContext.run_in_range r = true ->
      DefaultContext.calculate_total_dosage r = Recipe.calculate_total_dosage r).
Proof.
  split; [|split].
  - intros self grams. split; apply mul_in_range.
  - intros self Ht Hc.
    unfold DefaultContext.calculate_per_serving, DosageInfo.calculate_per_serving.
    unfold DefaultContext.quotient_in_range in Ht, Hc.
    destruct (Z.eqb_spec (DosageInfo.servings self) 0) as [Hs|Hs];
      cbn [negb orb] in *; [reflexivity|].
    destruct (PyDecimal.__truediv__ (DosageInfo.total_thc_mg self) _)
      as [thc|] eqn:H1; [|discriminate].
    destruct (PyDecimal.__truediv__ (DosageInfo.total_cbd_mg self) _)
      as [cbd|] eqn:H2; [|discriminate].
    rewrite (truediv_in_range _ _ _ H1 Ht), (truediv_in_range _ _ _ H2 Hc).
    reflexivity.
  - exact run_in_range_returns.
Qed.

Lemma within_limits_rounding_alone_witness :
  DefaultContext.run_in_range recipe_scenario_relabelled = true /\
  DefaultContext.calculate_total_dosage recipe_scenario_relabelled
  = Recipe.calculate_total_dosage recipe_scenario_relabelled.
Proof.
  split; [vm_compute; reflexivity|].
  apply (proj2 (proj2 within_limits_rounding_alone)). vm_compute. reflexivity.
Defined.

End WithinLimits.
